(** * PDFScannerApp: the upload history engine of [app.py]

    A shallow embedding of the Flask application [src/PDF Scanner App/app.py]:
    the persisted history document, the upload orchestrator, the aggregated
    views (history, daily and monthly summaries, statistics), the delete /
    reset / settings routes and the workbook of [save_excel], followed by the
    properties established about them.

    Conventions.
    - Python [int] is [Z]; Python [float] is the kernel's binary64 [float]
      (IEEE 754 double, as CPython uses), so that costs are computed with the
      very rounding the interpreter performs.
    - Python [str] is [string], the text in UTF-8: equality, the order of
      the character codes, [in] and [endswith] are those of the bytes; a
      slice counts characters, [s[:n]] is [str_take n s].
    - What the libraries decide and [app.py] does not is a parameter, [Lib.t]:
      [str.lower] beyond ASCII, whether [sum] compensates a run of floats
      (CPython does from 3.12 on), and which strings a worksheet of
      [openpyxl] accepts in a cell.  The properties hold for every value of
      it; the samples are evaluated on [cpython_3_11] and [cpython_3_12].
    - A route is a function from the request's inputs and the state of the
      disk to what the view function does (it returns a response or lets an
      exception escape, which Flask answers with status 500) and the new
      state of the disk.  The clock ([datetime.now()]), the drawn
      identifiers ([uuid.uuid4()]), whether the file system opens the path
      [f.save] writes to, and the outcome of [PdfReader] are inputs of the
      route that consumes them.
    - The state [disk] has [data/history.json] absent or holding a document;
      [load_history_file] is [load_history] on a file that may hold anything.
    - [save_excel] writes a workbook that is a projection of the document
      just saved; no route reads it back, and it is not part of the state.
      The projection itself is embedded as a function of the document, and
      it may raise: [save_history] calls it after the document is written. *)

From Stdlib Require Import ZArith List Bool String Ascii Lia.
From Stdlib Require Import Floats DecimalString Permutation Sorted.
From Stdlib Require Import RelationClasses.
Import ListNotations.

Set Implicit Arguments.
Open Scope Z_scope.
Open Scope string_scope.

(* ------------------------------------------------------------------ *)
(** * Python numbers *)
(* ------------------------------------------------------------------ *)

Module Py.

(** Exceptions the modelled code can let escape. *)
Inductive exn : Type :=
| ValueError
| TypeError
| OverflowError
| ZeroDivisionError
| AttributeError
| FileNotFoundError
| IllegalCharacterError
| JSONDecodeError.

(** The outcome of evaluating an expression that may raise. *)
Inductive outcome (A : Type) : Type :=
| Returned (a : A)
| Raised (e : exn).
Arguments Returned {A} a.
Arguments Raised {A} e.

Definition bind {A B : Type} (m : outcome A) (k : A -> outcome B) : outcome B :=
  match m with
  | Returned a => k a
  | Raised e => Raised e
  end.

Notation "x <- m ;; k" := (bind m (fun x => k))
  (at level 100, m at next level, right associativity).

(** A number as JSON and Python distinguish them: [2000] is not [2000.0]. *)
Inductive num : Type :=
| PyInt (z : Z)
| PyFloat (f : float).

(** [float(z)]: the double nearest to the integer [z], ties to even.  Beyond
    the range of doubles the result is an infinity; CPython raises
    [OverflowError] there, which [int_to_float] reports. *)
Definition float_of_int (z : Z) : float :=
  SF2Prim (binary_normalize prec emax z 0 false).

Definition int_to_float (z : Z) : outcome float :=
  let f := float_of_int z in
  if PrimFloat.is_infinity f then Raised OverflowError else Returned f.

(** [int(f)]: truncation toward zero; [nan] and the infinities raise. *)
Definition int_of_float (f : float) : outcome Z :=
  match Prim2SF f with
  | S754_nan => Raised ValueError
  | S754_infinity _ => Raised OverflowError
  | S754_zero _ => Returned 0
  | S754_finite s m e =>
      let a := match e with
               | Zneg k => Zpos m / 2 ^ Zpos k
               | _ => Zpos m * 2 ^ e
               end in
      Returned (if s then - a else a)
  end.

(** The integer nearest to [num / den] ([den > 0]), ties to even. *)
Definition round_half_even (num den : Z) : Z :=
  let q := num / den in
  let r := num mod den in
  match 2 * r ?= den with
  | Lt => q
  | Gt => q + 1
  | Eq => if Z.even q then q else q + 1
  end.

(** [round(x, nd)] on a finite double, [nd >= 0], as [float.__round__]
    computes it: the exact binary value of [x] is rounded to [nd] decimals
    (correctly, ties to even: [_Py_dg_dtoa] in mode 3), and the decimal is
    converted back to the nearest double ([_Py_dg_strtod]).  With [x] equal
    to [m * 2^e] the first step yields the integer [n] nearest to
    [m * 2^e * 10^nd]; the second is the correctly rounded quotient
    [n / 10^nd]. *)
Definition SFround (nd : Z) (x : spec_float) : spec_float :=
  match x with
  | S754_finite s m e =>
      let p10 := 10 ^ nd in
      let n := match e with
               | Zneg k => round_half_even (Zpos m * p10) (2 ^ Zpos k)
               | _ => Zpos m * 2 ^ e * p10
               end in
      match n with
      | Z0 => S754_zero s
      | _ => let '(mz, ez, lz) := SFdiv_core_binary prec emax n 0 p10 0 in
             binary_round_aux prec emax s mz ez lz
      end
  | _ => x
  end.

(** NaN, the infinities and the zeros round to themselves. *)
Definition round_float (x : float) (nd : Z) : float :=
  SF2Prim (SFround nd (Prim2SF x)).

(** [round(v, nd)] with [nd >= 0]: an [int] is returned unchanged. *)
Definition round (v : num) (nd : Z) : num :=
  match v with
  | PyInt z => PyInt z
  | PyFloat f => PyFloat (round_float f nd)
  end.

(** [a + b] on numbers: an [int] meeting a [float] is converted first. *)
Definition add (a b : num) : num :=
  match a, b with
  | PyInt x, PyInt y => PyInt (x + y)
  | PyInt x, PyFloat g => PyFloat (PrimFloat.add (float_of_int x) g)
  | PyFloat f, PyInt y => PyFloat (PrimFloat.add f (float_of_int y))
  | PyFloat f, PyFloat g => PyFloat (PrimFloat.add f g)
  end.

(** [sum(xs)] from CPython 3.12 on, once the accumulator is a float: [f] is
    the running sum and [c] the compensation of its rounding errors
    (Neumaier), added at the end when it is finite and not zero.  An [int]
    item (one that fits a C [long], as the 0 of the routes does) is added to
    the running sum alone. *)
Fixpoint sum_compensated (f c : float) (xs : list num) : float :=
  match xs with
  | [] =>
      if (negb (PrimFloat.is_zero c) && PrimFloat.is_finite c)%bool
      then PrimFloat.add f c else f
  | PyFloat x :: rest =>
      let t := PrimFloat.add f x in
      let c' :=
        if PrimFloat.leb (PrimFloat.abs x) (PrimFloat.abs f)
        then PrimFloat.add c (PrimFloat.add (PrimFloat.sub f t) x)
        else PrimFloat.add c (PrimFloat.add (PrimFloat.sub x t) f) in
      sum_compensated t c' rest
  | PyInt z :: rest => sum_compensated (PrimFloat.add f (float_of_int z)) c rest
  end.

(** The [int]s that open the list are added exactly; the first float turns
    the accumulator into a float. *)
Fixpoint sum_from (acc : Z) (xs : list num) : num :=
  match xs with
  | [] => PyInt acc
  | PyInt z :: rest => sum_from (acc + z) rest
  | PyFloat x :: rest =>
      PyFloat (sum_compensated (PrimFloat.add (float_of_int acc) x) 0 rest)
  end.

(** [sum(xs)]: the accumulator starts at the [int] 0 and the items are added
    from the left; with [compensated] (CPython 3.12 and later) the rounding
    errors of the floats are compensated. *)
Definition sum (compensated : bool) (xs : list num) : num :=
  if compensated then sum_from 0 xs else fold_left add xs (PyInt 0).

(** [sum(xs)] when every item is an [int]. *)
Definition int_sum (xs : list Z) : Z := fold_left Z.add xs 0.

(** [f / d] with [f] a [float] and [d] an [int]: the divisor is converted
    first, then a zero divisor raises. *)
Definition truediv_float_int (f : float) (d : Z) : outcome float :=
  fd <- int_to_float d ;;
  if Z.eqb d 0 then Raised ZeroDivisionError
  else Returned (PrimFloat.div f fd).

(** [i * f] with [i] an [int] and [f] a [float]. *)
Definition mul_int_float (i : Z) (f : float) : float :=
  PrimFloat.mul (float_of_int i) f.

End Py.

Import Py.

(* ------------------------------------------------------------------ *)
(** * Python strings and the clock *)
(* ------------------------------------------------------------------ *)

(** [c.lower()] on one ASCII character: the letters [A]..[Z] are mapped. *)
Definition lower_ascii (c : ascii) : ascii :=
  let n := nat_of_ascii c in
  if (Nat.leb 65 n && Nat.leb n 90)%bool then ascii_of_nat (n + 32) else c.

(** [s.lower()] on a string of ASCII characters. *)
Fixpoint lower (s : string) : string :=
  match s with
  | EmptyString => EmptyString
  | String c s' => String (lower_ascii c) (lower s')
  end.

(** Whether every character of [s] is ASCII. *)
Fixpoint is_ascii (s : string) : bool :=
  match s with
  | EmptyString => true
  | String c s' => (Nat.ltb (nat_of_ascii c) 128 && is_ascii s')%bool
  end.

(** Whether a byte continues a character of the text begun before it. *)
Definition continues (c : ascii) : bool :=
  let n := nat_of_ascii c in (Nat.leb 128 n && Nat.ltb n 192)%bool.

(** [s[:n]], the first [n] characters of [s]. *)
Fixpoint str_take (n : nat) (s : string) : string :=
  match s with
  | EmptyString => EmptyString
  | String c s' =>
      if continues c then String c (str_take n s')
      else match n with
           | O => EmptyString
           | S n' => String c (str_take n' s')
           end
  end.

(** [s[n:]], what follows the first [n] characters of [s]. *)
Fixpoint str_drop (n : nat) (s : string) : string :=
  match s with
  | EmptyString => EmptyString
  | String c s' =>
      if continues c then str_drop n s'
      else match n with
           | O => s
           | S n' => str_drop n' s'
           end
  end.

(** [len(s)], the number of characters of [s]. *)
Fixpoint str_len (s : string) : nat :=
  match s with
  | EmptyString => O
  | String c s' => if continues c then str_len s' else S (str_len s')
  end.

(** What is taken from the libraries:
    - [unicode_lower s] is [s.lower()] for a string [s] that is not ASCII;
    - [compensated_sum] says whether [sum] compensates (CPython >= 3.12);
    - [cell_accepts s] says whether a worksheet takes the string [s] as the
      value of a cell ([openpyxl] raises [IllegalCharacterError] for a
      string with a control character). *)
Module Lib.
Record t : Type := {
  unicode_lower : string -> string;
  compensated_sum : bool;
  cell_accepts : string -> bool
}.
End Lib.

(** [s.lower()]. *)
Definition str_lower (lib : Lib.t) (s : string) : string :=
  if is_ascii s then lower s else Lib.unicode_lower lib s.

(** [s.endswith(suffix)], on the bytes. *)
Definition endswith (s suffix : string) : bool :=
  let n := String.length s in
  let k := String.length suffix in
  (Nat.leb k n && String.eqb (substring (n - k) k s) suffix)%bool.

(** [pat in s] on strings, on the bytes. *)
Fixpoint contains (pat s : string) : bool :=
  (prefix pat s ||
   match s with
   | EmptyString => false
   | String _ s' => contains pat s'
   end)%bool.

(** The truth value of a string: [""] is false. *)
Definition nonempty (s : string) : bool :=
  match s with
  | EmptyString => false
  | String _ _ => true
  end.

(** The truth value of [d.get(key)] when the value is a string or absent. *)
Definition truthy (v : option string) : bool :=
  match v with
  | Some s => nonempty s
  | None => false
  end.

(** A naive [datetime], microseconds dropped (no route prints them). *)
Record datetime : Type := {
  year : Z; month : Z; day : Z;
  hour : Z; minute : Z; second : Z
}.

(** The range [datetime.now()] takes its values in (years of four digits). *)
Definition valid_datetime (t : datetime) : Prop :=
  1000 <= year t <= 9999 /\ 1 <= month t <= 12 /\ 1 <= day t <= 31 /\
  0 <= hour t <= 23 /\ 0 <= minute t <= 59 /\ 0 <= second t <= 59.

(** [%d] of a non-negative integer. *)
Definition decimal (n : Z) : string := NilZero.string_of_uint (N.to_uint (Z.to_N n)).

Fixpoint zeros (k : nat) : string :=
  match k with
  | O => EmptyString
  | S k' => String "0" (zeros k')
  end.

(** [%0wd] of a non-negative integer: zeros on the left up to width [w]. *)
Definition zero_padded (w : nat) (n : Z) : string :=
  let s := decimal n in
  zeros (w - String.length s) ++ s.

(** [now.strftime("%Y-%m-%d")]: the C library prints [%Y] without padding. *)
Definition strftime_Ymd (t : datetime) : string :=
  decimal (year t) ++ "-" ++ zero_padded 2 (month t) ++ "-" ++
  zero_padded 2 (day t).

(** [now.isoformat(timespec="seconds")]: [YYYY-MM-DDTHH:MM:SS]. *)
Definition isoformat_seconds (t : datetime) : string :=
  zero_padded 4 (year t) ++ "-" ++ zero_padded 2 (month t) ++ "-" ++
  zero_padded 2 (day t) ++ "T" ++ zero_padded 2 (hour t) ++ ":" ++
  zero_padded 2 (minute t) ++ ":" ++ zero_padded 2 (second t).

(* ------------------------------------------------------------------ *)
(** * The persisted document and the disk *)
(* ------------------------------------------------------------------ *)

(** One element of [history["uploads"]], with the keys [upload_files]
    writes. *)
Module Entry.
Record t : Type := {
  id : string;
  date : string;
  timestamp : string;
  filename : string;
  saved_as : string;
  pages : Z;
  cost : float;
  size_bytes : Z
}.
End Entry.

(** [history["settings"]]. *)
Module Settings.
Record t : Type := {
  monthly_income : num;
  daily_pages : Z;
  days_per_month : Z
}.
End Settings.

(** The document [history.json] holds. *)
Module History.
Record t : Type := {
  uploads : list Entry.t;
  settings : Settings.t
}.
End History.

(** What the routes read and write: [data/history.json] (absent before the
    first save) and the names of the files under [Output/]. *)
Record disk : Type := {
  history_file : option History.t;
  output_dir : list string
}.

Definition COST_PER_PAGE : float :=
  PrimFloat.div 2000%float (float_of_int (700 * 30)).
Definition MAX_FILES : Z := 20.
Definition MAX_FILE_SIZE_MB : Z := 100.

Definition default_settings : Settings.t :=
  {| Settings.monthly_income := PyInt 2000;
     Settings.daily_pages := 700;
     Settings.days_per_month := 30 |}.

Definition load_history (d : disk) : History.t :=
  match history_file d with
  | Some data => data
  | None => {| History.uploads := []; History.settings := default_settings |}
  end.

(** [history.json] as [json.load] meets it: the text of a document, or
    something else (an empty or truncated file). *)
Inductive history_json : Type :=
| Document (data : History.t)
| NotJson.

(** [load_history] on a file that may hold anything: [json.load] raises on
    what is not JSON, and nothing catches it. *)
Definition load_history_file (file : option history_json) : outcome History.t :=
  match file with
  | Some (Document data) => Returned data
  | Some NotJson => Raised JSONDecodeError
  | None =>
      Returned {| History.uploads := []; History.settings := default_settings |}
  end.

(* ------------------------------------------------------------------ *)
(** * The workbook of [save_excel] *)
(* ------------------------------------------------------------------ *)

(** [sorted(xs, key=..., reverse=True)]: descending in the key, items of
    equal key in their original order. *)
Section Sorted.
Variable A : Type.
Variable key : A -> string.

Fixpoint insert_desc (x : A) (l : list A) : list A :=
  match l with
  | [] => [x]
  | y :: l' =>
      if String.ltb (key x) (key y) then y :: insert_desc x l' else x :: l
  end.

Definition sorted_desc (l : list A) : list A := fold_right insert_desc [] l.
End Sorted.


(** [a / b] on two [int]s: the double nearest to the quotient, ties to even;
    a quotient beyond the doubles raises. *)
Definition truediv_int_int (a b : Z) : outcome float :=
  if Z.eqb b 0 then Raised ZeroDivisionError
  else
    let negative := xorb (Z.ltb a 0) (Z.ltb b 0) in
    match Z.abs a with
    | Z0 => Returned (if negative then PrimFloat.neg_zero else PrimFloat.zero)
    | n =>
        let '(mz, ez, lz) := SFdiv_core_binary prec emax n 0 (Z.abs b) 0 in
        let q := SF2Prim (binary_round_aux prec emax negative mz ez lz) in
        if PrimFloat.is_infinity q then Raised OverflowError else Returned q
    end.

(** [[f(x) for x in xs]] when [f] may raise: the first exception ends it. *)
Fixpoint traverse {A B : Type} (f : A -> outcome B) (xs : list A)
    : outcome (list B) :=
  match xs with
  | [] => Returned []
  | x :: rest =>
      y <- f x ;;
      ys <- traverse f rest ;;
      Returned (y :: ys)
  end.

(** A row of the sheet "Upload History". *)
Module UploadRow.
Record t : Type := {
  id : string;
  date : string;
  time : string;
  filename : string;
  pages : Z;
  cost : float;
  size_mb : float
}.
End UploadRow.

(** A row of the sheet "Sumar Zilnic". *)
Module DailyRow.
Record t : Type := {
  date : string;
  files : Z;
  pages : Z;
  cost : float
}.
End DailyRow.

(** The workbook [save_excel] fills: per sheet, the header and the rows it
    passes to [ws.append]. *)
Record workbook : Type := {
  uploads_header : list string;
  uploads_rows : list UploadRow.t;
  daily_header : list string;
  daily_rows : list DailyRow.t
}.

(** A string on its way into a cell: [ws.append] raises where the worksheet
    does not accept it. *)
Definition check_cell (lib : Lib.t) (s : string) : outcome string :=
  if Lib.cell_accepts lib s then Returned s else Raised IllegalCharacterError.

(** The body of the first loop: the row is computed, then appended cell by
    cell. *)
Definition upload_row (lib : Lib.t) (u : Entry.t) : outcome UploadRow.t :=
  let ts := Entry.timestamp u in
  let date_part := str_take 10 ts in
  let time_part :=
    if Nat.ltb 10 (str_len ts) then str_take 8 (str_drop 11 ts) else "" in
  size <- truediv_int_int (Entry.size_bytes u) (1024 * 1024) ;;
  id <- check_cell lib (str_take 8 (Entry.id u)) ;;
  date <- check_cell lib date_part ;;
  time <- check_cell lib time_part ;;
  filename <- check_cell lib (Entry.filename u) ;;
  Returned {| UploadRow.id := id;
              UploadRow.date := date;
              UploadRow.time := time;
              UploadRow.filename := filename;
              UploadRow.pages := Entry.pages u;
              UploadRow.cost := round_float (Entry.cost u) 4;
              UploadRow.size_mb := round_float size 2 |}.

(** A key of the dictionary [daily] of [save_excel] with its value. *)
Module XlDay.
Record t : Type := {
  date : string;
  files : Z;
  pages : Z;
  cost : float
}.
End XlDay.

(** One turn of the second loop. *)
Fixpoint xl_daily_add (u : Entry.t) (daily : list XlDay.t) : list XlDay.t :=
  let d := str_take 10 (Entry.timestamp u) in
  match daily with
  | [] => [{| XlDay.date := d; XlDay.files := 0 + 1;
              XlDay.pages := 0 + Entry.pages u;
              XlDay.cost := PrimFloat.add 0 (Entry.cost u) |}]
  | e :: rest =>
      if String.eqb (XlDay.date e) d
      then {| XlDay.date := XlDay.date e; XlDay.files := XlDay.files e + 1;
              XlDay.pages := XlDay.pages e + Entry.pages u;
              XlDay.cost := PrimFloat.add (XlDay.cost e) (Entry.cost u) |}
           :: rest
      else e :: xl_daily_add u rest
  end.

(** The row appended for the key [d] of [daily]. *)
Definition xl_daily_row (lib : Lib.t) (e : XlDay.t) : outcome DailyRow.t :=
  date <- check_cell lib (XlDay.date e) ;;
  Returned {| DailyRow.date := date; DailyRow.files := XlDay.files e;
              DailyRow.pages := XlDay.pages e;
              DailyRow.cost := round_float (XlDay.cost e) 4 |}.

Definition save_excel (lib : Lib.t) (data : History.t) : outcome workbook :=
  header <- traverse (check_cell lib)
              ["ID"; "Data"; "Ora"; "Fisier"; "Pagini"; "Cost (EUR)";
               "Marime (MB)"] ;;
  rows <- traverse (upload_row lib) (History.uploads data) ;;
  header_daily <- traverse (check_cell lib)
                    ["Data"; "Fisiere"; "Pagini"; "Cost (EUR)"] ;;
  let daily :=
    fold_left (fun daily u => xl_daily_add u daily) (History.uploads data) [] in
  rows_daily <-
    traverse (xl_daily_row lib)
      (flat_map (fun d => match find (fun e => String.eqb (XlDay.date e) d)
                                     daily with
                          | Some e => [e]
                          | None => []
                          end)
                (sorted_desc (fun d => d) (map XlDay.date daily))) ;;
  Returned {| uploads_header := header;
              uploads_rows := rows;
              daily_header := header_daily;
              daily_rows := rows_daily |}.

(* ------------------------------------------------------------------ *)
(** * Saving, files and responses *)
(* ------------------------------------------------------------------ *)

(** [save_history]: the document is written, then the workbook; an exception
    of [save_excel] escapes with the document already on the disk. *)
Definition save_history (lib : Lib.t) (data : History.t) (d : disk)
    : outcome unit * disk :=
  (_ <- save_excel lib data ;; Returned tt,
   {| history_file := Some data; output_dir := output_dir d |}).

(** [path.exists()], [f.save(path)] on a path that opens, and [path.unlink()]
    under [Output/]. *)
Definition file_exists (name : string) (d : disk) : bool :=
  existsb (String.eqb name) (output_dir d).

Definition remove_name (name : string) (names : list string) : list string :=
  filter (fun n => negb (String.eqb name n)) names.

Definition file_save (name : string) (d : disk) : disk :=
  {| history_file := history_file d;
     output_dir := name :: remove_name name (output_dir d) |}.

Definition file_unlink (name : string) (d : disk) : disk :=
  {| history_file := history_file d;
     output_dir := remove_name name (output_dir d) |}.

(** [if filepath.exists(): filepath.unlink()]. *)
Definition unlink_if_exists (name : string) (d : disk) : disk :=
  if file_exists name d then file_unlink name d else d.

(** The body of a response: JSON on success, or a status with its message. *)
Inductive response (A : Type) : Type :=
| Ok (body : A)
| Fail (status : Z) (error : string).
Arguments Ok {A} body.
Arguments Fail {A} status error.

(** [save_history(history); return jsonify(body)]. *)
Definition save_and_answer {A : Type} (lib : Lib.t) (data : History.t)
    (d : disk) (body : A) : outcome (response A) * disk :=
  let '(saved, d') := save_history lib data d in
  (_ <- saved ;; Returned (Ok body), d').

(** [for x in xs: body] on the state [st] when the body may raise: the loop
    ends at the first exception, in the state it had reached. *)
Fixpoint for_each {S X : Type} (body : S -> X -> outcome S) (xs : list X)
    (st : S) : outcome S * S :=
  match xs with
  | [] => (Returned st, st)
  | x :: rest =>
      match body st x with
      | Returned st' => for_each body rest st'
      | Raised e => (Raised e, st)
      end
  end.

(* ------------------------------------------------------------------ *)
(** * POST /api/upload *)
(* ------------------------------------------------------------------ *)

(** One part of the multipart request, with what the route obtains from it:
    the client's file name ([None] when there is none), the hexadecimal
    identifier [uuid.uuid4()] yields if the file gets that far, the exception
    [open] raises in [f.save] on the path made of that name ([None] when the
    path opens; a name with a path separator has [FileNotFoundError]), the
    size of the saved file, and the page count [PdfReader] finds ([None] when
    it raises). *)
Module FileStorage.
Record t : Type := {
  filename : option string;
  uuid_hex : string;
  open_error : option exn;
  st_size : Z;
  reader_pages : option Z
}.
End FileStorage.

Definition count_pdf_pages (f : FileStorage.t) : Z :=
  match FileStorage.reader_pages f with
  | Some n => n
  | None => 0
  end.

(** One element of [results]: an error entry or a success entry. *)
Module Result.
Record t : Type := {
  filename : string;
  error : option string;
  pages : Z;
  cost : num;
  size_mb : option float;
  id : option string
}.
End Result.

Definition error_result (name msg : string) : Result.t :=
  {| Result.filename := name; Result.error := Some msg; Result.pages := 0;
     Result.cost := PyInt 0; Result.size_mb := None; Result.id := None |}.

(** What the loop of [upload_files] updates. *)
Record upload_loop : Type := {
  loop_uploads : list Entry.t;
  loop_results : list Result.t;
  loop_disk : disk
}.

Definition is_pdf_name (lib : Lib.t) (name : string) : bool :=
  (nonempty name && endswith (str_lower lib name) ".pdf")%bool.

(** The body of [for f in files].  Where [size_mb] is computed the size is at
    most 100 MB, and the quotient of the two [int]s is that of their
    doubles. *)
Definition upload_one (lib : Lib.t) (existing_names : list string)
    (now : datetime) (st : upload_loop) (f : FileStorage.t)
    : outcome upload_loop :=
  let reject name msg :=
    Returned {| loop_uploads := loop_uploads st;
                loop_results := loop_results st ++ [error_result name msg];
                loop_disk := loop_disk st |} in
  match FileStorage.filename f with
  | None => reject "unknown" "Nu este PDF"
  | Some name =>
    if negb (is_pdf_name lib name) then
      reject (if nonempty name then name else "unknown") "Nu este PDF"
    else if existsb (String.eqb name) existing_names then
      reject name "Duplicat - exista deja in istoric"
    else
      let file_id := str_take 12 (FileStorage.uuid_hex f) in
      let safe_name := file_id ++ "_" ++ name in
      match FileStorage.open_error f with
      | Some e => Raised e
      | None =>
        let saved := file_save safe_name (loop_disk st) in
        let size_bytes := FileStorage.st_size f in
        if size_bytes >? MAX_FILE_SIZE_MB * 1024 * 1024 then
          Returned
            {| loop_uploads := loop_uploads st;
               loop_results := loop_results st ++
                 [error_result name
                    ("Fisier prea mare (max " ++ decimal MAX_FILE_SIZE_MB ++
                     "MB)")];
               loop_disk := file_unlink safe_name saved |}
        else
          let pages := count_pdf_pages f in
          let cost := round_float (mul_int_float pages COST_PER_PAGE) 4 in
          let entry :=
            {| Entry.id := file_id;
               Entry.date := strftime_Ymd now;
               Entry.timestamp := isoformat_seconds now;
               Entry.filename := name;
               Entry.saved_as := safe_name;
               Entry.pages := pages;
               Entry.cost := cost;
               Entry.size_bytes := size_bytes |} in
          Returned
            {| loop_uploads := loop_uploads st ++ [entry];
               loop_results := loop_results st ++
                 [{| Result.filename := name; Result.error := None;
                     Result.pages := pages; Result.cost := PyFloat cost;
                     Result.size_mb :=
                       Some (round_float
                               (PrimFloat.div (float_of_int size_bytes)
                                              (float_of_int 1048576)) 2);
                     Result.id := Some file_id |}];
               loop_disk := saved |}
      end
  end.

Record upload_reply : Type := {
  results : list Result.t;
  total_pages : Z;
  total_cost : num;
  cost_per_page : float
}.

(** [files] is [request.files.getlist("files")]; it is empty exactly when
    the request has no part named [files].  When [f.save] raises, the files
    saved for the earlier parts of the batch stay and nothing is recorded. *)
Definition upload_files (lib : Lib.t) (now : datetime)
    (files : list FileStorage.t) (d : disk)
    : outcome (response upload_reply) * disk :=
  match files with
  | [] => (Returned (Fail 400 "Nu s-au trimis fisiere"), d)
  | _ =>
    if Z.of_nat (List.length files) >? MAX_FILES then
      (Returned (Fail 400 ("Maxim " ++ decimal MAX_FILES ++ " fisiere permise")),
       d)
    else
      let history := load_history d in
      let existing_names := map Entry.filename (History.uploads history) in
      match for_each (upload_one lib existing_names now) files
              {| loop_uploads := History.uploads history;
                 loop_results := [];
                 loop_disk := d |} with
      | (Raised e, reached) => (Raised e, loop_disk reached)
      | (Returned final, _) =>
          let history' :=
            {| History.uploads := loop_uploads final;
               History.settings := History.settings history |} in
          save_and_answer lib history' (loop_disk final)
            {| results := loop_results final;
               total_pages := int_sum (map Result.pages (loop_results final));
               total_cost :=
                 Py.round (Py.sum (Lib.compensated_sum lib)
                                  (map Result.cost (loop_results final))) 4;
               cost_per_page := round_float COST_PER_PAGE 6 |}
      end
  end.

(* ------------------------------------------------------------------ *)
(** * GET /api/history and GET /api/daily-summary *)
(* ------------------------------------------------------------------ *)

(** [u["timestamp"][:10]], the day a record is filed under. *)
Definition day_of (u : Entry.t) : string := str_take 10 (Entry.timestamp u).

(** The two optional filters on the day, as both views apply them: a bound
    that is absent or empty does not filter. *)
Definition filter_dates (date_from date_to : option string)
    (us : list Entry.t) : list Entry.t :=
  let us1 :=
    match date_from with
    | Some a => if nonempty a
                then filter (fun u => String.leb a (day_of u)) us else us
    | None => us
    end in
  match date_to with
  | Some b => if nonempty b
              then filter (fun u => String.leb (day_of u) b) us1 else us1
  | None => us1
  end.

Record history_reply : Type := {
  h_uploads : list Entry.t;
  h_total_pages : Z;
  h_total_cost : num;
  h_total_files : Z;
  h_cost_per_page : float
}.

(** [search] is [request.args.get("search", "")] before [.lower()]. *)
Definition get_history (lib : Lib.t) (date_from date_to : option string)
    (search : string) (d : disk) : history_reply :=
  let history := load_history d in
  let search := str_lower lib search in
  let uploads := filter_dates date_from date_to (History.uploads history) in
  let uploads :=
    if nonempty search
    then filter (fun u => contains search (str_lower lib (Entry.filename u)))
                uploads
    else uploads in
  let uploads := sorted_desc Entry.timestamp uploads in
  {| h_uploads := uploads;
     h_total_pages := int_sum (map Entry.pages uploads);
     h_total_cost :=
       Py.round (Py.sum (Lib.compensated_sum lib)
                        (map (fun u => PyFloat (Entry.cost u)) uploads)) 4;
     h_total_files := Z.of_nat (List.length uploads);
     h_cost_per_page := round_float COST_PER_PAGE 6 |}.

(** One value of the dictionary [daily]. *)
Module Day.
Record t : Type := {
  date : string;
  files : Z;
  pages : Z;
  cost : float;
  filenames : list string
}.
End Day.

(** The four updates [daily[d][...] += ...] for the record [u]. *)
Definition day_add (u : Entry.t) (e : Day.t) : Day.t :=
  {| Day.date := Day.date e;
     Day.files := Day.files e + 1;
     Day.pages := Day.pages e + Entry.pages u;
     Day.cost := PrimFloat.add (Day.cost e) (Entry.cost u);
     Day.filenames := Day.filenames e ++ [Entry.filename u] |}.

Definition day_empty (d : string) : Day.t :=
  {| Day.date := d; Day.files := 0; Day.pages := 0; Day.cost := 0%float;
     Day.filenames := [] |}.

(** One turn of [for u in uploads]: the dictionary keeps its keys in the order
    of their first insertion. *)
Fixpoint daily_add (u : Entry.t) (daily : list Day.t) : list Day.t :=
  match daily with
  | [] => [day_add u (day_empty (day_of u))]
  | e :: rest =>
      if String.eqb (Day.date e) (day_of u)
      then day_add u e :: rest
      else e :: daily_add u rest
  end.

Definition daily_of (us : list Entry.t) : list Day.t :=
  fold_left (fun daily u => daily_add u daily) us [].

Definition day_round (e : Day.t) : Day.t :=
  {| Day.date := Day.date e; Day.files := Day.files e;
     Day.pages := Day.pages e; Day.cost := round_float (Day.cost e) 4;
     Day.filenames := Day.filenames e |}.

Definition daily_summary (date_from date_to : option string) (d : disk)
    : list Day.t :=
  let history := load_history d in
  let uploads := filter_dates date_from date_to (History.uploads history) in
  sorted_desc Day.date (map day_round (daily_of uploads)).

(* ------------------------------------------------------------------ *)
(** * DELETE /api/delete/<id>, POST /api/delete-bulk, POST /api/reset-period *)
(* ------------------------------------------------------------------ *)

(** [next((u for u in uploads if u["id"] == uid), None)]. *)
Definition find_by_id (uid : string) (us : list Entry.t) : option Entry.t :=
  find (fun u => String.eqb (Entry.id u) uid) us.

Definition delete_upload (lib : Lib.t) (upload_id : string) (d : disk)
    : outcome (response bool) * disk :=
  let history := load_history d in
  match find_by_id upload_id (History.uploads history) with
  | None => (Returned (Fail 404 "Nu s-a gasit"), d)
  | Some entry =>
      let d1 := unlink_if_exists (Entry.saved_as entry) d in
      let history' :=
        {| History.uploads :=
             filter (fun u => negb (String.eqb (Entry.id u) upload_id))
                    (History.uploads history);
           History.settings := History.settings history |} in
      save_and_answer lib history' d1 true
  end.

(** The body of [for uid in ids], on the counter and the disk. *)
Definition bulk_one (us : list Entry.t) (st : Z * disk) (uid : string)
    : Z * disk :=
  match find_by_id uid us with
  | Some entry => (fst st + 1, unlink_if_exists (Entry.saved_as entry) (snd st))
  | None => st
  end.

(** [ids] is [data.get("ids", [])], a list of strings. *)
Definition delete_bulk (lib : Lib.t) (ids : list string) (d : disk)
    : outcome (response Z) * disk :=
  match ids with
  | [] => (Returned (Fail 400 "Niciun ID specificat"), d)
  | _ =>
      let history := load_history d in
      let '(deleted, d1) :=
        fold_left (bulk_one (History.uploads history)) ids (0, d) in
      let history' :=
        {| History.uploads :=
             filter (fun u => negb (existsb (String.eqb (Entry.id u)) ids))
                    (History.uploads history);
           History.settings := History.settings history |} in
      save_and_answer lib history' d1 deleted
  end.

(** [date_from <= u["timestamp"][:10] <= date_to]. *)
Definition in_period (date_from date_to : string) (u : Entry.t) : bool :=
  (String.leb date_from (day_of u) && String.leb (day_of u) date_to)%bool.

(** [date_from] and [date_to] are [data.get("from")] and [data.get("to")]. *)
Definition reset_period (lib : Lib.t) (date_from date_to : option string)
    (d : disk) : outcome (response Z) * disk :=
  match date_from, date_to with
  | Some a, Some b =>
      if (negb (nonempty a) || negb (nonempty b))%bool
      then (Returned (Fail 400 "Specifica perioada (from, to)"), d)
      else
        let history := load_history d in
        let to_delete := filter (in_period a b) (History.uploads history) in
        let d1 :=
          fold_left (fun acc entry => unlink_if_exists (Entry.saved_as entry) acc)
                    to_delete d in
        let deleted := Z.of_nat (List.length to_delete) in
        let history' :=
          {| History.uploads :=
               filter (fun u => negb (in_period a b u)) (History.uploads history);
             History.settings := History.settings history |} in
        save_and_answer lib history' d1 deleted
  | _, _ => (Returned (Fail 400 "Specifica perioada (from, to)"), d)
  end.

(* ------------------------------------------------------------------ *)
(** * GET and POST /api/settings *)
(* ------------------------------------------------------------------ *)

(** A parsed JSON value, as [request.get_json()] returns it. *)
#[local] Unset Elimination Schemes.
Inductive json : Type :=
| JNull
| JBool (b : bool)
| JInt (z : Z)
| JFloat (f : float)
| JStr (s : string)
| JList (items : list json)
| JDict (pairs : list (string * json)).
#[local] Set Elimination Schemes.

(** [d.get(key)] on the pairs of a parsed object: the last pair of a repeated
    key is the one the parser kept. *)
Fixpoint dict_get (key : string) (pairs : list (string * json)) : option json :=
  match pairs with
  | [] => None
  | (k, v) :: rest =>
      match dict_get key rest with
      | Some v' => Some v'
      | None => if String.eqb k key then Some v else None
      end
  end.

(** [data.get(key, default)]; anything but an object has no [get]. *)
Definition json_get (data : json) (key : string) (default : json)
    : outcome json :=
  match data with
  | JDict pairs =>
      Returned (match dict_get key pairs with Some v => v | None => default end)
  | _ => Raised AttributeError
  end.

Inductive method : Type :=
| GET
| POST (data : json).

Record settings_reply : Type := {
  success : bool;
  new_cost_per_page : float
}.

Section Settings_route.
Variable lib : Lib.t.
(** The built-in parsers of [float(str)] and [int(str)]; [None] stands for
    their [ValueError]. *)
Variable parse_float : string -> option float.
Variable parse_int : string -> option Z.

(** [float(v)]. *)
Definition py_float (v : json) : outcome float :=
  match v with
  | JFloat f => Returned f
  | JInt z => int_to_float z
  | JBool b => Returned (if b then 1%float else 0%float)
  | JStr s =>
      match parse_float s with
      | Some f => Returned f
      | None => Raised ValueError
      end
  | JNull | JList _ | JDict _ => Raised TypeError
  end.

(** [int(v)]. *)
Definition py_int (v : json) : outcome Z :=
  match v with
  | JInt z => Returned z
  | JBool b => Returned (if b then 1 else 0)
  | JFloat f => int_of_float f
  | JStr s =>
      match parse_int s with
      | Some z => Returned z
      | None => Raised ValueError
      end
  | JNull | JList _ | JDict _ => Raised TypeError
  end.

(** The three coercions of the dictionary display in the [POST] branch, in
    the order Python evaluates them. *)
Definition read_settings (data : json) : outcome (float * Z * Z) :=
  v1 <- json_get data "monthly_income" (JInt 2000) ;;
  mi <- py_float v1 ;;
  v2 <- json_get data "daily_pages" (JInt 700) ;;
  dp <- py_int v2 ;;
  v3 <- json_get data "days_per_month" (JInt 30) ;;
  dm <- py_int v3 ;;
  Returned (mi, dp, dm).

(** [GET] answers the stored settings.  [POST] stores the coerced values and
    writes the workbook, then computes the rate they give; an exception
    leaves the disk as it was when it was raised. *)
Definition settings (m : method) (d : disk)
    : outcome (response (Settings.t + settings_reply)) * disk :=
  let history := load_history d in
  match m with
  | GET => (Returned (Ok (inl (History.settings history))), d)
  | POST data =>
      match read_settings data with
      | Raised e => (Raised e, d)
      | Returned (mi, dp, dm) =>
          let s := {| Settings.monthly_income := PyFloat mi;
                      Settings.daily_pages := dp;
                      Settings.days_per_month := dm |} in
          let '(saved, d') :=
            save_history lib
              {| History.uploads := History.uploads history;
                 History.settings := s |} d in
          (_ <- saved ;;
           new_cost <- truediv_float_int mi (dp * dm) ;;
           Returned (Ok (inr {| success := true;
                                new_cost_per_page := round_float new_cost 6 |})),
           d')
      end
  end.
End Settings_route.

(* ------------------------------------------------------------------ *)
(** * GET /api/monthly-summary *)
(* ------------------------------------------------------------------ *)

(** [u["timestamp"][:7]], the month a record is filed under. *)
Definition month_of (u : Entry.t) : string := str_take 7 (Entry.timestamp u).

(** One value of the dictionary [monthly] while the records are read:
    [days_active] is a set, kept as the list of its elements. *)
Module MonthAcc.
Record t : Type := {
  month : string;
  files : Z;
  pages : Z;
  cost : float;
  days_active : list string
}.
End MonthAcc.

(** One element of the answer: [days_active] is now a count. *)
Module Month.
Record t : Type := {
  month : string;
  files : Z;
  pages : Z;
  cost : float;
  days_active : Z
}.
End Month.

(** [s.add(x)] on a set. *)
Definition set_add (x : string) (s : list string) : list string :=
  if existsb (String.eqb x) s then s else (s ++ [x])%list.

(** The four updates of [monthly[m]] for the record [u]. *)
Definition month_add (u : Entry.t) (e : MonthAcc.t) : MonthAcc.t :=
  {| MonthAcc.month := MonthAcc.month e;
     MonthAcc.files := MonthAcc.files e + 1;
     MonthAcc.pages := MonthAcc.pages e + Entry.pages u;
     MonthAcc.cost := PrimFloat.add (MonthAcc.cost e) (Entry.cost u);
     MonthAcc.days_active := set_add (day_of u) (MonthAcc.days_active e) |}.

Definition month_empty (m : string) : MonthAcc.t :=
  {| MonthAcc.month := m; MonthAcc.files := 0; MonthAcc.pages := 0;
     MonthAcc.cost := 0%float; MonthAcc.days_active := [] |}.

(** One turn of [for u in history["uploads"]]. *)
Fixpoint monthly_add (u : Entry.t) (monthly : list MonthAcc.t)
    : list MonthAcc.t :=
  match monthly with
  | [] => [month_add u (month_empty (month_of u))]
  | e :: rest =>
      if String.eqb (MonthAcc.month e) (month_of u)
      then month_add u e :: rest
      else e :: monthly_add u rest
  end.

(** The two assignments to [entry] in the second loop. *)
Definition month_close (e : MonthAcc.t) : Month.t :=
  {| Month.month := MonthAcc.month e;
     Month.files := MonthAcc.files e;
     Month.pages := MonthAcc.pages e;
     Month.cost := round_float (MonthAcc.cost e) 4;
     Month.days_active := Z.of_nat (List.length (MonthAcc.days_active e)) |}.

(** [monthly[m]] for a key [m] of the dictionary. *)
Definition monthly_get (m : string) (monthly : list MonthAcc.t)
    : option MonthAcc.t :=
  find (fun e => String.eqb (MonthAcc.month e) m) monthly.

Definition monthly_summary (d : disk) : list Month.t :=
  let history := load_history d in
  let monthly :=
    fold_left (fun monthly u => monthly_add u monthly)
              (History.uploads history) [] in
  flat_map (fun m => match monthly_get m monthly with
                     | Some entry => [month_close entry]
                     | None => []
                     end)
           (sorted_desc (fun m => m) (map MonthAcc.month monthly)).

(* ------------------------------------------------------------------ *)
(** * GET /api/stats *)
(* ------------------------------------------------------------------ *)

(** The proleptic Gregorian calendar of [datetime]: the ordinal of a date
    (day 1 is 0001-01-01) and back, as [_ymd2ord] and [_ord2ymd] compute
    them. *)
Definition is_leap (y : Z) : bool :=
  (Z.eqb (y mod 4) 0 &&
   (negb (Z.eqb (y mod 100) 0) || Z.eqb (y mod 400) 0))%bool.

Definition days_before_year (year : Z) : Z :=
  let y := year - 1 in
  y * 365 + y / 4 - y / 100 + y / 400.

Definition DAYS_IN_MONTH : list Z :=
  [-1; 31; 28; 31; 30; 31; 30; 31; 31; 30; 31; 30; 31].
Definition DAYS_BEFORE_MONTH : list Z :=
  [-1; 0; 31; 59; 90; 120; 151; 181; 212; 243; 273; 304; 334].

Definition days_before_month (year month : Z) : Z :=
  nth (Z.to_nat month) DAYS_BEFORE_MONTH 0 +
  (if (Z.gtb month 2 && is_leap year)%bool then 1 else 0).

Definition ymd2ord (year month day : Z) : Z :=
  days_before_year year + days_before_month year month + day.

Definition ord2ymd (n : Z) : Z * Z * Z :=
  let n := n - 1 in
  let n400 := n / 146097 in
  let n := n mod 146097 in
  let year := n400 * 400 + 1 in
  let n100 := n / 36524 in
  let n := n mod 36524 in
  let n4 := n / 1461 in
  let n := n mod 1461 in
  let n1 := n / 365 in
  let n := n mod 365 in
  let year := year + n100 * 100 + n4 * 4 + n1 in
  if (Z.eqb n1 4 || Z.eqb n100 4)%bool then (year - 1, 12, 31)
  else
    let leapyear :=
      (Z.eqb n1 3 && (negb (Z.eqb n4 24) || Z.eqb n100 3))%bool in
    let month := Z.shiftr (n + 50) 5 in
    let preceding :=
      nth (Z.to_nat month) DAYS_BEFORE_MONTH 0 +
      (if (Z.gtb month 2 && leapyear)%bool then 1 else 0) in
    let '(month, preceding) :=
      if Z.gtb preceding n
      then (month - 1,
            preceding -
            (nth (Z.to_nat (month - 1)) DAYS_IN_MONTH 0 +
             (if (Z.eqb (month - 1) 2 && leapyear)%bool then 1 else 0)))
      else (month, preceding) in
    (year, month, n - preceding + 1).

(** [t - timedelta(days=k)]: the date [k] days before, the time of day
    unchanged; a result before year 1 or after year 9999 raises. *)
Definition minus_days (t : datetime) (k : Z) : outcome datetime :=
  let n := ymd2ord (year t) (month t) (day t) - k in
  if (Z.ltb 0 n && Z.leb n 3652059)%bool
  then let '(y, m, d) := ord2ymd n in
       Returned {| year := y; month := m; day := d;
                   hour := hour t; minute := minute t; second := second t |}
  else Raised OverflowError.

(** [now.strftime("%Y-%m-01")]. *)
Definition strftime_Ym01 (t : datetime) : string :=
  decimal (year t) ++ "-" ++ zero_padded 2 (month t) ++ "-01".

(** One of the four objects of the answer. *)
Record window : Type := {
  w_files : Z;
  w_pages : Z;
  w_cost : num
}.

(** [len], [sum] of the pages and rounded [sum] of the costs of a list of
    records. *)
Definition window_of (lib : Lib.t) (us : list Entry.t) : window :=
  {| w_files := Z.of_nat (List.length us);
     w_pages := int_sum (map Entry.pages us);
     w_cost :=
       Py.round (Py.sum (Lib.compensated_sum lib)
                        (map (fun u => PyFloat (Entry.cost u)) us)) 4 |}.

Record stats_reply : Type := {
  s_today : window;
  s_week : window;
  s_month : window;
  s_total : window;
  s_cost_per_page : float
}.

(** The route reads the clock three times: for today's date, for the date a
    week ago and for the first day of the month. *)
Definition get_stats (lib : Lib.t) (now_today now_week now_month : datetime)
    (d : disk) : outcome stats_reply :=
  let history := load_history d in
  let uploads := History.uploads history in
  let today := strftime_Ymd now_today in
  let today_uploads :=
    filter (fun u => String.eqb (day_of u) today) uploads in
  week_start <- minus_days now_week 7 ;;
  let week_ago := strftime_Ymd week_start in
  let week_uploads :=
    filter (fun u => String.leb week_ago (day_of u)) uploads in
  let month_start := strftime_Ym01 now_month in
  let month_uploads :=
    filter (fun u => String.leb month_start (day_of u)) uploads in
  Returned {| s_today := window_of lib today_uploads;
              s_week := window_of lib week_uploads;
              s_month := window_of lib month_uploads;
              s_total := window_of lib uploads;
              s_cost_per_page := round_float COST_PER_PAGE 6 |}.

(* ------------------------------------------------------------------ *)
(** * Vocabulary of the properties *)
(* ------------------------------------------------------------------ *)

Unset Implicit Arguments.

(** What [upload_one] guarantees of a record it appends, given the names
    taken at the start of the batch and the clock read there. *)
Definition made_by (lib : Lib.t) (existing_names : list string)
    (now : datetime) (u : Entry.t) : Prop :=
  Entry.timestamp u = isoformat_seconds now /\
  Entry.date u = strftime_Ymd now /\
  Entry.cost u = round_float (mul_int_float (Entry.pages u) COST_PER_PAGE) 4 /\
  is_pdf_name lib (Entry.filename u) = true /\
  ~ In (Entry.filename u) existing_names /\
  Entry.size_bytes u <= MAX_FILE_SIZE_MB * 1024 * 1024.

(** What a route answers once it has called [save_history] on [data]: the
    body when the workbook is written, the exception of [save_excel] when it
    is not. *)
Definition answer_after_save {A : Type} (lib : Lib.t) (data : History.t)
    (body : A) : outcome (response A) :=
  match save_excel lib data with
  | Returned _ => Returned (Ok body)
  | Raised e => Raised e
  end.

(** A request that changes the records, and the disk it leaves. *)
Inductive request : Type :=
| Upload (now : datetime) (files : list FileStorage.t)
| Delete (upload_id : string)
| DeleteBulk (ids : list string)
| ResetPeriod (date_from date_to : option string).

Definition serve (lib : Lib.t) (d : disk) (r : request) : disk :=
  match r with
  | Upload now files => snd (upload_files lib now files d)
  | Delete upload_id => snd (delete_upload lib upload_id d)
  | DeleteBulk ids => snd (delete_bulk lib ids d)
  | ResetPeriod date_from date_to => snd (reset_period lib date_from date_to d)
  end.

(** Two records of one name come from one reading of the clock. *)
Definition same_name_same_batch (us : list Entry.t) : Prop :=
  ForallOrdPairs
    (fun u v => Entry.filename u = Entry.filename v ->
                Entry.timestamp u = Entry.timestamp v /\
                Entry.date u = Entry.date v)
    us.

(** Whether some stored record carries the id [uid]. *)
Definition id_stored (us : list Entry.t) (uid : string) : bool :=
  existsb (fun u => String.eqb (Entry.id u) uid) us.

(** Whether the day [d] passes the two optional filters of the views. *)
Definition in_range (date_from date_to : option string) (d : string) : bool :=
  ((if truthy date_from
    then match date_from with Some a => String.leb a d | None => true end
    else true) &&
   (if truthy date_to
    then match date_to with Some b => String.leb d b | None => true end
    else true))%bool.



(** The search filter of [get_history]. *)
Definition search_keeps (lib : Lib.t) (search : string) (u : Entry.t) : bool :=
  if nonempty (str_lower lib search)
  then contains (str_lower lib search) (str_lower lib (Entry.filename u))
  else true.

(** [daily.get(dd)] on the values of the dictionary. *)
Definition find_day (dd : string) (daily : list Day.t) : option Day.t :=
  find (fun e => String.eqb (Day.date e) dd) daily.

(** The entry of day [dd] after one more record, from the entry before. *)
Definition day_step (dd : string) (acc : option Day.t) (u : Entry.t)
    : option Day.t :=
  if String.eqb (day_of u) dd
  then Some (day_add u (match acc with Some e => e | None => day_empty dd end))
  else acc.

(** The value [data.get(key, default)] yields on an object. *)
Definition field (pairs : list (string * json)) (key : string) (default : json)
    : json :=
  match dict_get key pairs with
  | Some v => v
  | None => default
  end.


(** [x] comes no later than [y] in a list sorted on [key], largest first. *)
Definition desc_by {A : Type} (key : A -> string) (x y : A) : Prop :=
  String.leb (key y) (key x) = true.

(** The records a query selects: the day within the bounds, the name
    matching the search term. *)
Definition selected (lib : Lib.t) (date_from date_to : option string)
    (search : string) (us : list Entry.t) : list Entry.t :=
  filter (fun u => (in_range date_from date_to (day_of u) &&
                    search_keeps lib search u)%bool) us.

(** The records filed under the day [dd], in their stored order. *)
Definition of_day (dd : string) (us : list Entry.t) : list Entry.t :=
  filter (fun u => String.eqb (day_of u) dd) us.

(** The entry the daily summary answers for a day, from the records [l] of
    that day: their number, their pages, their costs added from the left to
    0.0 and rounded to 4 decimals, their names. *)
Definition day_entry (dd : string) (l : list Entry.t) : Day.t :=
  {| Day.date := dd;
     Day.files := Z.of_nat (List.length l);
     Day.pages := int_sum (map Entry.pages l);
     Day.cost := round_float (fold_left PrimFloat.add (map Entry.cost l) 0%float) 4;
     Day.filenames := map Entry.filename l |}.

(** Why a file is turned down, given the names stored when the batch
    starts; [None] when it is accepted. *)
Definition rejection (lib : Lib.t) (existing_names : list string)
    (f : FileStorage.t) : option string :=
  match FileStorage.filename f with
  | None => Some "Nu este PDF"
  | Some name =>
      if negb (is_pdf_name lib name) then Some "Nu este PDF"
      else if existsb (String.eqb name) existing_names
      then Some "Duplicat - exista deja in istoric"
      else if FileStorage.st_size f >? MAX_FILE_SIZE_MB * 1024 * 1024
      then Some "Fisier prea mare (max 100MB)"
      else None
  end.

Definition accepted (lib : Lib.t) (existing_names : list string)
    (f : FileStorage.t) : bool :=
  match rejection lib existing_names f with
  | None => true
  | Some _ => false
  end.

(** The exception [f.save] raises for a file, if the file gets that far. *)
Definition save_error (lib : Lib.t) (existing_names : list string)
    (f : FileStorage.t) : option exn :=
  match FileStorage.filename f with
  | None => None
  | Some name =>
      if negb (is_pdf_name lib name) then None
      else if existsb (String.eqb name) existing_names then None
      else FileStorage.open_error f
  end.

(** The first exception of [f.save] in a batch, and the files before it. *)
Fixpoint first_failure (lib : Lib.t) (existing_names : list string)
    (files : list FileStorage.t) : option exn :=
  match files with
  | [] => None
  | f :: rest =>
      match save_error lib existing_names f with
      | Some e => Some e
      | None => first_failure lib existing_names rest
      end
  end.

Fixpoint before_failure (lib : Lib.t) (existing_names : list string)
    (files : list FileStorage.t) : list FileStorage.t :=
  match files with
  | [] => []
  | f :: rest =>
      match save_error lib existing_names f with
      | Some _ => []
      | None => f :: before_failure lib existing_names rest
      end
  end.

(** The name a result shows for a file. *)
Definition shown_name (f : FileStorage.t) : string :=
  match FileStorage.filename f with
  | Some name => if nonempty name then name else "unknown"
  | None => "unknown"
  end.

(** The record of an accepted file. *)
Definition entry_of (now : datetime) (f : FileStorage.t) : Entry.t :=
  let name := match FileStorage.filename f with Some n => n | None => "" end in
  let file_id := str_take 12 (FileStorage.uuid_hex f) in
  {| Entry.id := file_id;
     Entry.date := strftime_Ymd now;
     Entry.timestamp := isoformat_seconds now;
     Entry.filename := name;
     Entry.saved_as := file_id ++ "_" ++ name;
     Entry.pages := count_pdf_pages f;
     Entry.cost := round_float (mul_int_float (count_pdf_pages f) COST_PER_PAGE) 4;
     Entry.size_bytes := FileStorage.st_size f |}.

(** The records filed under the month [mm], in their stored order. *)
Definition of_month (mm : string) (us : list Entry.t) : list Entry.t :=
  filter (fun u => String.eqb (month_of u) mm) us.

(** The set of the days of the records [l], as the loop builds it. *)
Definition days_seen (l : list Entry.t) (seen : list string) : list string :=
  fold_left (fun s u => set_add (day_of u) s) l seen.

(** The entry the monthly summary answers for a month, from the records [l]
    of that month. *)
Definition month_entry (mm : string) (l : list Entry.t) : Month.t :=
  {| Month.month := mm;
     Month.files := Z.of_nat (List.length l);
     Month.pages := int_sum (map Entry.pages l);
     Month.cost :=
       round_float (fold_left PrimFloat.add (map Entry.cost l) 0%float) 4;
     Month.days_active :=
       Z.of_nat (List.length (nodup string_dec (map day_of l))) |}.

Definition find_month (mm : string) (months : list Month.t) : option Month.t :=
  find (fun e => String.eqb (Month.month e) mm) months.

Definition month_step (mm : string) (acc : option MonthAcc.t) (u : Entry.t)
    : option MonthAcc.t :=
  if String.eqb (month_of u) mm
  then Some (month_add u (match acc with
                          | Some e => e
                          | None => month_empty mm
                          end))
  else acc.

(** [F x] where the key of [x] satisfies [P], else 0. *)
Definition where_key {A : Type} (P : string -> bool) (key : A -> string)
    (F : A -> Z) (x : A) : Z :=
  if P (key x) then F x else 0.

(** The day entries that belong to the month [mm]. *)
Definition days_of_month (mm : string) (days : list Day.t) : list Day.t :=
  filter (fun x => String.eqb (str_take 7 (Day.date x)) mm) days.

(** The row of the daily sheet for an entry of the daily summary. *)
Definition row_of_day (e : Day.t) : DailyRow.t :=
  {| DailyRow.date := Day.date e; DailyRow.files := Day.files e;
     DailyRow.pages := Day.pages e; DailyRow.cost := Day.cost e |}.

(** The cells [xl_daily_row] appends for a day when the date is accepted. *)
Definition xl_daily_cells (e : XlDay.t) : DailyRow.t :=
  {| DailyRow.date := XlDay.date e; DailyRow.files := XlDay.files e;
     DailyRow.pages := XlDay.pages e;
     DailyRow.cost := round_float (XlDay.cost e) 4 |}.

(** The value [save_excel] keeps for a day, from the one [daily_summary]
    keeps. *)
Definition xl_of_day (e : Day.t) : XlDay.t :=
  {| XlDay.date := Day.date e; XlDay.files := Day.files e;
     XlDay.pages := Day.pages e; XlDay.cost := Day.cost e |}.

(* ------------------------------------------------------------------ *)
(** * Sample inputs *)
(* ------------------------------------------------------------------ *)

(** The check of [openpyxl] on a string cell of at most 32767 characters: no
    control character other than tab, line feed and carriage return. *)
Definition illegal_character (c : ascii) : bool :=
  let n := nat_of_ascii c in
  (Nat.leb n 8 || (Nat.leb 11 n && Nat.leb n 12) ||
   (Nat.leb 14 n && Nat.leb n 31))%bool.

Fixpoint openpyxl_accepts (s : string) : bool :=
  match s with
  | EmptyString => true
  | String c s' => (negb (illegal_character c) && openpyxl_accepts s')%bool
  end.

(** [str.lower] on text whose characters beyond ASCII are those of
    U+0080..U+00FF: the capitals U+00C0..U+00DE (the bytes C3 80..C3 9E,
    without the sign C3 97) become small. *)
Fixpoint latin1_lower (s : string) : string :=
  match s with
  | EmptyString => EmptyString
  | String c s1 =>
      match s1 with
      | String c2 s2 =>
          let n := nat_of_ascii c2 in
          if (Nat.eqb (nat_of_ascii c) 195 && Nat.leb 128 n && Nat.leb n 158 &&
              negb (Nat.eqb n 151))%bool
          then String c (String (ascii_of_nat (n + 32)) (latin1_lower s2))
          else String (lower_ascii c) (latin1_lower s1)
      | EmptyString => String (lower_ascii c) EmptyString
      end
  end.

(** The libraries under CPython 3.11 (no compensation) and under CPython
    3.12. *)
Definition cpython (compensated : bool) : Lib.t :=
  {| Lib.unicode_lower := latin1_lower; Lib.compensated_sum := compensated;
     Lib.cell_accepts := openpyxl_accepts |}.
Definition cpython_3_11 : Lib.t := cpython false.
Definition cpython_3_12 : Lib.t := cpython true.

(** The disk before the first request. *)
Definition empty_disk : disk := {| history_file := None; output_dir := [] |}.

(** Two readings of the clock. *)
Definition jan05 : datetime :=
  {| year := 2024; month := 1; day := 5; hour := 9; minute := 3; second := 7 |}.
Definition jan06 : datetime :=
  {| year := 2024; month := 1; day := 6; hour := 18; minute := 40; second := 0 |}.

(** A well-formed PDF of [n] pages and one kilobyte. *)
Definition pdf (name uuid : string) (n : Z) : FileStorage.t :=
  {| FileStorage.filename := Some name; FileStorage.uuid_hex := uuid;
     FileStorage.open_error := None;
     FileStorage.st_size := 1024; FileStorage.reader_pages := Some n |}.

(** The disk after two batches of one file each, on two days. *)
Definition two_days : disk :=
  snd (upload_files cpython_3_11 jan06
         [pdf "b.pdf" "b1c2d3e4f5a6b7c8d9e0f1a2b3c4d5e6" 6]
         (snd (upload_files cpython_3_11 jan05
                 [pdf "a.pdf" "a0b1c2d3e4f5a6b7c8d9e0f1a2b3c4d5" 1] empty_disk))).

(** The disk after a third batch on the second day. *)
Definition three_records : disk :=
  snd (upload_files cpython_3_11 jan06
         [pdf "c.pdf" "c2d3e4f5a6b7c8d9e0f1a2b3c4d5e6f7" 3] two_days).

(** A name with the control character U+0001: the file system takes it, a
    worksheet does not. *)
Definition smudged_name : string := "a" ++ String (ascii_of_nat 1) ".pdf".

(** The disk after a batch that uploads a file of that name: the request
    fails, the record is in the document. *)
Definition smudged : disk :=
  snd (upload_files cpython_3_11 jan06
         [pdf smudged_name "d3e4f5a6b7c8d9e0f1a2b3c4d5e6f7a8" 2] two_days).

(** The disk after a batch of two files for which [uuid4] drew the same
    identifier. *)
Definition twins : disk :=
  snd (upload_files cpython_3_11 jan05
         [pdf "a.pdf" "a0b1c2d3e4f5a6b7c8d9e0f1a2b3c4d5" 1;
          pdf "c.pdf" "a0b1c2d3e4f5a6b7c8d9e0f1a2b3c4d5" 2] empty_disk).

(** The name [ete.pdf] with its two acute accents (the bytes C3 A9), the
    word in capitals (C3 89), and the sample disk after an upload of that
    name. *)
Definition summer_name : string :=
  String (ascii_of_nat 195) (String (ascii_of_nat 169)
    ("t" ++ String (ascii_of_nat 195) (String (ascii_of_nat 169) ".pdf"))).

Definition summer_capitals : string :=
  String (ascii_of_nat 195) (String (ascii_of_nat 137)
    ("T" ++ String (ascii_of_nat 195) (String (ascii_of_nat 137) ""))).

Definition summer : disk :=
  snd (upload_files cpython_3_11 jan06
         [pdf summer_name "e4f5a6b7c8d9e0f1a2b3c4d5e6f7a8b9" 5] two_days).


(** Bodies of [POST /api/settings]. *)
Definition settings_4000 : json :=
  JDict [("monthly_income", JInt 4000); ("daily_pages", JInt 700);
         ("days_per_month", JInt 30)].

Definition settings_1000 : json :=
  JDict [("monthly_income", JFloat 1000); ("daily_pages", JInt 100);
         ("days_per_month", JInt 10)].

(** A parser of strings, for requests that carry none. *)
Definition no_string {A : Type} (s : string) : option A := None.

Definition negative_income : list (string * json) :=
  [("monthly_income", JInt (-2000)); ("daily_pages", JInt 700);
   ("days_per_month", JInt 30)].

#[local] Set Warnings "-inexact-float".



Definition scan (name uuid : string) (size : Z) (pages : option Z)
    : FileStorage.t :=
  {| FileStorage.filename := Some name; FileStorage.uuid_hex := uuid;
     FileStorage.open_error := None;
     FileStorage.st_size := size; FileStorage.reader_pages := pages |}.

(** A batch of four: a new PDF, a text file, a name already stored, a PDF
    that is too large. *)
Definition mixed_batch : list FileStorage.t :=
  [scan "New.PDF" "0f1e2d3c4b5a69788796a5b4c3d2e1f0" 2048 (Some 4);
   scan "notes.txt" "1f1e2d3c4b5a69788796a5b4c3d2e1f0" 10 None;
   scan "a.pdf" "2f1e2d3c4b5a69788796a5b4c3d2e1f0" 2048 (Some 9);
   scan "big.pdf" "3f1e2d3c4b5a69788796a5b4c3d2e1f0" 104857601 (Some 1)].

(** A file whose name has a path separator: no directory of that name is
    under [Output/], and [open] fails. *)
Definition nested (name uuid : string) : FileStorage.t :=
  {| FileStorage.filename := Some name; FileStorage.uuid_hex := uuid;
     FileStorage.open_error := Some FileNotFoundError;
     FileStorage.st_size := 0; FileStorage.reader_pages := None |}.

(** A batch of two: a PDF, then a file that cannot be saved. *)
Definition torn_batch : list FileStorage.t :=
  [scan "ok.pdf" "5f1e2d3c4b5a69788796a5b4c3d2e1f0" 2048 (Some 4);
   nested "sub/a.pdf" "6f1e2d3c4b5a69788796a5b4c3d2e1f0"].

Definition unreadable_batch : list FileStorage.t :=
  [scan "torn.pdf" "4f1e2d3c4b5a69788796a5b4c3d2e1f0" 512 None].

Definition zero_pages : list (string * json) :=
  [("monthly_income", JStr "1500"); ("daily_pages", JInt 0)].

(** [float] and [int] on the decimal numerals of the samples. *)
Definition parse_1500 (s : string) : option float :=
  if String.eqb s "1500" then Some 1500%float else None.

Definition january : Month.t :=
  {| Month.month := "2024-01"; Month.files := 3; Month.pages := 10;
     Month.cost := 0.9523; Month.days_active := 2 |}.

Definition sample_workbook : workbook :=
  Eval vm_compute in
    match save_excel cpython_3_11 (load_history three_records) with
    | Returned wb => wb
    | Raised _ =>
        {| uploads_header := []; uploads_rows := [];
           daily_header := []; daily_rows := [] |}
    end.

Definition first_year : datetime :=
  {| year := 1; month := 1; day := 7; hour := 8; minute := 0; second := 0 |}.

Definition stats_jan06 : stats_reply :=
  {| s_today := {| w_files := 2; w_pages := 9; w_cost := PyFloat 0.8571 |};
     s_week := {| w_files := 3; w_pages := 10; w_cost := PyFloat 0.9523 |};
     s_month := {| w_files := 3; w_pages := 10; w_cost := PyFloat 0.9523 |};
     s_total := {| w_files := 3; w_pages := 10; w_cost := PyFloat 0.9523 |};
     s_cost_per_page := 0.095238 |}.

(* ================================================================== *)
(** * Properties *)
(* ================================================================== *)

(** ** Strings and the clock *)

Lemma ascii_not_continues (c : ascii) :
  Nat.ltb (nat_of_ascii c) 128 = true -> continues c = false.
Proof.
  unfold continues. intros H. apply Nat.ltb_lt in H.
  destruct (Nat.leb_spec 128 (nat_of_ascii c)); [lia | reflexivity].
Qed.

Lemma is_ascii_app (a b : string) :
  is_ascii (a ++ b) = (is_ascii a && is_ascii b)%bool.
Proof.
  induction a as [|c a IH]; simpl; [reflexivity |].
  now rewrite IH, andb_assoc.
Qed.

(** The characters of an ASCII text are its bytes. *)
Lemma str_take_prefix_app (p : string) (c : ascii) (r : string) :
  is_ascii p = true -> continues c = false ->
  str_take (String.length p) (p ++ String c r) = p.
Proof.
  intros Hp Hc. induction p as [|a p IH]; simpl.
  - now rewrite Hc.
  - simpl in Hp. apply andb_prop in Hp as [Ha Hp].
    rewrite (ascii_not_continues a Ha). now rewrite (IH Hp).
Qed.

Lemma length_app (a b : string) :
  String.length (a ++ b) = (String.length a + String.length b)%nat.
Proof. induction a as [|c a IH]; simpl; [reflexivity | now rewrite IH]. Qed.

(** A check that holds on every integer of a range holds on each of them:
    the ranges of the fields of a date are small enough to be enumerated. *)
Lemma checked_on_range (P : Z -> bool) (lo n : Z) :
  forallb (fun k => P (lo + Z.of_nat k)) (seq 0 (Z.to_nat n)) = true ->
  forall z, lo <= z < lo + n -> P z = true.
Proof.
  intros Hall z Hz.
  rewrite forallb_forall in Hall.
  replace z with (lo + Z.of_nat (Z.to_nat (z - lo))) by lia.
  apply Hall, in_seq. lia.
Qed.

Lemma zero_padded2_length (n : Z) :
  0 <= n <= 99 -> String.length (zero_padded 2 n) = 2%nat.
Proof.
  intros Hn.
  apply Nat.eqb_eq.
  apply (checked_on_range
           (fun z => Nat.eqb (String.length (zero_padded 2 z)) 2) 0 100);
    [vm_compute; reflexivity | lia].
Qed.

Lemma decimal_year_length (y : Z) :
  1000 <= y <= 9999 -> String.length (decimal y) = 4%nat.
Proof.
  intros Hy.
  apply Nat.eqb_eq.
  apply (checked_on_range
           (fun z => Nat.eqb (String.length (decimal z)) 4) 1000 9000);
    [vm_compute; reflexivity | lia].
Qed.

Lemma zero_padded2_ascii (n : Z) :
  0 <= n <= 99 -> is_ascii (zero_padded 2 n) = true.
Proof.
  intros Hn.
  apply (checked_on_range (fun z => is_ascii (zero_padded 2 z)) 0 100);
    [vm_compute; reflexivity | lia].
Qed.

Lemma decimal_year_ascii (y : Z) :
  1000 <= y <= 9999 -> is_ascii (decimal y) = true.
Proof.
  intros Hy.
  apply (checked_on_range (fun z => is_ascii (decimal z)) 1000 9000);
    [vm_compute; reflexivity | lia].
Qed.

Lemma zero_padded_full (w : nat) (n : Z) :
  String.length (decimal n) = w -> zero_padded w n = decimal n.
Proof.
  intros H. unfold zero_padded. rewrite H, Nat.sub_diag. reflexivity.
Qed.

Lemma append_assoc (a b c : string) : (a ++ b) ++ c = a ++ (b ++ c).
Proof. induction a as [|x a IH]; simpl; [reflexivity | now rewrite IH]. Qed.

(** The day [strftime] prints is the first ten characters of [isoformat]. *)
Lemma date_is_timestamp_prefix (now : datetime) :
  valid_datetime now ->
  strftime_Ymd now = str_take 10 (isoformat_seconds now).
Proof.
  intros (Hy & Hm & Hd & _).
  unfold strftime_Ymd, isoformat_seconds.
  rewrite (zero_padded_full 4 (year now) (decimal_year_length _ Hy)).
  set (ymd := decimal (year now) ++ "-" ++ zero_padded 2 (month now) ++ "-" ++
              zero_padded 2 (day now)).
  set (rest := "T" ++ zero_padded 2 (hour now) ++ ":" ++
               zero_padded 2 (minute now) ++ ":" ++ zero_padded 2 (second now)).
  assert (Hlen : String.length ymd = 10%nat).
  { unfold ymd. rewrite !length_app, (decimal_year_length _ Hy),
      (zero_padded2_length (month now)), (zero_padded2_length (day now)) by lia.
    reflexivity. }
  assert (Hascii : is_ascii ymd = true).
  { unfold ymd. rewrite !is_ascii_app, (decimal_year_ascii _ Hy),
      (zero_padded2_ascii (month now)), (zero_padded2_ascii (day now)) by lia.
    reflexivity. }
  replace (decimal (year now) ++ "-" ++ zero_padded 2 (month now) ++ "-" ++
           zero_padded 2 (day now) ++ rest) with (ymd ++ rest).
  - rewrite <- Hlen. symmetry. unfold rest.
    now apply (str_take_prefix_app ymd "T"%char).
  - unfold ymd. rewrite !append_assoc. reflexivity.
Qed.

(** ** The upload loop *)

Lemma existsb_eqb_In (x : string) (l : list string) :
  existsb (String.eqb x) l = true <-> In x l.
Proof.
  rewrite existsb_exists. split.
  - intros (y & Hy & E). apply String.eqb_eq in E. now subst.
  - intros H. exists x. split; [assumption | apply String.eqb_refl].
Qed.

Ltac nothing_created :=
  exists []; simpl; rewrite app_nil_r; split; [reflexivity | constructor].

(** What a loop that may raise keeps true: a property of the state that
    every turn preserves holds of the state the loop ends in, raised or
    not. *)
Lemma for_each_preserves {S X : Type} (body : S -> X -> outcome S)
    (P : S -> Prop) :
  (forall st x st', P st -> body st x = Returned st' -> P st') ->
  forall (xs : list X) (st : S), P st -> P (snd (for_each body xs st)).
Proof.
  intros Hstep xs. induction xs as [|x xs IH]; intros st Hst; cbn [for_each].
  - exact Hst.
  - destruct (body st x) as [st'|e] eqn:Ex; [| exact Hst].
    apply IH. exact (Hstep st x st' Hst Ex).
Qed.

Lemma for_each_returned {S X : Type} (body : S -> X -> outcome S)
    (xs : list X) : forall (st final : S),
  fst (for_each body xs st) = Returned final ->
  snd (for_each body xs st) = final.
Proof.
  induction xs as [|x xs IH]; intros st final; cbn [for_each].
  - cbn [fst snd]. now intros [= ->].
  - destruct (body st x) as [st'|e]; [apply IH | discriminate].
Qed.

Lemma upload_one_appends lib existing_names now st f st' :
  upload_one lib existing_names now st f = Returned st' ->
  exists created,
    loop_uploads st' = (loop_uploads st ++ created)%list /\
    Forall (made_by lib existing_names now) created.
Proof.
  unfold upload_one.
  destruct (FileStorage.filename f) as [name|];
    [| intros [= <-]; nothing_created].
  destruct (is_pdf_name lib name) eqn:Hpdf; cbn [negb];
    [| intros [= <-]; nothing_created].
  destruct (existsb (String.eqb name) existing_names) eqn:Hdup;
    [intros [= <-]; nothing_created |].
  destruct (FileStorage.open_error f) as [e|]; [discriminate |].
  destruct (FileStorage.st_size f >? MAX_FILE_SIZE_MB * 1024 * 1024) eqn:Hsize;
    [intros [= <-]; nothing_created |].
  intros [= <-].
  eexists [_]; simpl. split; [reflexivity |].
  constructor; [| constructor].
  unfold made_by; simpl. repeat split; try assumption.
  - intros Hin. apply existsb_eqb_In in Hin. congruence.
  - rewrite Z.gtb_ltb in Hsize. apply Z.ltb_ge in Hsize. exact Hsize.
Qed.

(** Whether it ends or raises, the loop has appended records made as
    [made_by] says to the list it started from. *)
Lemma upload_loop_appends lib existing_names now files : forall st,
  exists created,
    loop_uploads (snd (for_each (upload_one lib existing_names now) files st)) =
      (loop_uploads st ++ created)%list /\
    Forall (made_by lib existing_names now) created.
Proof.
  induction files as [|f files IH]; intros st; cbn [for_each].
  - nothing_created.
  - destruct (upload_one lib existing_names now st f) as [st'|e] eqn:E1;
      [| nothing_created].
    destruct (IH st') as (c2 & E2 & F2).
    destruct (upload_one_appends _ _ _ _ _ _ E1) as (c1 & E1' & F1).
    exists (c1 ++ c2)%list. rewrite E2, E1', app_assoc. split; [reflexivity |].
    apply Forall_app. now split.
Qed.

(** The loop writes under [Output/] only. *)
Lemma upload_one_history_file lib existing_names now st f st' :
  upload_one lib existing_names now st f = Returned st' ->
  history_file (loop_disk st') = history_file (loop_disk st).
Proof.
  unfold upload_one.
  destruct (FileStorage.filename f) as [name|]; [| now intros [= <-]].
  destruct (negb (is_pdf_name lib name)); [now intros [= <-] |].
  destruct (existsb (String.eqb name) existing_names); [now intros [= <-] |].
  destruct (FileStorage.open_error f) as [e|]; [discriminate |].
  destruct (FileStorage.st_size f >? MAX_FILE_SIZE_MB * 1024 * 1024);
    now intros [= <-].
Qed.

Lemma upload_loop_history_file lib existing_names now files st :
  history_file
    (loop_disk (snd (for_each (upload_one lib existing_names now) files st))) =
  history_file (loop_disk st).
Proof.
  apply (for_each_preserves (upload_one lib existing_names now)
           (fun s => history_file (loop_disk s) = history_file (loop_disk st)));
    [| reflexivity].
  intros s x s' Hs Hx. rewrite <- Hs.
  exact (upload_one_history_file _ _ _ _ _ _ Hx).
Qed.

(** What [save_and_answer] leaves on the disk, whatever the workbook does. *)
Lemma save_and_answer_disk {A : Type} lib data d (body : A) :
  snd (save_and_answer lib data d body) =
  {| history_file := Some data; output_dir := output_dir d |}.
Proof. reflexivity. Qed.

Lemma save_and_answer_response {A : Type} lib data d (body : A) :
  fst (save_and_answer lib data d body) =
  match save_excel lib data with
  | Returned _ => Returned (Ok body)
  | Raised e => Raised e
  end.
Proof.
  unfold save_and_answer, save_history. cbn [fst].
  destruct (save_excel lib data); reflexivity.
Qed.

(** A batch leaves the stored records in place and appends its own, each
    made as [made_by] says; the settings are carried over. *)
Lemma upload_files_appends lib now files d :
  let before := load_history d in
  let after := load_history (snd (upload_files lib now files d)) in
  History.settings after = History.settings before /\
  exists created,
    History.uploads after = (History.uploads before ++ created)%list /\
    Forall (made_by lib (map Entry.filename (History.uploads before)) now)
           created.
Proof.
  unfold upload_files.
  destruct files as [|f files].
  - simpl. split; [reflexivity |]. nothing_created.
  - destruct (Z.of_nat (List.length (f :: files)) >? MAX_FILES).
    + simpl. split; [reflexivity |]. nothing_created.
    + set (existing := map Entry.filename (History.uploads (load_history d))).
      set (st0 := {| loop_uploads := History.uploads (load_history d);
                     loop_results := []; loop_disk := d |}).
      pose proof (upload_loop_appends lib existing now (f :: files) st0)
        as (created & E & F).
      pose proof (upload_loop_history_file lib existing now (f :: files) st0)
        as Hfile.
      pose proof (for_each_returned (upload_one lib existing now) (f :: files)
                    st0) as Hret.
      destruct (for_each (upload_one lib existing now) (f :: files) st0)
        as [[final|e] reached]; cbn [fst snd] in *.
      * rewrite (Hret final eq_refl) in E. rewrite save_and_answer_disk.
        unfold load_history at 1. cbn [history_file History.settings
                                       History.uploads].
        split; [reflexivity |]. exists created. now split.
      * unfold load_history at 1 3. rewrite Hfile. cbn [loop_disk st0].
        split; [reflexivity |]. nothing_created.
Qed.

(** ** Loading the document *)

(** C9. [load_history] returns a document when [history.json] is absent (the
    empty list of records with the settings 2000, 700, 30) and when it holds
    a document (that document): so it does on every disk a route has saved
    to, where it returns what [save_history] wrote last, whether or not the
    workbook could be written afterwards, and so it does on every state
    [disk], where [load_history] is that document. *)
Theorem load_history_returns_document :
  load_history_file None =
    Returned {| History.uploads := [];
                History.settings := {| Settings.monthly_income := PyInt 2000;
                                       Settings.daily_pages := 700;
                                       Settings.days_per_month := 30 |} |} /\
  (forall data, load_history_file (Some (Document data)) = Returned data) /\
  (forall lib data d,
      load_history_file
        (option_map Document (history_file (snd (save_history lib data d)))) =
        Returned data /\
      load_history (snd (save_history lib data d)) = data) /\
  (forall d : disk,
      load_history_file (option_map Document (history_file d)) =
        Returned (load_history d)).
Proof.
  split; [reflexivity |]. split; [reflexivity |]. split.
  - intros lib data d. split; reflexivity.
  - intros [[data|] out]; reflexivity.
Qed.

(** On a file that is there and is not JSON, [load_history] fails its
    caller. *)
Lemma load_history_fails_on_garbage :
  load_history_file (Some NotJson) = Raised JSONDecodeError /\
  ~ exists data, load_history_file (Some NotJson) = Returned data.
Proof.
  split; [reflexivity |]. intros [data H]. discriminate H.
Qed.

(** ** One clock reading per batch *)

(** C10. The records a call of [upload_files] appends all carry the
    timestamp of the one clock reading [now], and the [date] of each is the
    first ten characters of its [timestamp]. *)
Theorem upload_batch_shares_timestamp :
  forall (lib : Lib.t) (now : datetime) (files : list FileStorage.t)
         (d : disk),
    valid_datetime now ->
    exists created,
      History.uploads (load_history (snd (upload_files lib now files d))) =
        (History.uploads (load_history d) ++ created)%list /\
      Forall (fun u => Entry.timestamp u = isoformat_seconds now /\
                       Entry.date u = str_take 10 (Entry.timestamp u))
             created.
Proof.
  intros lib now files d Hnow.
  destruct (upload_files_appends lib now files d) as (_ & created & E & F).
  exists created. split; [exact E |].
  eapply Forall_impl; [| exact F].
  intros u (Hts & Hdate & _). split; [exact Hts |].
  rewrite Hdate, Hts. now apply date_is_timestamp_prefix.
Qed.

Lemma upload_batch_shares_timestamp_witness :
  valid_datetime jan05 /\
  exists created,
    History.uploads
      (load_history
         (snd (upload_files cpython_3_12 jan05
                 [pdf "a.pdf" "a0b1c2d3e4f5a6b7c8d9e0f1a2b3c4d5" 1;
                  pdf "c.pdf" "c0b1c2d3e4f5a6b7c8d9e0f1a2b3c4d5" 2]
                 empty_disk))) =
      (History.uploads (load_history empty_disk) ++ created)%list /\
    Forall (fun u => Entry.timestamp u = isoformat_seconds jan05 /\
                     Entry.date u = str_take 10 (Entry.timestamp u))
           created.
Proof.
  split.
  - unfold valid_datetime; simpl; lia.
  - apply (upload_batch_shares_timestamp cpython_3_12 jan05 _ empty_disk).
    unfold valid_datetime; simpl; lia.
Defined.

(** ** Removing records *)

Lemma remove_name_absent (name : string) (names : list string) :
  existsb (String.eqb name) names = false -> remove_name name names = names.
Proof.
  induction names as [|n names IH]; simpl; [reflexivity |].
  intros H. apply orb_false_iff in H as [Hn Hrest].
  rewrite Hn. simpl. now rewrite IH.
Qed.

Lemma unlink_if_exists_output_dir (name : string) (d : disk) :
  output_dir (unlink_if_exists name d) = remove_name name (output_dir d).
Proof.
  unfold unlink_if_exists, file_exists.
  destruct (existsb (String.eqb name) (output_dir d)) eqn:E; [reflexivity |].
  symmetry. now apply remove_name_absent.
Qed.

Lemma find_by_id_None (uid : string) (us : list Entry.t) :
  find_by_id uid us = None <-> forall u, In u us -> Entry.id u <> uid.
Proof.
  unfold find_by_id. split.
  - intros H u Hu E. apply (find_none _ _ H) in Hu.
    apply String.eqb_neq in Hu. contradiction.
  - intros H. induction us as [|v us IH]; simpl; [reflexivity |].
    destruct (String.eqb_spec (Entry.id v) uid) as [E|_].
    + exfalso. apply (H v); [now left | exact E].
    + apply IH. intros u Hu. apply H. now right.
Qed.

(** The record [next(...)] returns is the first one with that id. *)
Lemma find_by_id_Some (uid : string) (us : list Entry.t) (u : Entry.t) :
  find_by_id uid us = Some u ->
  exists l1 l2, us = (l1 ++ u :: l2)%list /\ Entry.id u = uid /\
                forall v, In v l1 -> Entry.id v <> uid.
Proof.
  unfold find_by_id. induction us as [|w us IH]; simpl; [discriminate |].
  destruct (String.eqb_spec (Entry.id w) uid) as [E|N].
  - intros [= <-]. exists [], us. repeat split; [exact E | intros v []].
  - intros H. destruct (IH H) as (l1 & l2 & -> & Hid & Hl1).
    exists (w :: l1), l2. repeat split; [exact Hid |].
    intros v [<-|Hv]; [exact N | now apply Hl1].
Qed.

Lemma filter_keeps_all {A : Type} (p : A -> bool) (l : list A) :
  (forall x, In x l -> p x = true) -> filter p l = l.
Proof.
  induction l as [|x l IH]; simpl; intros H; [reflexivity |].
  rewrite (H x (or_introl eq_refl)), IH; [reflexivity |].
  intros y Hy. apply H. now right.
Qed.

(** With ids that are pairwise distinct, dropping the records of id [uid]
    takes out the one record that carries it. *)
Lemma filter_out_unique_id (uid : string) (l1 l2 : list Entry.t) (u : Entry.t) :
  Entry.id u = uid ->
  NoDup (map Entry.id (l1 ++ u :: l2)) ->
  filter (fun v => negb (String.eqb (Entry.id v) uid)) (l1 ++ u :: l2) =
    (l1 ++ l2)%list.
Proof.
  intros <- Hnd.
  rewrite map_app in Hnd. simpl in Hnd.
  pose proof (NoDup_remove_2 _ _ _ Hnd) as Hnotin.
  rewrite filter_app. simpl.
  rewrite String.eqb_refl. simpl.
  rewrite !filter_keeps_all; [reflexivity | |];
    intros v Hv; apply negb_true_iff, String.eqb_neq; intros E;
    apply Hnotin, in_or_app; [right | left];
    rewrite <- E; now apply in_map.
Qed.

(** C7, as the code has it.  [delete_upload] on the id of a stored record
    saves the document without the records that carry the id (with stored
    ids pairwise distinct: without that one record), all others and the
    settings as they were, and the file of the first of them is gone from
    [Output/]; it answers success when [save_excel] then writes the
    workbook, and lets its exception escape when it does not.  On an id no
    record carries it answers 404 and the disk is what it was. *)
Theorem delete_upload_removes_exactly :
  forall (lib : Lib.t) (upload_id : string) (d : disk),
    let us := History.uploads (load_history d) in
    let out := delete_upload lib upload_id d in
    (exists u,
        find_by_id upload_id us = Some u /\
        let kept := filter (fun v => negb (String.eqb (Entry.id v) upload_id))
                           us in
        let saved := {| History.uploads := kept;
                        History.settings := History.settings (load_history d) |} in
        history_file (snd out) = Some saved /\
        (forall v, In v kept <-> In v us /\ Entry.id v <> upload_id) /\
        (NoDup (map Entry.id us) ->
         exists l1 l2, us = (l1 ++ u :: l2)%list /\ kept = (l1 ++ l2)%list) /\
        output_dir (snd out) = remove_name (Entry.saved_as u) (output_dir d) /\
        fst out = answer_after_save lib saved true) \/
    ((forall u, In u us -> Entry.id u <> upload_id) /\
     out = (Returned (Fail 404 "Nu s-a gasit"), d)).
Proof.
  intros lib upload_id d us out. subst out. unfold delete_upload. fold us.
  destruct (find_by_id upload_id us) as [u|] eqn:Hfind.
  - left. exists u. split; [reflexivity |].
    rewrite save_and_answer_disk, save_and_answer_response.
    cbn [history_file output_dir]. rewrite unlink_if_exists_output_dir.
    split; [reflexivity |]. split; [| split; [| split; reflexivity]].
    + intros v. rewrite filter_In, negb_true_iff, String.eqb_neq. reflexivity.
    + intros Hnd.
      destruct (find_by_id_Some _ _ _ Hfind) as (l1 & l2 & E & Hid & _).
      exists l1, l2. split; [exact E |].
      rewrite E in Hnd |- *. exact (filter_out_unique_id _ _ _ _ Hid Hnd).
  - right. split; [now apply find_by_id_None | reflexivity].
Qed.

Ltac distinct_by_computation :=
  vm_compute;
  repeat (constructor; [simpl; intuition discriminate |]);
  constructor.

(** C7 as stated fails twice.  While a stored name holds a control
    character, deleting another record removes it and does not answer
    success: the workbook cannot be written.  And where two records carry
    one id, deleting by that id removes both. *)
Lemma delete_upload_not_always_success :
  (id_stored (History.uploads (load_history smudged)) "a0b1c2d3e4f5" = true /\
   fst (delete_upload cpython_3_11 "a0b1c2d3e4f5" smudged) =
     Raised IllegalCharacterError /\
   map Entry.filename
       (History.uploads
          (load_history (snd (delete_upload cpython_3_11 "a0b1c2d3e4f5"
                                smudged)))) =
     ["b.pdf"; smudged_name]) /\
  (map Entry.filename (History.uploads (load_history twins)) =
     ["a.pdf"; "c.pdf"] /\
   fst (delete_upload cpython_3_11 "a0b1c2d3e4f5" twins) = Returned (Ok true) /\
   History.uploads
     (load_history (snd (delete_upload cpython_3_11 "a0b1c2d3e4f5" twins))) =
     []).
Proof. vm_compute. repeat split. Qed.

(** What becomes of the disk in the sample: the record of [a.pdf] and its
    file are gone, the record of [b.pdf] stays. *)
Example delete_upload_sample :
  let out := delete_upload cpython_3_12 "a0b1c2d3e4f5" two_days in
  fst out = Returned (Ok true) /\
  map Entry.filename (History.uploads (load_history (snd out))) = ["b.pdf"] /\
  output_dir (snd out) = ["b1c2d3e4f5a6_b.pdf"] /\
  delete_upload cpython_3_12 "000000000000" two_days =
    (Returned (Fail 404 "Nu s-a gasit"), two_days).
Proof. vm_compute. repeat split. Qed.

(** C5, as the code has it.  [reset_period] with two non-empty bounds [a] and
    [b] saves the document without the records whose day [d] satisfies
    [a <= d <= b], the others in place and unchanged; it answers the number
    of records it removed when [save_excel] then writes the workbook, and
    lets its exception escape when it does not.  With a bound that is absent
    or empty it answers 400 and the disk is what it was. *)
Theorem reset_period_removes_range :
  forall (lib : Lib.t) (date_from date_to : option string) (d : disk),
    let us := History.uploads (load_history d) in
    let out := reset_period lib date_from date_to d in
    (exists a b,
        date_from = Some a /\ date_to = Some b /\
        nonempty a = true /\ nonempty b = true /\
        let saved :=
          {| History.uploads := filter (fun u => negb (in_period a b u)) us;
             History.settings := History.settings (load_history d) |} in
        let removed := Z.of_nat (List.length (filter (in_period a b) us)) in
        history_file (snd out) = Some saved /\
        (forall u, In u (History.uploads (load_history (snd out))) <->
                   In u us /\
                   ~ (String.leb a (day_of u) = true /\
                      String.leb (day_of u) b = true)) /\
        removed = Z.of_nat (List.length us) -
                  Z.of_nat (List.length
                              (History.uploads (load_history (snd out)))) /\
        fst out = answer_after_save lib saved removed) \/
    ((truthy date_from = false \/ truthy date_to = false) /\
     out = (Returned (Fail 400 "Specifica perioada (from, to)"), d)).
Proof.
  intros lib date_from date_to d us out. subst out. unfold reset_period.
  destruct date_from as [a|]; [| right; split; [now left | reflexivity]].
  destruct date_to as [b|];
    [| right; split; [now right | now destruct a]].
  destruct (nonempty a) eqn:Ha; cbn [negb orb];
    [| right; split; [now left | reflexivity]].
  destruct (nonempty b) eqn:Hb; cbn [negb orb];
    [| right; split; [now right | reflexivity]].
  left. exists a, b. fold us.
  rewrite save_and_answer_disk, save_and_answer_response.
  cbn [load_history history_file History.uploads].
  do 5 (split; [first [reflexivity | assumption] |]).
  split; [| split; [| reflexivity]].
  - intros u. rewrite filter_In, negb_true_iff. unfold in_period.
    destruct (String.leb a (day_of u)), (String.leb (day_of u) b);
      simpl; intuition congruence.
  - pose proof (filter_length (in_period a b) us). lia.
Qed.

(** C5 as stated fails while a stored name holds a control character: the
    records of the period are removed, and no count is answered. *)
Lemma reset_period_not_always_count :
  let out := reset_period cpython_3_11 (Some "2024-01-05") (Some "2024-01-05")
               smudged in
  fst out = Raised IllegalCharacterError /\
  map Entry.filename (History.uploads (load_history smudged)) =
    ["a.pdf"; "b.pdf"; smudged_name] /\
  map Entry.filename (History.uploads (load_history (snd out))) =
    ["b.pdf"; smudged_name] /\
  forall n, fst out <> Returned (Ok n).
Proof.
  vm_compute. repeat split. intros n H. discriminate H.
Qed.

Lemma find_by_id_stored (uid : string) (us : list Entry.t) :
  id_stored us uid =
  match find_by_id uid us with Some _ => true | None => false end.
Proof.
  unfold id_stored, find_by_id.
  induction us as [|u us IH]; simpl; [reflexivity |].
  now destruct (String.eqb (Entry.id u) uid).
Qed.

(** The counter of [delete_bulk] goes up by one for each element of [ids]
    that is the id of a stored record. *)
Lemma bulk_loop_count (us : list Entry.t) (ids : list string) :
  forall (c : Z) (d : disk),
    fst (fold_left (bulk_one us) ids (c, d)) =
    c + Z.of_nat (List.length (filter (id_stored us) ids)).
Proof.
  induction ids as [|uid ids IH]; intros c d; simpl; [lia |].
  unfold bulk_one at 2. rewrite find_by_id_stored.
  destruct (find_by_id uid us); simpl; rewrite IH; simpl; lia.
Qed.

(** C6, as the code has it, for a set of ids (a list without repetition).
    [delete_bulk] refuses the empty set with 400 and leaves the disk as it
    was.  For a set that is not empty it saves the document without the
    records whose id is in the set, the others in place and unchanged; it
    answers the number of ids of the set that are ids of stored records (the
    others are passed over) when [save_excel] then writes the workbook, and
    lets its exception escape when it does not. *)
Theorem delete_bulk_counts_matches :
  forall (lib : Lib.t) (ids : list string) (d : disk),
    NoDup ids ->
    let us := History.uploads (load_history d) in
    let out := delete_bulk lib ids d in
    (ids = [] /\ out = (Returned (Fail 400 "Niciun ID specificat"), d)) \/
    (ids <> [] /\
     let saved :=
       {| History.uploads :=
            filter (fun u => negb (existsb (String.eqb (Entry.id u)) ids)) us;
          History.settings := History.settings (load_history d) |} in
     history_file (snd out) = Some saved /\
     (forall u, In u (History.uploads (load_history (snd out))) <->
                In u us /\ ~ In (Entry.id u) ids) /\
     fst out =
       answer_after_save lib saved
         (Z.of_nat (List.length (filter (id_stored us) ids)))).
Proof.
  intros lib ids d _ us out. subst out.
  destruct ids as [|uid ids]; [left; split; reflexivity |].
  right. split; [discriminate |].
  unfold delete_bulk. fold us.
  pose proof (bulk_loop_count us (uid :: ids) 0 d) as Hcount.
  destruct (fold_left (bulk_one us) (uid :: ids) (0, d)) as [deleted d1].
  cbn [fst snd] in Hcount.
  rewrite save_and_answer_disk, save_and_answer_response.
  cbn [load_history history_file History.uploads].
  split; [reflexivity |]. split.
  - intros u. rewrite filter_In, negb_true_iff.
    rewrite <- (existsb_eqb_In (Entry.id u) (uid :: ids)).
    destruct (existsb (String.eqb (Entry.id u)) (uid :: ids));
      intuition congruence.
  - rewrite Hcount. reflexivity.
Qed.

Lemma delete_bulk_counts_matches_witness :
  NoDup ["a0b1c2d3e4f5"; "ffffffffffff"; "c2d3e4f5a6b7"] /\
  let ids := ["a0b1c2d3e4f5"; "ffffffffffff"; "c2d3e4f5a6b7"] in
  let us := History.uploads (load_history three_records) in
  let out := delete_bulk cpython_3_12 ids three_records in
  (ids = [] /\
   out = (Returned (Fail 400 "Niciun ID specificat"), three_records)) \/
  (ids <> [] /\
   let saved :=
     {| History.uploads :=
          filter (fun u => negb (existsb (String.eqb (Entry.id u)) ids)) us;
        History.settings := History.settings (load_history three_records) |} in
   history_file (snd out) = Some saved /\
   (forall u, In u (History.uploads (load_history (snd out))) <->
              In u us /\ ~ In (Entry.id u) ids) /\
   fst out =
     answer_after_save cpython_3_12 saved
       (Z.of_nat (List.length (filter (id_stored us) ids)))).
Proof.
  split; [distinct_by_computation |].
  apply (delete_bulk_counts_matches cpython_3_12
           ["a0b1c2d3e4f5"; "ffffffffffff"; "c2d3e4f5a6b7"] three_records).
  distinct_by_computation.
Defined.

(** The example of C6: of three ids the second is unknown; the two known
    records go, the count is 2, the third record stays. *)
Example delete_bulk_sample :
  let out := delete_bulk cpython_3_12
               ["a0b1c2d3e4f5"; "ffffffffffff"; "c2d3e4f5a6b7"]
               three_records in
  fst out = Returned (Ok 2) /\
  map Entry.filename (History.uploads (load_history (snd out))) = ["b.pdf"] /\
  output_dir (snd out) = ["b1c2d3e4f5a6_b.pdf"].
Proof. vm_compute. repeat split. Qed.

(** C6 as stated fails on the empty set, where the request is refused and no
    count is answered, and while a stored name holds a control character,
    where the records are removed and no count is answered. *)
Lemma delete_bulk_refuses_empty :
  (fst (delete_bulk cpython_3_11 [] two_days) =
     Returned (Fail 400 "Niciun ID specificat") /\
   forall n, fst (delete_bulk cpython_3_11 [] two_days) <> Returned (Ok n)) /\
  (fst (delete_bulk cpython_3_11 ["a0b1c2d3e4f5"] smudged) =
     Raised IllegalCharacterError /\
   map Entry.filename
       (History.uploads
          (load_history (snd (delete_bulk cpython_3_11 ["a0b1c2d3e4f5"]
                                smudged)))) =
     ["b.pdf"; smudged_name]).
Proof.
  split; [split; [reflexivity | intros n H; discriminate H] |].
  vm_compute. split; reflexivity.
Qed.

(** The example of C5: January 5th alone is reset on a disk that holds one
    record of that day and two of the next. *)
Example reset_period_sample :
  let out := reset_period cpython_3_12 (Some "2024-01-05") (Some "2024-01-05")
               three_records in
  fst out = Returned (Ok 1) /\
  map Entry.filename (History.uploads (load_history (snd out))) =
    ["b.pdf"; "c.pdf"] /\
  reset_period cpython_3_12 (Some "2024-01-05") (Some "") three_records =
    (Returned (Fail 400 "Specifica perioada (from, to)"), three_records).
Proof. vm_compute. repeat split. Qed.

(** ** Sums over the records, the sort and the day filters *)

Lemma fold_add_from (l : list Z) : forall a : Z,
  fold_left Z.add l a = a + fold_left Z.add l 0.
Proof.
  induction l as [|y l IH]; intros a; simpl; [lia |].
  rewrite (IH (a + y)), (IH y). lia.
Qed.

Lemma int_sum_cons (x : Z) (l : list Z) : int_sum (x :: l) = x + int_sum l.
Proof. unfold int_sum. simpl. apply fold_add_from. Qed.

Lemma int_sum_nil : int_sum [] = 0.
Proof. reflexivity. Qed.

Lemma ltb_irrefl (s : string) : String.ltb s s = false.
Proof.
  unfold String.ltb. pose proof (String.compare_antisym s s) as H.
  destruct (String.compare s s); try reflexivity; discriminate.
Qed.

Section Sorted_facts.
Variable A : Type.
Variable key : A -> string.

Lemma insert_desc_sum (w : A -> Z) (x : A) (l : list A) :
  int_sum (map w (insert_desc key x l)) = w x + int_sum (map w l).
Proof.
  induction l as [|y l IH]; cbn [insert_desc map];
    [now rewrite int_sum_cons |].
  destruct (String.ltb (key x) (key y)); cbn [map];
    [| now rewrite !int_sum_cons].
  rewrite !int_sum_cons, IH. lia.
Qed.

Lemma sorted_desc_sum (w : A -> Z) (l : list A) :
  int_sum (map w (sorted_desc key l)) = int_sum (map w l).
Proof.
  induction l as [|x l IH]; cbn [sorted_desc fold_right map];
    [reflexivity |].
  fold (sorted_desc key l).
  now rewrite insert_desc_sum, int_sum_cons, IH.
Qed.

(** The sort is stable: the first item of a given key stays the first. *)
Lemma insert_desc_find (k : string) (x : A) (l : list A) :
  find (fun y => String.eqb (key y) k) (insert_desc key x l) =
  if String.eqb (key x) k then Some x
  else find (fun y => String.eqb (key y) k) l.
Proof.
  induction l as [|y l IH]; simpl.
  - now destruct (String.eqb (key x) k).
  - destruct (String.ltb (key x) (key y)) eqn:Hlt; simpl.
    + rewrite IH.
      destruct (String.eqb_spec (key y) k) as [Ey|_]; [| reflexivity].
      destruct (String.eqb_spec (key x) k) as [Ex|_]; [| reflexivity].
      exfalso. rewrite Ex, <- Ey, ltb_irrefl in Hlt. discriminate.
    + reflexivity.
Qed.

Lemma sorted_desc_find (k : string) (l : list A) :
  find (fun y => String.eqb (key y) k) (sorted_desc key l) =
  find (fun y => String.eqb (key y) k) l.
Proof.
  induction l as [|x l IH]; simpl; [reflexivity |].
  now rewrite insert_desc_find, IH.
Qed.
End Sorted_facts.

Lemma filter_filter {A : Type} (p q : A -> bool) (l : list A) :
  filter q (filter p l) = filter (fun x => (p x && q x)%bool) l.
Proof.
  induction l as [|x l IH]; simpl; [reflexivity |].
  destruct (p x); simpl; [destruct (q x) |]; now rewrite IH.
Qed.

Lemma filter_true {A : Type} (l : list A) : filter (fun _ => true) l = l.
Proof. apply filter_keeps_all. reflexivity. Qed.

(** The two optional filters of the views keep the records whose day is
    [in_range]. *)
Lemma filter_dates_in_range (date_from date_to : option string)
    (us : list Entry.t) :
  filter_dates date_from date_to us =
  filter (fun u => in_range date_from date_to (day_of u)) us.
Proof.
  unfold filter_dates, in_range, truthy.
  destruct date_from as [a|], date_to as [b|];
    try destruct (nonempty a); try destruct (nonempty b);
    rewrite ?filter_filter; try (symmetry; apply filter_true);
    apply filter_ext; intros u; now rewrite ?andb_true_r.
Qed.




Lemma int_sum_length {A : Type} (l : list A) :
  Z.of_nat (List.length l) = int_sum (map (fun _ => 1) l).
Proof.
  induction l as [|x l IH]; cbn [map List.length]; [reflexivity |].
  rewrite int_sum_cons, <- IH. lia.
Qed.




Lemma get_history_total_pages (lib : Lib.t)
    (date_from date_to : option string) (search : string) (d : disk) :
  h_total_pages (get_history lib date_from date_to search d) =
  int_sum (map Entry.pages
               (h_uploads (get_history lib date_from date_to search d))).
Proof. reflexivity. Qed.

Lemma get_history_total_files (lib : Lib.t)
    (date_from date_to : option string) (search : string) (d : disk) :
  h_total_files (get_history lib date_from date_to search d) =
  int_sum (map (fun _ => 1)
               (h_uploads (get_history lib date_from date_to search d))).
Proof. unfold get_history. cbn [h_total_files h_uploads]. apply int_sum_length. Qed.

(** ** The daily grouping *)

Lemma daily_add_find (dd : string) (u : Entry.t) (daily : list Day.t) :
  find_day dd (daily_add u daily) = day_step dd (find_day dd daily) u.
Proof.
  unfold find_day, day_step.
  induction daily as [|e rest IH]; cbn [daily_add find].
  - cbn [day_add day_empty Day.date].
    destruct (String.eqb_spec (day_of u) dd) as [->|_]; reflexivity.
  - destruct (String.eqb_spec (Day.date e) (day_of u)) as [Eu|Nu];
      cbn [find day_add Day.date].
    + rewrite Eu.
      destruct (String.eqb_spec (day_of u) dd) as [_|_]; reflexivity.
    + destruct (String.eqb_spec (Day.date e) dd) as [Ed|Nd].
      * destruct (String.eqb_spec (day_of u) dd) as [E|_]; [| reflexivity].
        congruence.
      * exact IH.
Qed.

Lemma daily_fold_find (dd : string) (us : list Entry.t) :
  forall daily : list Day.t,
    find_day dd (fold_left (fun daily u => daily_add u daily) us daily) =
    fold_left (day_step dd) us (find_day dd daily).
Proof.
  induction us as [|u us IH]; intros daily; cbn [fold_left]; [reflexivity |].
  now rewrite IH, daily_add_find.
Qed.

(** Filtering the records on their day does not change the entry of a day
    that passes the filter, and leaves none for a day that does not. *)
Lemma day_fold_filter (p : string -> bool) (dd : string) (us : list Entry.t) :
  forall acc : option Day.t,
    fold_left (day_step dd) (filter (fun u => p (day_of u)) us) acc =
    if p dd then fold_left (day_step dd) us acc else acc.
Proof.
  induction us as [|u us IH]; intros acc; cbn [filter fold_left].
  - now destruct (p dd).
  - destruct (p (day_of u)) eqn:Hu; cbn [fold_left]; rewrite IH;
      destruct (p dd) eqn:Hd; try reflexivity;
      unfold day_step;
      destruct (String.eqb_spec (day_of u) dd) as [E|_]; try reflexivity;
      congruence.
Qed.

Lemma find_day_round (dd : string) (daily : list Day.t) :
  find_day dd (map day_round daily) = option_map day_round (find_day dd daily).
Proof.
  unfold find_day. induction daily as [|e rest IH]; cbn [map find];
    [reflexivity |].
  cbn [day_round Day.date]. now destruct (String.eqb (Day.date e) dd).
Qed.

(** The entry of a day in [daily_summary], from the stored records. *)
Lemma daily_summary_find (date_from date_to : option string) (d : disk)
    (dd : string) :
  find_day dd (daily_summary date_from date_to d) =
  if in_range date_from date_to dd
  then option_map day_round
         (fold_left (day_step dd) (History.uploads (load_history d)) None)
  else None.
Proof.
  unfold daily_summary, find_day.
  rewrite sorted_desc_find. fold (find_day dd (map day_round
    (daily_of (filter_dates date_from date_to (History.uploads (load_history d)))))).
  rewrite find_day_round. unfold daily_of.
  rewrite daily_fold_find, filter_dates_in_range.
  rewrite (day_fold_filter (in_range date_from date_to)). cbn [find_day find].
  now destruct (in_range date_from date_to dd).
Qed.

Section Daily_sums.
(** A field of the day entries that adds up a weight of the records. *)
Variable F : Day.t -> Z.
Variable w : Entry.t -> Z.
Hypothesis F_add : forall u e, F (day_add u e) = F e + w u.
Hypothesis F_empty : forall dd, F (day_empty dd) = 0.
Hypothesis F_round : forall e, F (day_round e) = F e.



End Daily_sums.

(** ** Partition consistency of the views *)







(** ** File names within one batch *)

(** C2 as stated fails.  The names a batch is checked against are those
    stored when it starts ([existing_names] is not extended inside the
    loop), so one batch that carries the name [a.pdf] twice leaves two live
    records of that name; neither file is reported as a duplicate. *)
Lemma duplicate_name_within_batch :
  let out := upload_files cpython_3_11 jan05
               [pdf "a.pdf" "a0b1c2d3e4f5a6b7c8d9e0f1a2b3c4d5" 1;
                pdf "a.pdf" "b1c2d3e4f5a6b7c8d9e0f1a2b3c4d5e6" 6]
               empty_disk in
  (exists reply, fst out = Returned (Ok reply) /\
                 map Result.error (results reply) = [None; None]) /\
  map Entry.filename (History.uploads (load_history (snd out))) =
    ["a.pdf"; "a.pdf"] /\
  ~ NoDup (map Entry.filename (History.uploads (load_history (snd out)))).
Proof.
  split; [eexists; split; vm_compute; reflexivity |].
  split; [vm_compute; reflexivity |].
  intros H. vm_compute in H. inversion H as [|x l Hnotin _]. subst.
  apply Hnotin. now left.
Qed.

Lemma ForallOrdPairs_filter {A : Type} (R : A -> A -> Prop) (p : A -> bool)
    (l : list A) :
  ForallOrdPairs R l -> ForallOrdPairs R (filter p l).
Proof.
  induction 1 as [|a l Ha Hl IH]; cbn [filter]; [constructor |].
  destruct (p a); [| exact IH].
  constructor; [| exact IH].
  apply Forall_forall. intros x Hx. apply filter_In in Hx as [Hx _].
  rewrite Forall_forall in Ha. now apply Ha.
Qed.

Lemma ForallOrdPairs_append {A : Type} (R : A -> A -> Prop) (l1 l2 : list A) :
  ForallOrdPairs R l1 -> ForallOrdPairs R l2 ->
  (forall a b, In a l1 -> In b l2 -> R a b) ->
  ForallOrdPairs R (l1 ++ l2).
Proof.
  intros H1 H2 Hcross. induction H1 as [|a l Ha Hl IH]; cbn [app];
    [exact H2 |].
  constructor.
  - apply Forall_app. split; [exact Ha |].
    apply Forall_forall. intros b Hb. apply Hcross; [now left | exact Hb].
  - apply IH. intros x y Hx Hy. apply Hcross; [now right | exact Hy].
Qed.

Lemma made_together lib existing now (created : list Entry.t) :
  Forall (made_by lib existing now) created ->
  same_name_same_batch created.
Proof.
  unfold same_name_same_batch.
  induction 1 as [|u l Hu Hl IH]; constructor; [| exact IH].
  apply Forall_forall. intros v Hv _.
  rewrite Forall_forall in Hl. destruct (Hl v Hv) as (Tv & Dv & _).
  destruct Hu as (Tu & Du & _). split; congruence.
Qed.

(** The three routes that delete leave a part of the stored list, in its
    order. *)
Lemma deleting_filters lib (r : request) (d : disk) :
  (forall now files, r <> Upload now files) ->
  exists p, History.uploads (load_history (serve lib d r)) =
            filter p (History.uploads (load_history d)).
Proof.
  intros Hr. destruct r as [now files|uid|ids|date_from date_to];
    cbn [serve].
  - now destruct (Hr now files).
  - unfold delete_upload.
    destruct (find_by_id uid (History.uploads (load_history d))).
    + rewrite save_and_answer_disk. eexists. reflexivity.
    + exists (fun _ => true). cbn [snd]. now rewrite filter_true.
  - unfold delete_bulk. destruct ids as [|uid ids].
    + exists (fun _ => true). cbn [snd]. now rewrite filter_true.
    + destruct (fold_left (bulk_one (History.uploads (load_history d)))
                          (uid :: ids) (0, d)) as [deleted d1].
      rewrite save_and_answer_disk. eexists. reflexivity.
  - unfold reset_period.
    destruct date_from as [a|], date_to as [b|];
      try (exists (fun _ => true); cbn [snd]; now rewrite filter_true).
    destruct (negb (nonempty a) || negb (nonempty b))%bool.
    + exists (fun _ => true). cbn [snd]. now rewrite filter_true.
    + rewrite save_and_answer_disk. eexists. reflexivity.
Qed.

Lemma serve_keeps_batches lib (r : request) (d : disk) :
  same_name_same_batch (History.uploads (load_history d)) ->
  same_name_same_batch (History.uploads (load_history (serve lib d r))).
Proof.
  intros Hinv. destruct r as [now files|uid|ids|date_from date_to].
  - cbn [serve].
    destruct (upload_files_appends lib now files d) as (_ & created & E & F).
    rewrite E. apply ForallOrdPairs_append;
      [exact Hinv | exact (made_together _ _ _ _ F) |].
    intros u v Hu Hv Hname. exfalso.
    rewrite Forall_forall in F. destruct (F v Hv) as (_ & _ & _ & _ & Hnew & _).
    apply Hnew. rewrite <- Hname. now apply in_map.
  - destruct (deleting_filters lib (Delete uid) d) as [p ->];
      [discriminate | now apply ForallOrdPairs_filter].
  - destruct (deleting_filters lib (DeleteBulk ids) d) as [p ->];
      [discriminate | now apply ForallOrdPairs_filter].
  - destruct (deleting_filters lib (ResetPeriod date_from date_to) d)
      as [p ->]; [discriminate | now apply ForallOrdPairs_filter].
Qed.

Lemma serve_all_keeps_batches lib (requests : list request) : forall d : disk,
  same_name_same_batch (History.uploads (load_history d)) ->
  same_name_same_batch
    (History.uploads (load_history (fold_left (serve lib) requests d))).
Proof.
  induction requests as [|r rs IH]; intros d Hd; cbn [fold_left];
    [exact Hd |].
  apply IH. now apply serve_keeps_batches.
Qed.

(** C2, as the code has it.  In every state reached from the empty store by
    uploads and deletions, two live records that have the same filename
    carry the same timestamp and date: they were made by one batch, whose
    files are checked against the names stored when it started and not
    against each other. *)
Theorem names_repeat_within_a_batch_only :
  forall (lib : Lib.t) (requests : list request),
    let d := fold_left (serve lib) requests empty_disk in
    forall (l1 l2 l3 : list Entry.t) (u v : Entry.t),
      History.uploads (load_history d) = (l1 ++ u :: l2 ++ v :: l3)%list ->
      Entry.filename u = Entry.filename v ->
      Entry.timestamp u = Entry.timestamp v /\
      Entry.date u = Entry.date v.
Proof.
  intros lib requests d.
  assert (Hinv : same_name_same_batch (History.uploads (load_history d)))
    by (apply serve_all_keeps_batches; constructor).
  intros l1 l2 l3 u v E. rewrite E in Hinv. clear E.
  unfold same_name_same_batch in Hinv.
  induction l1 as [|w l1 IH]; cbn [app] in Hinv.
  - inversion Hinv as [|? ? Hu _]; subst.
    rewrite Forall_forall in Hu. apply Hu.
    apply in_or_app. right. now left.
  - inversion Hinv as [|? ? _ Hrest]; subst. exact (IH Hrest).
Qed.

Lemma names_repeat_within_a_batch_only_witness :
  let d := fold_left (serve cpython_3_11)
             [Upload jan05 [pdf "a.pdf" "a0b1c2d3e4f5a6b7c8d9e0f1a2b3c4d5" 1;
                            pdf "a.pdf" "b1c2d3e4f5a6b7c8d9e0f1a2b3c4d5e6" 6];
              Delete "ffffffffffff"]
             empty_disk in
  let u := entry_of jan05 (pdf "a.pdf" "a0b1c2d3e4f5a6b7c8d9e0f1a2b3c4d5" 1) in
  let v := entry_of jan05 (pdf "a.pdf" "b1c2d3e4f5a6b7c8d9e0f1a2b3c4d5e6" 6) in
  History.uploads (load_history d) = ([] ++ u :: [] ++ v :: [])%list /\
  Entry.filename u = Entry.filename v /\
  Entry.timestamp u = Entry.timestamp v /\
  Entry.date u = Entry.date v.
Proof.
  split; [vm_compute; reflexivity |].
  split; [reflexivity |].
  apply (names_repeat_within_a_batch_only cpython_3_11
           [Upload jan05 [pdf "a.pdf" "a0b1c2d3e4f5a6b7c8d9e0f1a2b3c4d5" 1;
                          pdf "a.pdf" "b1c2d3e4f5a6b7c8d9e0f1a2b3c4d5e6" 6];
            Delete "ffffffffffff"]
           [] [] []);
    [vm_compute; reflexivity | reflexivity].
Defined.

(** X1. Against the records stored before the batch the check is complete: no
    record a batch appends takes the name of one of them. *)
Theorem upload_never_repeats_stored_name :
  forall (lib : Lib.t) (now : datetime) (files : list FileStorage.t)
         (d : disk),
  exists created,
    History.uploads (load_history (snd (upload_files lib now files d))) =
      (History.uploads (load_history d) ++ created)%list /\
    Forall (fun u => ~ In (Entry.filename u)
                          (map Entry.filename (History.uploads (load_history d))))
           created.
Proof.
  intros lib now files d.
  destruct (upload_files_appends lib now files d) as (_ & created & E & F).
  exists created. split; [exact E |].
  eapply Forall_impl; [| exact F]. intros u H. apply H.
Qed.

(** ** The rate of a page *)

(** X2. The rate every upload uses is the constant of the module, which is the
    rate of the default settings. *)
Theorem upload_cost_uses_constant :
  forall (lib : Lib.t) (now : datetime) (files : list FileStorage.t)
         (d : disk),
    truediv_float_int 2000 (700 * 30) = Returned COST_PER_PAGE /\
    History.settings (load_history (snd (upload_files lib now files d))) =
      History.settings (load_history d) /\
    exists created,
      History.uploads (load_history (snd (upload_files lib now files d))) =
        (History.uploads (load_history d) ++ created)%list /\
      Forall (fun u => Entry.cost u =
                       round_float (mul_int_float (Entry.pages u) COST_PER_PAGE) 4)
             created.
Proof.
  intros lib now files d.
  split; [vm_compute; reflexivity |].
  destruct (upload_files_appends lib now files d) as (Hs & created & E & F).
  split; [exact Hs |].
  exists created. split; [exact E |].
  eapply Forall_impl; [| exact F]. intros u H. apply H.
Qed.

(** C1 does not hold of the code.  On the sample disk a [POST] of the
    settings 4000, 700, 30 succeeds and answers their rate, 0.190476; the
    upload of a file of 21 pages that follows still answers the rate
    0.095238 and records the cost 2.0, where the new settings give
    round(21 * 4000 / (700 * 30), 4) = 4.0.  The costs of the two records
    stored before are what they were. *)
Theorem settings_change_ignored_by_upload :
  forall (compensated : bool) (parse_float : string -> option float)
         (parse_int : string -> option Z),
    let lib := cpython compensated in
    let post := settings lib parse_float parse_int (POST settings_4000)
                  two_days in
    let up := upload_files lib jan06
                [pdf "d.pdf" "d3e4f5a6b7c8d9e0f1a2b3c4d5e6f7a8" 21] (snd post) in
    fst post = Returned (Ok (inr {| success := true;
                                    new_cost_per_page := 0.190476 |})) /\
    History.settings (load_history (snd post)) =
      {| Settings.monthly_income := PyFloat 4000;
         Settings.daily_pages := 700; Settings.days_per_month := 30 |} /\
    (exists reply, fst up = Returned (Ok reply) /\
                   cost_per_page reply = 0.095238%float /\
                   map Result.cost (results reply) = [PyFloat 2]) /\
    map Entry.cost (History.uploads (load_history two_days)) =
      [0.0952; 0.5714]%float /\
    map Entry.cost (History.uploads (load_history (snd up))) =
      [0.0952; 0.5714; 2]%float /\
    (rate <- truediv_float_int 4000 (700 * 30) ;;
     Returned (round_float (mul_int_float 21 rate) 4)) = Returned 4%float.
Proof.
  intros compensated parse_float parse_int.
  destruct compensated.
  all: split; [vm_compute; reflexivity |].
  all: split; [vm_compute; reflexivity |].
  all: split; [eexists; split; [vm_compute; reflexivity |];
               split; vm_compute; reflexivity |].
  all: repeat split; vm_compute; reflexivity.
Qed.

(** C4 does not hold of the code.  With the settings 1000.0, 100, 10 in
    force (a rate of 1.0 a page), a valid file of 10 pages is recorded with
    the cost 0.9524, not round(10 * 1.0, 4) = 10.0. *)
Theorem upload_cost_ignores_settings :
  forall (lib : Lib.t) (parse_float : string -> option float)
         (parse_int : string -> option Z),
    let d := snd (settings lib parse_float parse_int (POST settings_1000)
                    empty_disk) in
    let up := upload_files lib jan05
                [pdf "a.pdf" "a0b1c2d3e4f5a6b7c8d9e0f1a2b3c4d5" 10] d in
    History.settings (load_history d) =
      {| Settings.monthly_income := PyFloat 1000;
         Settings.daily_pages := 100; Settings.days_per_month := 10 |} /\
    truediv_float_int 1000 (100 * 10) = Returned 1%float /\
    map (fun u => (Entry.filename u, Entry.pages u, Entry.cost u))
        (History.uploads (load_history (snd up))) =
      [("a.pdf", 10, 0.9524%float)] /\
    round_float (mul_int_float 10 1) 4 = 10%float.
Proof.
  intros lib parse_float parse_int.
  repeat split; vm_compute; reflexivity.
Qed.

(** ** Changing the settings *)

(** X3. Whatever it answers, [settings] leaves the stored records as they
    were. *)
Theorem settings_keeps_records :
  forall (lib : Lib.t) (parse_float : string -> option float)
         (parse_int : string -> option Z) (m : method) (d : disk),
    History.uploads
      (load_history (snd (settings lib parse_float parse_int m d))) =
    History.uploads (load_history d).
Proof.
  intros lib pf pi m d. unfold settings.
  destruct m as [|data]; [reflexivity |].
  destruct (read_settings pf pi data) as [[[mi dp] dm]|e]; reflexivity.
Qed.

(** C3, as the code has it.  The [POST] branch coerces the three fields
    (defaults 2000, 700, 30) and checks no sign.  When a field is not
    coercible the request fails with an exception and the disk is what it
    was.  When the three are coercible, to any values whose product
    [daily_pages * days_per_month] is not zero and converts to a float, the
    coerced settings are saved, and the answer is success with their rate
    rounded to 6 decimals when [save_excel] then writes the workbook; when
    it does not, its exception escapes. *)
Theorem settings_post_coerces_only :
  forall (lib : Lib.t) (parse_float : string -> option float)
         (parse_int : string -> option Z)
         (pairs : list (string * json)) (d : disk),
    let v1 := field pairs "monthly_income" (JInt 2000) in
    let v2 := field pairs "daily_pages" (JInt 700) in
    let v3 := field pairs "days_per_month" (JInt 30) in
    let out := settings lib parse_float parse_int (POST (JDict pairs)) d in
    ((exists e, py_float parse_float v1 = Raised e) \/
     (exists e, py_int parse_int v2 = Raised e) \/
     (exists e, py_int parse_int v3 = Raised e) ->
     exists e, out = (Raised e, d)) /\
    (forall (mi : float) (dp dm : Z) (fd : float),
        py_float parse_float v1 = Returned mi ->
        py_int parse_int v2 = Returned dp ->
        py_int parse_int v3 = Returned dm ->
        dp * dm <> 0 ->
        int_to_float (dp * dm) = Returned fd ->
        let saved :=
          {| History.uploads := History.uploads (load_history d);
             History.settings :=
               {| Settings.monthly_income := PyFloat mi;
                  Settings.daily_pages := dp;
                  Settings.days_per_month := dm |} |} in
        snd out = {| history_file := Some saved; output_dir := output_dir d |} /\
        fst out =
          answer_after_save lib saved
            (inr {| success := true;
                    new_cost_per_page :=
                      round_float (PrimFloat.div mi fd) 6 |})).
Proof.
  intros lib pf pi pairs d v1 v2 v3 out. subst out.
  unfold settings, read_settings, json_get.
  fold (field pairs "monthly_income" (JInt 2000)).
  fold (field pairs "daily_pages" (JInt 700)).
  fold (field pairs "days_per_month" (JInt 30)).
  fold v1 v2 v3. cbn [bind].
  split.
  - intros H.
    destruct (py_float pf v1) as [mi|e1]; cbn [bind]; [| now exists e1].
    destruct (py_int pi v2) as [dp|e2]; cbn [bind]; [| now exists e2].
    destruct (py_int pi v3) as [dm|e3]; cbn [bind]; [| now exists e3].
    destruct H as [(e & H)|[(e & H)|(e & H)]]; discriminate H.
  - intros mi dp dm fd -> -> -> Hnz Hfd. cbn [bind].
    unfold save_history, answer_after_save. cbn [fst snd].
    split; [reflexivity |].
    destruct (save_excel lib _); cbn [bind]; [| reflexivity].
    unfold truediv_float_int. rewrite Hfd. cbn [bind].
    destruct (Z.eqb_spec (dp * dm) 0) as [E|_]; [contradiction | reflexivity].
Qed.

Lemma settings_post_coerces_only_witness :
  let out := settings cpython_3_12 no_string no_string
               (POST (JDict [("daily_pages", JFloat 350.9)])) two_days in
  let saved :=
    {| History.uploads := History.uploads (load_history two_days);
       History.settings :=
         {| Settings.monthly_income := PyFloat 2000;
            Settings.daily_pages := 350;
            Settings.days_per_month := 30 |} |} in
  snd out = {| history_file := Some saved;
               output_dir := output_dir two_days |} /\
  fst out =
    answer_after_save cpython_3_12 saved
      (inr {| success := true;
              new_cost_per_page :=
                round_float (PrimFloat.div 2000 (float_of_int (350 * 30))) 6 |}).
Proof.
  apply (proj2 (settings_post_coerces_only cpython_3_12 no_string no_string
                  [("daily_pages", JFloat 350.9)] two_days)
           2000%float 350 30 (float_of_int (350 * 30)));
    try (vm_compute; reflexivity).
  discriminate.
Defined.

(** C3 as stated fails twice.  A monthly income of -2000 is not positive, and
    the request is not rejected; it succeeds, answers the rate -0.095238 and
    saves the negative income.  And while a stored name holds a control
    character, the positive settings 4000, 700, 30 are saved and no rate is
    answered: the workbook cannot be written. *)
Lemma settings_accepts_negative_income :
  let out := settings cpython_3_11 no_string no_string
               (POST (JDict negative_income)) empty_disk in
  let late := settings cpython_3_11 no_string no_string (POST settings_4000)
                smudged in
  (fst out = Returned (Ok (inr {| success := true;
                                  new_cost_per_page := (-0.095238)%float |})) /\
   History.settings (load_history (snd out)) =
     {| Settings.monthly_income := PyFloat (-2000);
        Settings.daily_pages := 700; Settings.days_per_month := 30 |} /\
   (forall code msg, fst out <> Returned (Fail code msg)) /\
   (forall e, fst out <> Raised e)) /\
  (fst late = Raised IllegalCharacterError /\
   History.settings (load_history (snd late)) =
     {| Settings.monthly_income := PyFloat 4000;
        Settings.daily_pages := 700; Settings.days_per_month := 30 |}).
Proof.
  split.
  - split; [vm_compute; reflexivity |].
    split; [vm_compute; reflexivity |].
    split; intros; vm_compute; discriminate.
  - split; vm_compute; reflexivity.
Qed.

(** What the route does with values it cannot use: text is refused before
    anything is saved; a zero day count is saved, and the division fails;
    and while a stored name holds a control character the settings are
    saved and the workbook fails. *)
Example settings_failures :
  settings cpython_3_11 no_string no_string
    (POST (JDict [("monthly_income", JStr "abc")])) two_days =
    (Raised ValueError, two_days) /\
  settings cpython_3_11 no_string no_string (POST (JList [])) two_days =
    (Raised AttributeError, two_days) /\
  fst (settings cpython_3_11 no_string no_string
         (POST (JDict [("daily_pages", JInt 0)])) two_days) =
    Raised ZeroDivisionError /\
  fst (settings cpython_3_11 no_string no_string
         (POST (JDict [("daily_pages", JInt 0)])) smudged) =
    Raised IllegalCharacterError /\
  History.settings
    (load_history
       (snd (settings cpython_3_11 no_string no_string
               (POST (JDict [("daily_pages", JInt 0)])) smudged))) =
    {| Settings.monthly_income := PyFloat 2000;
       Settings.daily_pages := 0; Settings.days_per_month := 30 |}.
Proof. repeat split; vm_compute; reflexivity. Qed.

(** ** The order of strings *)

Lemma ascii_compare_refl (c : ascii) : Ascii.compare c c = Eq.
Proof. unfold Ascii.compare. apply N.compare_refl. Qed.

Lemma ascii_compare_trans (c : comparison) (x y z : ascii) :
  Ascii.compare x y = c -> Ascii.compare y z = c -> Ascii.compare x z = c.
Proof.
  unfold Ascii.compare. destruct c; intros H1 H2.
  - apply N.compare_eq_iff in H1, H2. apply N.compare_eq_iff. congruence.
  - rewrite N.compare_lt_iff in *. lia.
  - rewrite N.compare_gt_iff in *. lia.
Qed.

Lemma string_compare_lt_trans (a : string) : forall b c : string,
  String.compare a b = Lt -> String.compare b c = Lt -> String.compare a c = Lt.
Proof.
  induction a as [|x a IH]; intros [|y b] [|z c]; simpl; try discriminate;
    try reflexivity.
  destruct (Ascii.compare x y) eqn:Exy; try discriminate;
    destruct (Ascii.compare y z) eqn:Eyz; try discriminate; intros H1 H2.
  - rewrite (ascii_compare_trans Eq x y z Exy Eyz). now apply (IH b c).
  - apply Ascii.compare_eq_iff in Exy. subst y. now rewrite Eyz.
  - apply Ascii.compare_eq_iff in Eyz. subst z. now rewrite Exy.
  - now rewrite (ascii_compare_trans Lt x y z Exy Eyz).
Qed.

Lemma string_compare_refl (a : string) : String.compare a a = Eq.
Proof.
  induction a as [|x a IH]; simpl; [reflexivity |].
  now rewrite ascii_compare_refl.
Qed.

Lemma leb_trans (a b c : string) :
  String.leb a b = true -> String.leb b c = true -> String.leb a c = true.
Proof.
  unfold String.leb. intros H1 H2.
  destruct (String.compare a b) eqn:Eab; try discriminate;
    destruct (String.compare b c) eqn:Ebc; try discriminate.
  - apply String.compare_eq_iff in Eab, Ebc. subst. now rewrite string_compare_refl.
  - apply String.compare_eq_iff in Eab. subst. now rewrite Ebc.
  - apply String.compare_eq_iff in Ebc. subst. now rewrite Eab.
  - now rewrite (string_compare_lt_trans a b c Eab Ebc).
Qed.

Lemma leb_refl (a : string) : String.leb a a = true.
Proof. unfold String.leb. now rewrite string_compare_refl. Qed.

Lemma ltb_false_leb (a b : string) :
  String.ltb a b = false -> String.leb b a = true.
Proof.
  unfold String.ltb, String.leb. rewrite (String.compare_antisym a b).
  destruct (String.compare b a); simpl; intros H; try reflexivity; discriminate.
Qed.

Lemma ltb_true_leb (a b : string) :
  String.ltb a b = true -> String.leb a b = true.
Proof.
  unfold String.ltb, String.leb.
  destruct (String.compare a b); intros H; try reflexivity; discriminate.
Qed.

Section Sorted_order.
Variable A : Type.
Variable key : A -> string.

Lemma desc_by_trans : Transitive (desc_by key).
Proof. intros x y z Hxy Hyz. unfold desc_by in *. eapply leb_trans; eassumption. Qed.

Lemma insert_desc_perm (x : A) (l : list A) :
  Permutation (insert_desc key x l) (x :: l).
Proof.
  induction l as [|y l IH]; simpl; [reflexivity |].
  destruct (String.ltb (key x) (key y)); [| reflexivity].
  rewrite IH. apply perm_swap.
Qed.

Lemma sorted_desc_perm (l : list A) : Permutation (sorted_desc key l) l.
Proof.
  induction l as [|x l IH]; simpl; [reflexivity |].
  fold (sorted_desc key l). rewrite insert_desc_perm. now constructor.
Qed.

Lemma insert_desc_hd (x y : A) (l : list A) :
  desc_by key y x -> HdRel (desc_by key) y l ->
  HdRel (desc_by key) y (insert_desc key x l).
Proof.
  intros Hyx Hl. destruct l as [|z l]; simpl; [now constructor |].
  destruct (String.ltb (key x) (key z)); constructor; [| exact Hyx].
  now inversion Hl.
Qed.

Lemma insert_desc_sorted (x : A) (l : list A) :
  Sorted (desc_by key) l -> Sorted (desc_by key) (insert_desc key x l).
Proof.
  induction l as [|y l IH]; intros Hs; simpl.
  - repeat constructor.
  - inversion Hs as [|? ? Hl Hhd]; subst.
    destruct (String.ltb (key x) (key y)) eqn:Hlt.
    + constructor; [now apply IH |].
      apply insert_desc_hd; [| exact Hhd].
      unfold desc_by. now apply ltb_true_leb.
    + constructor; [exact Hs |]. constructor.
      unfold desc_by. now apply ltb_false_leb.
Qed.

Lemma sorted_desc_sorted (l : list A) :
  StronglySorted (desc_by key) (sorted_desc key l).
Proof.
  apply Sorted_StronglySorted; [exact desc_by_trans |].
  induction l as [|x l IH]; simpl; [constructor |].
  now apply insert_desc_sorted.
Qed.
End Sorted_order.

(** ** The history view *)

Lemma get_history_uploads (lib : Lib.t) (date_from date_to : option string)
    (search : string) (d : disk) :
  h_uploads (get_history lib date_from date_to search d) =
  sorted_desc Entry.timestamp
    (selected lib date_from date_to search (History.uploads (load_history d))).
Proof.
  unfold get_history, selected. cbn [h_uploads].
  rewrite filter_dates_in_range. f_equal.
  unfold search_keeps.
  destruct (nonempty (str_lower lib search)).
  - now rewrite filter_filter.
  - apply filter_ext. intros u. now rewrite andb_true_r.
Qed.

Lemma get_history_counts (lib : Lib.t) (date_from date_to : option string)
    (search : string) (d : disk) :
  h_total_files (get_history lib date_from date_to search d) =
    Z.of_nat (List.length
                (selected lib date_from date_to search
                          (History.uploads (load_history d)))) /\
  h_total_pages (get_history lib date_from date_to search d) =
    int_sum (map Entry.pages
                 (selected lib date_from date_to search
                           (History.uploads (load_history d)))).
Proof.
  split.
  - rewrite get_history_total_files, get_history_uploads, sorted_desc_sum.
    symmetry. apply int_sum_length.
  - rewrite get_history_total_pages, get_history_uploads.
    apply sorted_desc_sum.
Qed.

(** X4. The answer of [get_history] lists the selected records, each once, the
    most recent first, and counts them and their pages; a record is selected
    when its day is within the bounds and the search term, in small
    letters, occurs in its name, in small letters. *)
Theorem get_history_sorted_selection :
  forall (lib : Lib.t) (date_from date_to : option string) (search : string)
         (d : disk),
    let r := get_history lib date_from date_to search d in
    let sel := selected lib date_from date_to search
                 (History.uploads (load_history d)) in
    Permutation (h_uploads r) sel /\
    StronglySorted (desc_by Entry.timestamp) (h_uploads r) /\
    h_total_files r = Z.of_nat (List.length sel) /\
    h_total_pages r = int_sum (map Entry.pages sel).
Proof.
  intros lib date_from date_to search d r sel.
  assert (E : h_uploads r = sorted_desc Entry.timestamp sel)
    by apply get_history_uploads.
  split; [rewrite E; apply sorted_desc_perm |].
  split; [rewrite E; apply sorted_desc_sorted |].
  split; subst r; apply get_history_counts.
Qed.

(** The search is blind to the case of letters beyond ASCII too: the term in
    capitals finds the name in small letters, and leaves the other out. *)
Example get_history_search_sample :
  map Entry.filename
      (h_uploads (get_history cpython_3_12 None None summer_capitals summer)) =
    [summer_name] /\
  map Entry.filename
      (h_uploads (get_history cpython_3_12 None None "B.PD" summer)) =
    ["b.pdf"].
Proof. split; vm_compute; reflexivity. Qed.

(** ** The entries of the daily summary *)

Lemma day_add_fold (l : list Entry.t) : forall e : Day.t,
  fold_left (fun e u => day_add u e) l e =
  {| Day.date := Day.date e;
     Day.files := Day.files e + Z.of_nat (List.length l);
     Day.pages := Day.pages e + int_sum (map Entry.pages l);
     Day.cost := fold_left PrimFloat.add (map Entry.cost l) (Day.cost e);
     Day.filenames := Day.filenames e ++ map Entry.filename l |}.
Proof.
  induction l as [|u l IH]; intros e; cbn [fold_left map List.length].
  - destruct e as [dt fl pg ct fn]. cbn [Day.date Day.files Day.pages Day.cost Day.filenames].
    rewrite int_sum_nil, app_nil_r. f_equal; lia.
  - rewrite IH. cbn [day_add Day.date Day.files Day.pages Day.cost Day.filenames].
    rewrite int_sum_cons, <- app_assoc. cbn [app]. f_equal; lia.
Qed.

Lemma day_fold_some (dd : string) (us : list Entry.t) : forall e : Day.t,
  fold_left (day_step dd) us (Some e) =
  Some (fold_left (fun e u => day_add u e) (of_day dd us) e).
Proof.
  induction us as [|u us IH]; intros e; cbn [fold_left of_day filter];
    [reflexivity |].
  unfold day_step at 2.
  destruct (String.eqb (day_of u) dd); cbn [fold_left]; apply IH.
Qed.

Lemma day_fold_none (dd : string) (us : list Entry.t) :
  fold_left (day_step dd) us None =
  match of_day dd us with
  | [] => None
  | l => Some (fold_left (fun e u => day_add u e) l (day_empty dd))
  end.
Proof.
  induction us as [|u us IH]; cbn [fold_left of_day filter]; [reflexivity |].
  unfold day_step at 2.
  destruct (String.eqb (day_of u) dd); [| exact IH].
  rewrite day_fold_some. reflexivity.
Qed.

(** The entry of a day, before its fields are summed up. *)
Lemma daily_summary_lookup (date_from date_to : option string) (d : disk)
    (dd : string) :
  find_day dd (daily_summary date_from date_to d) =
  if in_range date_from date_to dd
  then match of_day dd (History.uploads (load_history d)) with
       | [] => None
       | l => Some (day_round (fold_left (fun e u => day_add u e) l
                                         (day_empty dd)))
       end
  else None.
Proof.
  rewrite daily_summary_find, day_fold_none.
  destruct (in_range date_from date_to dd); [| reflexivity].
  now destruct (of_day dd (History.uploads (load_history d))).
Qed.

(** X5. What [daily_summary] answers for one day. *)
Theorem daily_summary_entry :
  forall (date_from date_to : option string) (d : disk) (dd : string),
    find_day dd (daily_summary date_from date_to d) =
    if in_range date_from date_to dd
    then match of_day dd (History.uploads (load_history d)) with
         | [] => None
         | l => Some (day_entry dd l)
         end
    else None.
Proof.
  intros date_from date_to d dd.
  rewrite daily_summary_lookup.
  destruct (in_range date_from date_to dd); [| reflexivity].
  destruct (of_day dd (History.uploads (load_history d))) as [|u l];
    [reflexivity |].
  rewrite day_add_fold. reflexivity.
Qed.

Lemma daily_add_dates (u : Entry.t) (daily : list Day.t) :
  map Day.date (daily_add u daily) =
  if existsb (String.eqb (day_of u)) (map Day.date daily)
  then map Day.date daily
  else (map Day.date daily ++ [day_of u])%list.
Proof.
  induction daily as [|e rest IH]; cbn [daily_add map existsb]; [reflexivity |].
  rewrite (String.eqb_sym (day_of u) (Day.date e)).
  destruct (String.eqb (Day.date e) (day_of u)); cbn [map orb]; [reflexivity |].
  rewrite IH. now destruct (existsb (String.eqb (day_of u)) (map Day.date rest)).
Qed.

Lemma daily_fold_nodup (us : list Entry.t) : forall daily : list Day.t,
  NoDup (map Day.date daily) ->
  NoDup (map Day.date (fold_left (fun daily u => daily_add u daily) us daily)).
Proof.
  induction us as [|u us IH]; intros daily Hnd; cbn [fold_left]; [exact Hnd |].
  apply IH. rewrite daily_add_dates.
  destruct (existsb (String.eqb (day_of u)) (map Day.date daily)) eqn:E;
    [exact Hnd |].
  apply NoDup_app; [exact Hnd | repeat constructor; intros [] |].
  intros x Hx [<-|[]].
  apply existsb_eqb_In in Hx. congruence.
Qed.

Lemma find_day_None (dd : string) (daily : list Day.t) :
  find_day dd daily = None <-> ~ In dd (map Day.date daily).
Proof.
  unfold find_day. induction daily as [|e rest IH]; cbn [find map In].
  - tauto.
  - destruct (String.eqb_spec (Day.date e) dd) as [E|N].
    + split; [discriminate | intros H; exfalso; apply H; now left].
    + rewrite IH. tauto.
Qed.

Lemma daily_summary_nodup (date_from date_to : option string) (d : disk) :
  NoDup (map Day.date (daily_summary date_from date_to d)).
Proof.
  unfold daily_summary.
  eapply Permutation_NoDup.
  - apply Permutation_map. symmetry. apply sorted_desc_perm.
  - rewrite map_map. cbn [day_round Day.date].
    apply daily_fold_nodup. constructor.
Qed.

(** The days that have an entry are the days of the records within the
    bounds. *)
Lemma daily_summary_has_day (date_from date_to : option string) (d : disk)
    (dd : string) :
  In dd (map Day.date (daily_summary date_from date_to d)) <->
  exists u, In u (History.uploads (load_history d)) /\
            in_range date_from date_to (day_of u) = true /\
            day_of u = dd.
Proof.
  set (days := daily_summary date_from date_to d).
  destruct (find_day dd days) as [e|] eqn:Hfind.
  - assert (Hin : In dd (map Day.date days)).
    { destruct (in_dec string_dec dd (map Day.date days)) as [H|H];
        [exact H |]. apply find_day_None in H. congruence. }
    split; [intros _ | intros _; exact Hin].
    subst days. rewrite daily_summary_lookup in Hfind.
    destruct (in_range date_from date_to dd) eqn:Hr; [| discriminate].
    destruct (of_day dd (History.uploads (load_history d))) as [|u l] eqn:Hd;
      [discriminate |].
    assert (Hu : In u (of_day dd (History.uploads (load_history d))))
      by (rewrite Hd; now left).
    apply filter_In in Hu as [Hu Hday]. apply String.eqb_eq in Hday.
    exists u. rewrite Hday. auto.
  - pose proof (proj1 (find_day_None dd days) Hfind) as Hnot.
    split; [intros H; contradiction |].
    intros (u & Hu & Hr & Hday). exfalso.
    subst days. rewrite daily_summary_lookup in Hfind.
    rewrite <- Hday, Hr in Hfind.
    assert (Hin : In u (of_day (day_of u) (History.uploads (load_history d))))
      by (apply filter_In; split; [exact Hu | apply String.eqb_refl]).
    destruct (of_day (day_of u) (History.uploads (load_history d)));
      [destruct Hin | discriminate].
Qed.

(** X6. One entry a day: the days of [daily_summary] are pairwise distinct, the
    latest first, and they are the days of the stored records that pass the
    bounds. *)
Theorem daily_summary_days :
  forall (date_from date_to : option string) (d : disk),
    let days := daily_summary date_from date_to d in
    NoDup (map Day.date days) /\
    StronglySorted (desc_by Day.date) days /\
    (forall dd, In dd (map Day.date days) <->
                exists u, In u (History.uploads (load_history d)) /\
                          in_range date_from date_to (day_of u) = true /\
                          day_of u = dd).
Proof.
  intros date_from date_to d days. subst days.
  split; [apply daily_summary_nodup |].
  split; [apply sorted_desc_sorted |].
  intros dd. apply daily_summary_has_day.
Qed.

(** ** A batch, file by file *)

Lemma int_sum_app (a b : list Z) : int_sum (a ++ b) = int_sum a + int_sum b.
Proof.
  induction a as [|x a IH]; cbn [app]; [rewrite int_sum_nil; lia |].
  rewrite !int_sum_cons, IH. lia.
Qed.

(** One turn of the loop: [f.save] raises, or there is one result more, and
    the record of the file when it is accepted. *)
Lemma upload_one_step lib existing_names now st f :
  match save_error lib existing_names f with
  | Some e => upload_one lib existing_names now st f = Raised e
  | None =>
      exists st' r,
        upload_one lib existing_names now st f = Returned st' /\
        loop_results st' = (loop_results st ++ [r])%list /\
        Result.filename r = shown_name f /\
        Result.error r = rejection lib existing_names f /\
        Result.pages r =
          (if accepted lib existing_names f then count_pdf_pages f else 0) /\
        loop_uploads st' =
          (loop_uploads st ++
           if accepted lib existing_names f then [entry_of now f] else [])%list
  end.
Proof.
  unfold save_error, upload_one, accepted, rejection, shown_name, entry_of.
  destruct (FileStorage.filename f) as [name|];
    [| eexists _, _; split; [reflexivity |]; cbn; rewrite app_nil_r;
       repeat split].
  destruct (is_pdf_name lib name) eqn:Hpdf; cbn [negb].
  2:{ eexists _, _; split; [reflexivity |]; cbn; rewrite app_nil_r;
      repeat split. }
  assert (Hne : nonempty name = true).
  { unfold is_pdf_name in Hpdf. now apply andb_true_iff in Hpdf. }
  rewrite Hne.
  destruct (existsb (String.eqb name) existing_names);
    [eexists _, _; split; [reflexivity |]; cbn; rewrite app_nil_r;
     repeat split |].
  destruct (FileStorage.open_error f) as [e|]; [reflexivity |].
  destruct (FileStorage.st_size f >? MAX_FILE_SIZE_MB * 1024 * 1024);
    eexists _, _; (split; [reflexivity |]);
    cbn [loop_results loop_uploads]; rewrite ?app_nil_r; repeat split.
Qed.

(** The loop judges the files up to the first one that cannot be saved. *)
Lemma upload_loop_steps lib existing_names now files : forall st,
  let run := for_each (upload_one lib existing_names now) files st in
  let judged := before_failure lib existing_names files in
  fst run =
    match first_failure lib existing_names files with
    | Some e => Raised e
    | None => Returned (snd run)
    end /\
  exists rs,
    loop_results (snd run) = (loop_results st ++ rs)%list /\
    map Result.filename rs = map shown_name judged /\
    map Result.error rs = map (rejection lib existing_names) judged /\
    int_sum (map Result.pages rs) =
      int_sum (map count_pdf_pages
                   (filter (accepted lib existing_names) judged)) /\
    loop_uploads (snd run) =
      (loop_uploads st ++
       map (entry_of now) (filter (accepted lib existing_names) judged))%list.
Proof.
  induction files as [|f files IH]; intros st;
    cbn [for_each first_failure before_failure].
  - cbn [fst snd]. split; [reflexivity |].
    exists []. rewrite !app_nil_r. repeat split.
  - pose proof (upload_one_step lib existing_names now st f) as Hstep.
    destruct (save_error lib existing_names f) as [e|].
    + rewrite Hstep. cbn [fst snd]. split; [reflexivity |].
      exists []. rewrite !app_nil_r. repeat split.
    + destruct Hstep as (st' & r & -> & Hr1 & Hn1 & He1 & Hp1 & Hu1).
      destruct (IH st') as (Hfst & rs & Hr & Hn & He & Hp & Hu).
      split; [exact Hfst |].
      exists (r :: rs). rewrite Hr, Hr1, Hu, Hu1, <- !app_assoc.
      cbn [app map filter].
      rewrite Hn, Hn1, He, He1, int_sum_cons, Hp, Hp1.
      destruct (accepted lib existing_names f); cbn [map app];
        rewrite ?int_sum_cons; repeat split.
Qed.

Lemma before_failure_all lib existing_names files :
  first_failure lib existing_names files = None ->
  before_failure lib existing_names files = files.
Proof.
  induction files as [|f files IH]; cbn [first_failure before_failure];
    [reflexivity |].
  destruct (save_error lib existing_names f); [discriminate |].
  intros H. now rewrite IH.
Qed.

(** A batch is refused untouched, or it is admitted. *)
Lemma upload_files_refused_or_admitted (lib : Lib.t) (now : datetime)
    (files : list FileStorage.t) (d : disk) :
  snd (upload_files lib now files d) = d \/
  (files <> [] /\ Z.of_nat (List.length files) <= MAX_FILES).
Proof.
  unfold upload_files.
  destruct files as [|f files]; [now left |].
  destruct (Z.of_nat (List.length (f :: files)) >? MAX_FILES) eqn:E;
    [now left |].
  right. split; [discriminate |].
  rewrite Z.gtb_ltb in E. now apply Z.ltb_ge in E.
Qed.

(** What an admitted batch does, from what its loop does. *)
Lemma upload_files_admitted (lib : Lib.t) (now : datetime)
    (files : list FileStorage.t) (d : disk) :
  files <> [] ->
  Z.of_nat (List.length files) <= MAX_FILES ->
  let history := load_history d in
  let run :=
    for_each (upload_one lib (map Entry.filename (History.uploads history)) now)
      files
      {| loop_uploads := History.uploads history; loop_results := [];
         loop_disk := d |} in
  upload_files lib now files d =
  match fst run with
  | Raised e => (Raised e, loop_disk (snd run))
  | Returned final =>
      save_and_answer lib
        {| History.uploads := loop_uploads final;
           History.settings := History.settings history |}
        (loop_disk final)
        {| results := loop_results final;
           total_pages := int_sum (map Result.pages (loop_results final));
           total_cost :=
             Py.round (Py.sum (Lib.compensated_sum lib)
                              (map Result.cost (loop_results final))) 4;
           cost_per_page := round_float COST_PER_PAGE 6 |}
  end.
Proof.
  intros Hne Hlen history run. unfold upload_files.
  destruct files as [|f files]; [contradiction |].
  destruct (Z.of_nat (List.length (f :: files)) >? MAX_FILES) eqn:E;
    [apply Z.gtb_lt in E; lia |].
  fold history. fold run. now destruct run as [[final|e] reached].
Qed.

(** X7. A request with no file, or with more than [MAX_FILES] files, is refused
    whole: the answer is 400 and the disk is what it was, whatever the files
    are.  Any other request is admitted: no error status is answered. *)
Theorem upload_refuses_bad_batch :
  forall (lib : Lib.t) (now : datetime) (files : list FileStorage.t)
         (d : disk),
    (files = [] /\
     upload_files lib now files d =
       (Returned (Fail 400 "Nu s-au trimis fisiere"), d)) \/
    (MAX_FILES < Z.of_nat (List.length files) /\
     upload_files lib now files d =
       (Returned (Fail 400 "Maxim 20 fisiere permise"), d)) \/
    (files <> [] /\ Z.of_nat (List.length files) <= MAX_FILES /\
     forall status error,
       fst (upload_files lib now files d) <> Returned (Fail status error)).
Proof.
  intros lib now files d.
  destruct files as [|f files]; [left; split; reflexivity |].
  right.
  destruct (Z.of_nat (List.length (f :: files)) >? MAX_FILES) eqn:E.
  - left. split; [apply Z.gtb_lt in E; lia |].
    unfold upload_files. now rewrite E.
  - right. assert (Hlen : Z.of_nat (List.length (f :: files)) <= MAX_FILES)
      by (rewrite Z.gtb_ltb in E; now apply Z.ltb_ge in E).
    split; [discriminate |]. split; [exact Hlen |].
    intros status error.
    rewrite (upload_files_admitted lib now (f :: files) d) by
      (discriminate || exact Hlen).
    destruct (fst (for_each _ _ _)) as [final|e]; [| discriminate].
    rewrite save_and_answer_response.
    destruct (save_excel lib _); discriminate.
Qed.

(** The records a batch leaves in the document when every file that gets
    that far is saved. *)
Lemma upload_files_saved_uploads (lib : Lib.t) (now : datetime)
    (files : list FileStorage.t) (d : disk) :
  files <> [] ->
  Z.of_nat (List.length files) <= MAX_FILES ->
  first_failure lib (map Entry.filename (History.uploads (load_history d)))
                files = None ->
  History.uploads (load_history (snd (upload_files lib now files d))) =
  (History.uploads (load_history d) ++
   map (entry_of now)
       (filter (accepted lib
                  (map Entry.filename (History.uploads (load_history d))))
               files))%list.
Proof.
  intros Hne Hlen Hsaved.
  rewrite (upload_files_admitted lib now files d Hne Hlen).
  destruct (upload_loop_steps lib
              (map Entry.filename (History.uploads (load_history d))) now files
              {| loop_uploads := History.uploads (load_history d);
                 loop_results := []; loop_disk := d |})
    as (Hfst & rs & _ & _ & _ & _ & Hu).
  rewrite Hsaved in Hfst. rewrite (before_failure_all _ _ _ Hsaved) in Hu.
  rewrite Hfst, save_and_answer_disk. unfold load_history at 1.
  cbn [history_file History.uploads]. exact Hu.
Qed.

(** X8. When every file that gets as far as [f.save] is saved, the files of
    an admitted batch are judged one by one, in order, each against the
    names stored when the batch started and never against the other files
    of the batch: there is one result per file, with the reason of its
    rejection if any; the records appended are those of the accepted files,
    in order; [total_pages] counts the pages of the accepted files; the
    document is saved once, with the settings it had, and the results are
    answered when [save_excel] then writes the workbook. *)
Theorem upload_batch_file_by_file :
  forall (lib : Lib.t) (now : datetime) (files : list FileStorage.t)
         (d : disk),
    files <> [] ->
    Z.of_nat (List.length files) <= MAX_FILES ->
    let existing := map Entry.filename (History.uploads (load_history d)) in
    first_failure lib existing files = None ->
    let saved :=
      {| History.uploads :=
           (History.uploads (load_history d) ++
            map (entry_of now) (filter (accepted lib existing) files))%list;
         History.settings := History.settings (load_history d) |} in
    exists reply,
      fst (upload_files lib now files d) = answer_after_save lib saved reply /\
      map Result.filename (results reply) = map shown_name files /\
      map Result.error (results reply) = map (rejection lib existing) files /\
      total_pages reply =
        int_sum (map count_pdf_pages (filter (accepted lib existing) files)) /\
      history_file (snd (upload_files lib now files d)) = Some saved.
Proof.
  intros lib now files d Hne Hlen existing Hsaved saved.
  rewrite (upload_files_admitted lib now files d Hne Hlen).
  destruct (upload_loop_steps lib existing now files
              {| loop_uploads := History.uploads (load_history d);
                 loop_results := []; loop_disk := d |})
    as (Hfst & rs & Hr & Hn & He & Hp & Hu).
  fold existing in Hfst, Hr, Hn, He, Hp, Hu |- *.
  rewrite Hsaved in Hfst. rewrite (before_failure_all _ _ _ Hsaved) in *.
  rewrite Hfst, save_and_answer_disk, save_and_answer_response.
  cbn [loop_results loop_uploads app] in Hr, Hu.
  rewrite Hu. fold saved. eexists. split; [reflexivity |].
  cbn [results total_pages history_file]. rewrite Hr.
  repeat split; assumption.
Qed.

Lemma upload_batch_file_by_file_witness :
  mixed_batch <> [] /\
  Z.of_nat (List.length mixed_batch) <= MAX_FILES /\
  let existing :=
    map Entry.filename (History.uploads (load_history two_days)) in
  first_failure cpython_3_12 existing mixed_batch = None /\
  let saved :=
    {| History.uploads :=
         (History.uploads (load_history two_days) ++
          map (entry_of jan06)
              (filter (accepted cpython_3_12 existing) mixed_batch))%list;
       History.settings := History.settings (load_history two_days) |} in
  exists reply,
    fst (upload_files cpython_3_12 jan06 mixed_batch two_days) =
      answer_after_save cpython_3_12 saved reply /\
    map Result.filename (results reply) = map shown_name mixed_batch /\
    map Result.error (results reply) =
      map (rejection cpython_3_12 existing) mixed_batch /\
    total_pages reply =
      int_sum (map count_pdf_pages
                   (filter (accepted cpython_3_12 existing) mixed_batch)) /\
    history_file (snd (upload_files cpython_3_12 jan06 mixed_batch two_days)) =
      Some saved.
Proof.
  split; [discriminate |].
  split; [vm_compute; discriminate |].
  split; [vm_compute; reflexivity |].
  apply (upload_batch_file_by_file cpython_3_12 jan06 mixed_batch two_days);
    [discriminate | vm_compute; discriminate | vm_compute; reflexivity].
Defined.

(** What the mixed batch gives: one record, three reasons. *)
Example mixed_batch_sample :
  let out := upload_files cpython_3_12 jan06 mixed_batch two_days in
  (exists reply,
      fst out = Returned (Ok reply) /\
      map Result.error (results reply) =
        [None; Some "Nu este PDF"; Some "Duplicat - exista deja in istoric";
         Some "Fisier prea mare (max 100MB)"]) /\
  map Entry.filename (History.uploads (load_history (snd out))) =
    ["a.pdf"; "b.pdf"; "New.PDF"] /\
  output_dir (snd out) =
    ["0f1e2d3c4b5a_New.PDF"; "b1c2d3e4f5a6_b.pdf"; "a0b1c2d3e4f5_a.pdf"].
Proof.
  split; [eexists; split; vm_compute; reflexivity |].
  vm_compute. split; reflexivity.
Qed.

(** X9. A PDF that [PdfReader] cannot read is not rejected: when it passes the
    three checks, in a batch whose files are all saved, it is recorded, with
    0 pages and the cost 0.0. *)
Theorem unreadable_pdf_is_recorded :
  forall (lib : Lib.t) (now : datetime) (files : list FileStorage.t)
         (d : disk) (f : FileStorage.t),
    files <> [] ->
    Z.of_nat (List.length files) <= MAX_FILES ->
    let existing := map Entry.filename (History.uploads (load_history d)) in
    first_failure lib existing files = None ->
    In f files ->
    accepted lib existing f = true ->
    FileStorage.reader_pages f = None ->
    exists e,
      In e (History.uploads
              (load_history (snd (upload_files lib now files d)))) /\
      Entry.id e = str_take 12 (FileStorage.uuid_hex f) /\
      Some (Entry.filename e) = FileStorage.filename f /\
      Entry.pages e = 0 /\
      Entry.cost e = 0%float.
Proof.
  intros lib now files d f Hne Hlen existing Hsaved Hin Hacc Hread.
  exists (entry_of now f).
  rewrite (upload_files_saved_uploads lib now files d Hne Hlen Hsaved). split.
  - apply in_or_app. right. apply in_map, filter_In. now split.
  - unfold entry_of, count_pdf_pages. rewrite Hread.
    cbn [Entry.id Entry.filename Entry.pages Entry.cost].
    unfold accepted, rejection in Hacc.
    destruct (FileStorage.filename f); [| discriminate].
    repeat split.
Qed.

Lemma unreadable_pdf_is_recorded_witness :
  let f := scan "torn.pdf" "4f1e2d3c4b5a69788796a5b4c3d2e1f0" 512 None in
  let existing :=
    map Entry.filename (History.uploads (load_history two_days)) in
  unreadable_batch <> [] /\
  Z.of_nat (List.length unreadable_batch) <= MAX_FILES /\
  first_failure cpython_3_11 existing unreadable_batch = None /\
  In f unreadable_batch /\
  accepted cpython_3_11 existing f = true /\
  FileStorage.reader_pages f = None /\
  exists e,
    In e (History.uploads
            (load_history
               (snd (upload_files cpython_3_11 jan06 unreadable_batch
                       two_days)))) /\
    Entry.id e = str_take 12 (FileStorage.uuid_hex f) /\
    Some (Entry.filename e) = FileStorage.filename f /\
    Entry.pages e = 0 /\
    Entry.cost e = 0%float.
Proof.
  split; [discriminate |].
  split; [vm_compute; discriminate |].
  split; [vm_compute; reflexivity |].
  split; [left; reflexivity |].
  split; [vm_compute; reflexivity |].
  split; [reflexivity |].
  apply (unreadable_pdf_is_recorded cpython_3_11 jan06 unreadable_batch
           two_days
           (scan "torn.pdf" "4f1e2d3c4b5a69788796a5b4c3d2e1f0" 512 None));
    [discriminate | vm_compute; discriminate | vm_compute; reflexivity
    | left; reflexivity | vm_compute; reflexivity | reflexivity].
Defined.

(** ** Files under [Output/] *)

Lemma remove_name_In (x n : string) (names : list string) :
  In n (remove_name x names) <-> In n names /\ n <> x.
Proof.
  unfold remove_name. rewrite filter_In, negb_true_iff, String.eqb_neq.
  intuition congruence.
Qed.

Lemma upload_one_output lib existing_names now st f st' (n : string) :
  upload_one lib existing_names now st f = Returned st' ->
  In n (output_dir (loop_disk st')) ->
  In n (output_dir (loop_disk st)) \/
  (accepted lib existing_names f = true /\
   n = Entry.saved_as (entry_of now f)).
Proof.
  unfold upload_one, accepted, rejection, entry_of.
  destruct (FileStorage.filename f) as [name|];
    [| intros [= <-]; now left].
  destruct (negb (is_pdf_name lib name)); [intros [= <-]; now left |].
  destruct (existsb (String.eqb name) existing_names);
    [intros [= <-]; now left |].
  destruct (FileStorage.open_error f) as [e|]; [discriminate |].
  destruct (FileStorage.st_size f >? MAX_FILE_SIZE_MB * 1024 * 1024);
    intros [= <-];
    cbn [loop_disk file_unlink file_save output_dir Entry.saved_as].
  - intros H. apply remove_name_In in H as [[H|H] Hne].
    + congruence.
    + left. now apply remove_name_In in H.
  - intros [H|H]; [right; split; [reflexivity | now symmetry] |].
    left. now apply remove_name_In in H.
Qed.

(** The files the loop leaves are those that were there and those of the
    accepted files it got to. *)
Lemma upload_loop_output lib existing_names now files (n : string) :
  forall st,
  In n (output_dir
          (loop_disk
             (snd (for_each (upload_one lib existing_names now) files st)))) ->
  In n (output_dir (loop_disk st)) \/
  In n (map Entry.saved_as
            (map (entry_of now)
                 (filter (accepted lib existing_names)
                         (before_failure lib existing_names files)))).
Proof.
  induction files as [|f files IH]; intros st;
    cbn [for_each before_failure]; [now left |].
  pose proof (upload_one_step lib existing_names now st f) as Hstep.
  destruct (save_error lib existing_names f) as [e|].
  - rewrite Hstep. now left.
  - destruct Hstep as (st' & r & E & _). rewrite E. cbn [filter].
    intros H. apply IH in H as [H|H].
    + apply (upload_one_output _ _ _ _ _ _ _ E) in H as [H|[Hacc ->]];
        [now left |].
      right. rewrite Hacc. now left.
    + right. destruct (accepted lib existing_names f); [right |]; exact H.
Qed.

(** X10. An upload in which every file that gets as far as [f.save] is saved
    leaves no orphan under [Output/]: a file that is there after the
    request was there before, or is the file of a stored record. *)
Theorem upload_leaves_no_orphan :
  forall (lib : Lib.t) (now : datetime) (files : list FileStorage.t)
         (d : disk) (n : string),
    first_failure lib (map Entry.filename (History.uploads (load_history d)))
                  files = None ->
    In n (output_dir (snd (upload_files lib now files d))) ->
    In n (output_dir d) \/
    In n (map Entry.saved_as
              (History.uploads
                 (load_history (snd (upload_files lib now files d))))).
Proof.
  intros lib now files d n Hsaved.
  destruct (upload_files_refused_or_admitted lib now files d)
    as [E|[Hne Hlen]].
  - rewrite E. now left.
  - rewrite (upload_files_saved_uploads lib now files d Hne Hlen Hsaved).
    rewrite (upload_files_admitted lib now files d Hne Hlen).
    pose proof (upload_loop_output lib
                  (map Entry.filename (History.uploads (load_history d))) now
                  files n
                  {| loop_uploads := History.uploads (load_history d);
                     loop_results := []; loop_disk := d |}) as Hout.
    destruct (upload_loop_steps lib
                (map Entry.filename (History.uploads (load_history d))) now
                files
                {| loop_uploads := History.uploads (load_history d);
                   loop_results := []; loop_disk := d |}) as (Hfst & _).
    rewrite Hsaved in Hfst. rewrite (before_failure_all _ _ _ Hsaved) in Hout.
    rewrite Hfst, save_and_answer_disk. cbn [output_dir loop_disk] in *.
    intros H. apply Hout in H as [H|H]; [now left |].
    right. rewrite map_app. apply in_or_app. now right.
Qed.

Lemma upload_leaves_no_orphan_witness :
  let out := upload_files cpython_3_11 jan06 mixed_batch two_days in
  first_failure cpython_3_11
    (map Entry.filename (History.uploads (load_history two_days)))
    mixed_batch = None /\
  In "0f1e2d3c4b5a_New.PDF" (output_dir (snd out)) /\
  (In "0f1e2d3c4b5a_New.PDF" (output_dir two_days) \/
   In "0f1e2d3c4b5a_New.PDF"
      (map Entry.saved_as (History.uploads (load_history (snd out))))).
Proof.
  split; [vm_compute; reflexivity |]. split.
  - vm_compute. left. reflexivity.
  - apply (upload_leaves_no_orphan cpython_3_11 jan06 mixed_batch two_days).
    + vm_compute. reflexivity.
    + vm_compute. left. reflexivity.
Defined.



(** The file saved before the failure is left without a record. *)
Example torn_batch_sample :
  let out := upload_files cpython_3_11 jan06 torn_batch two_days in
  fst out = Raised FileNotFoundError /\
  output_dir (snd out) =
    ["5f1e2d3c4b5a_ok.pdf"; "b1c2d3e4f5a6_b.pdf"; "a0b1c2d3e4f5_a.pdf"] /\
  map Entry.saved_as (History.uploads (load_history (snd out))) =
    ["a0b1c2d3e4f5_a.pdf"; "b1c2d3e4f5a6_b.pdf"].
Proof. vm_compute. repeat split. Qed.

(** ** Deleting, again *)

Lemma find_by_id_filtered_out (uid : string) (us : list Entry.t) :
  find_by_id uid
    (filter (fun u => negb (String.eqb (Entry.id u) uid)) us) = None.
Proof.
  apply find_by_id_None. intros u Hu E.
  apply filter_In in Hu as [_ Hu]. apply negb_true_iff, String.eqb_neq in Hu.
  contradiction.
Qed.

(** X11. Once [delete_upload] has been called on an id, found or not, a second
    call on it answers 404 and changes nothing. *)
Theorem delete_upload_twice :
  forall (lib : Lib.t) (upload_id : string) (d : disk),
    let d1 := snd (delete_upload lib upload_id d) in
    delete_upload lib upload_id d1 = (Returned (Fail 404 "Nu s-a gasit"), d1).
Proof.
  intros lib upload_id d d1. subst d1.
  unfold delete_upload at 2 3.
  destruct (find_by_id upload_id (History.uploads (load_history d))) eqn:Hfind.
  - rewrite save_and_answer_disk. unfold delete_upload.
    unfold load_history at 1. cbn [history_file History.uploads].
    now rewrite find_by_id_filtered_out.
  - cbn [snd]. unfold delete_upload. now rewrite Hfind.
Qed.

Lemma document_eta (h : History.t) :
  {| History.uploads := History.uploads h;
     History.settings := History.settings h |} = h.
Proof. now destruct h. Qed.

(** X12. [delete_bulk] on a single id does to the disk what [delete_upload] does
    when the id is stored, and answers 1 where [delete_upload] answers
    success (both when the workbook is written); when the id is not stored
    it saves the document as it was and answers 0, where [delete_upload]
    answers 404 and saves nothing. *)
Theorem delete_bulk_of_one :
  forall (lib : Lib.t) (uid : string) (d : disk),
    match find_by_id uid (History.uploads (load_history d)) with
    | Some _ =>
        let saved :=
          {| History.uploads :=
               filter (fun u => negb (String.eqb (Entry.id u) uid))
                      (History.uploads (load_history d));
             History.settings := History.settings (load_history d) |} in
        snd (delete_bulk lib [uid] d) = snd (delete_upload lib uid d) /\
        history_file (snd (delete_upload lib uid d)) = Some saved /\
        fst (delete_bulk lib [uid] d) = answer_after_save lib saved 1 /\
        fst (delete_upload lib uid d) = answer_after_save lib saved true
    | None =>
        delete_bulk lib [uid] d =
          (answer_after_save lib (load_history d) 0,
           {| history_file := Some (load_history d);
              output_dir := output_dir d |}) /\
        delete_upload lib uid d = (Returned (Fail 404 "Nu s-a gasit"), d)
    end.
Proof.
  intros lib uid d.
  assert (Hfilter : forall us : list Entry.t,
             filter (fun u => negb (existsb (String.eqb (Entry.id u)) [uid])) us =
             filter (fun u => negb (String.eqb (Entry.id u) uid)) us).
  { intros us. apply filter_ext. intros u. cbn [existsb].
    now rewrite orb_false_r. }
  unfold delete_bulk, delete_upload. cbn [fold_left]. unfold bulk_one.
  destruct (find_by_id uid (History.uploads (load_history d))) as [e|] eqn:Hfind;
    cbn [fst snd]; rewrite Hfilter.
  - rewrite !save_and_answer_disk, !save_and_answer_response.
    repeat split.
  - split; [| reflexivity].
    rewrite (surjective_pairing (save_and_answer _ _ _ _)).
    rewrite save_and_answer_disk, save_and_answer_response.
    rewrite filter_keeps_all, document_eta; [reflexivity |].
    intros u Hu. apply negb_true_iff, String.eqb_neq.
    now apply (proj1 (find_by_id_None uid _) Hfind).
Qed.

(** ** After a reset *)

Lemma unlink_all_output (names : list string) : forall d : disk,
  output_dir (fold_left (fun acc n => unlink_if_exists n acc) names d) =
  filter (fun n => negb (existsb (String.eqb n) names)) (output_dir d).
Proof.
  induction names as [|x names IH]; intros d; cbn [fold_left existsb].
  - symmetry. apply filter_true.
  - rewrite IH, unlink_if_exists_output_dir. unfold remove_name.
    rewrite filter_filter. apply filter_ext. intros n.
    rewrite negb_orb, (String.eqb_sym n x). reflexivity.
Qed.

Lemma filter_false {A : Type} (l : list A) : filter (fun _ => false) l = [].
Proof. induction l as [|x l IH]; cbn; [reflexivity | exact IH]. Qed.

Lemma fold_left_map {A B C : Type} (f : A -> B -> A) (g : C -> B) (l : list C) :
  forall a : A,
    fold_left (fun acc x => f acc (g x)) l a = fold_left f (map g l) a.
Proof. induction l as [|x l IH]; intros a; cbn; [reflexivity | apply IH]. Qed.

(** X13. After [reset_period] on two non-empty bounds no stored record is left in
    the period: the history of the period is empty and a second reset
    removes nothing (it saves the document as it is and answers 0 when the
    workbook is written).  Under [Output/] the files of the removed records
    are gone and every other file is still there. *)
Theorem reset_period_clears :
  forall (lib : Lib.t) (a b : string) (search : string) (d : disk),
    nonempty a = true -> nonempty b = true ->
    let d1 := snd (reset_period lib (Some a) (Some b) d) in
    h_uploads (get_history lib (Some a) (Some b) search d1) = [] /\
    reset_period lib (Some a) (Some b) d1 =
      (answer_after_save lib (load_history d1) 0, d1) /\
    (forall n, In n (output_dir d1) <->
               In n (output_dir d) /\
               ~ exists u, In u (History.uploads (load_history d)) /\
                           in_period a b u = true /\ Entry.saved_as u = n).
Proof.
  intros lib a b search d Ha Hb d1.
  assert (Hreset : forall d0,
             reset_period lib (Some a) (Some b) d0 =
             let us := History.uploads (load_history d0) in
             save_and_answer lib
               {| History.uploads := filter (fun u => negb (in_period a b u)) us;
                  History.settings := History.settings (load_history d0) |}
               (fold_left (fun acc entry =>
                             unlink_if_exists (Entry.saved_as entry) acc)
                          (filter (in_period a b) us) d0)
               (Z.of_nat (List.length (filter (in_period a b) us)))).
  { intros d0. unfold reset_period. rewrite Ha, Hb. reflexivity. }
  assert (Hd1 : History.uploads (load_history d1) =
                filter (fun u => negb (in_period a b u))
                       (History.uploads (load_history d))).
  { subst d1. rewrite Hreset. reflexivity. }
  assert (Hnone : forall p : Entry.t -> bool,
             filter (fun u => (in_period a b u && p u)%bool)
                    (History.uploads (load_history d1)) = []).
  { intros p. rewrite Hd1, filter_filter.
    rewrite <- (filter_ext (fun _ => false)).
    - apply filter_false.
    - intros u. now destruct (in_period a b u). }
  assert (Hgone : filter (in_period a b) (History.uploads (load_history d1)) =
                  []).
  { rewrite <- (filter_ext (fun u => (in_period a b u && true)%bool))
      by (intros u; apply andb_true_r).
    apply Hnone. }
  split; [| split].
  - rewrite get_history_uploads. unfold selected.
    rewrite (filter_ext _ (fun u => (in_period a b u &&
                                     search_keeps lib search u)%bool)).
    + now rewrite Hnone.
    + intros u. unfold in_range, in_period, truthy. now rewrite Ha, Hb.
  - rewrite Hreset. cbv zeta. rewrite Hgone. cbn [fold_left List.length].
    rewrite (surjective_pairing (save_and_answer _ _ _ _)).
    rewrite save_and_answer_disk, save_and_answer_response.
    rewrite filter_keeps_all, document_eta.
    + f_equal. subst d1. rewrite Hreset. reflexivity.
    + intros u Hu. rewrite Hd1 in Hu. now apply filter_In in Hu.
  - intros n. subst d1. rewrite Hreset. cbv zeta.
    rewrite save_and_answer_disk. cbn [output_dir].
    rewrite (fold_left_map (fun acc n => unlink_if_exists n acc) Entry.saved_as).
    rewrite unlink_all_output, filter_In, negb_true_iff.
    split.
    + intros [Hn Hex]. split; [exact Hn |].
      intros (u & Hu & Hp & Hs).
      assert (Hin : existsb (String.eqb n)
                      (map Entry.saved_as
                           (filter (in_period a b)
                                   (History.uploads (load_history d)))) = true).
      { apply existsb_eqb_In. rewrite <- Hs. apply in_map, filter_In. now split. }
      congruence.
    + intros [Hn Hnot]. split; [exact Hn |].
      destruct (existsb (String.eqb n)
                  (map Entry.saved_as
                       (filter (in_period a b)
                               (History.uploads (load_history d))))) eqn:E;
        [| reflexivity].
      exfalso. apply Hnot. apply existsb_eqb_In, in_map_iff in E
        as (u & Hs & Hu). apply filter_In in Hu as [Hu Hp]. now exists u.
Qed.

Lemma reset_period_clears_witness :
  let d1 := snd (reset_period cpython_3_12 (Some "2024-01-06")
                   (Some "2024-01-06") three_records) in
  nonempty "2024-01-06" = true /\ nonempty "2024-01-06" = true /\
  (h_uploads
     (get_history cpython_3_12 (Some "2024-01-06") (Some "2024-01-06") "" d1) =
     [] /\
   reset_period cpython_3_12 (Some "2024-01-06") (Some "2024-01-06") d1 =
     (answer_after_save cpython_3_12 (load_history d1) 0, d1) /\
   (forall n,
       In n (output_dir d1) <->
       In n (output_dir three_records) /\
       ~ exists u, In u (History.uploads (load_history three_records)) /\
                   in_period "2024-01-06" "2024-01-06" u = true /\
                   Entry.saved_as u = n)).
Proof.
  split; [reflexivity |].
  split; [reflexivity |].
  apply (reset_period_clears cpython_3_12 "2024-01-06" "2024-01-06" ""
           three_records); reflexivity.
Defined.

(** ** Reading the settings back *)

Lemma read_settings_fields (parse_float : string -> option float)
    (parse_int : string -> option Z) (pairs : list (string * json))
    (mi : float) (dp dm : Z) :
  py_float parse_float (field pairs "monthly_income" (JInt 2000)) = Returned mi ->
  py_int parse_int (field pairs "daily_pages" (JInt 700)) = Returned dp ->
  py_int parse_int (field pairs "days_per_month" (JInt 30)) = Returned dm ->
  read_settings parse_float parse_int (JDict pairs) = Returned (mi, dp, dm).
Proof.
  intros H1 H2 H3. unfold read_settings, json_get.
  fold (field pairs "monthly_income" (JInt 2000)).
  fold (field pairs "daily_pages" (JInt 700)).
  fold (field pairs "days_per_month" (JInt 30)).
  cbn [bind]. rewrite H1. cbn [bind]. rewrite H2. cbn [bind]. rewrite H3.
  reflexivity.
Qed.

(** X14. A [GET] answers the values of the last [POST] whose three fields were
    coercible, and changes nothing.  This holds also when that [POST]
    failed: the settings are saved before the workbook is written and before
    the rate is computed.  With a product [daily_pages * days_per_month] of
    zero the [POST] always fails, on the workbook or else on the division. *)
Theorem settings_get_after_post :
  forall (lib : Lib.t) (parse_float : string -> option float)
         (parse_int : string -> option Z)
         (pairs : list (string * json)) (d : disk)
         (mi : float) (dp dm : Z),
    py_float parse_float (field pairs "monthly_income" (JInt 2000)) = Returned mi ->
    py_int parse_int (field pairs "daily_pages" (JInt 700)) = Returned dp ->
    py_int parse_int (field pairs "days_per_month" (JInt 30)) = Returned dm ->
    let post := settings lib parse_float parse_int (POST (JDict pairs)) d in
    let stored := {| Settings.monthly_income := PyFloat mi;
                     Settings.daily_pages := dp;
                     Settings.days_per_month := dm |} in
    settings lib parse_float parse_int GET (snd post) =
      (Returned (Ok (inl stored)), snd post) /\
    (dp * dm = 0 ->
     fst post =
       match save_excel lib {| History.uploads :=
                                 History.uploads (load_history d);
                               History.settings := stored |} with
       | Returned _ => Raised ZeroDivisionError
       | Raised e => Raised e
       end).
Proof.
  intros lib pf pi pairs d mi dp dm H1 H2 H3 post stored.
  pose proof (read_settings_fields pf pi pairs mi dp dm H1 H2 H3) as Hread.
  subst post. unfold settings at 2 3 4. rewrite Hread.
  unfold save_history. cbn [fst snd]. fold stored. split.
  - reflexivity.
  - intros Hz. destruct (save_excel lib _); cbn [bind]; [| reflexivity].
    rewrite Hz. reflexivity.
Qed.

Lemma settings_get_after_post_witness :
  let post := settings cpython_3_11 parse_1500 no_string
                (POST (JDict zero_pages)) two_days in
  let stored := {| Settings.monthly_income := PyFloat 1500;
                   Settings.daily_pages := 0;
                   Settings.days_per_month := 30 |} in
  py_float parse_1500 (field zero_pages "monthly_income" (JInt 2000)) =
    Returned 1500%float /\
  py_int no_string (field zero_pages "daily_pages" (JInt 700)) = Returned 0 /\
  py_int no_string (field zero_pages "days_per_month" (JInt 30)) = Returned 30 /\
  (settings cpython_3_11 parse_1500 no_string GET (snd post) =
     (Returned (Ok (inl stored)), snd post) /\
   (0 * 30 = 0 ->
    fst post =
      match save_excel cpython_3_11
              {| History.uploads := History.uploads (load_history two_days);
                 History.settings := stored |} with
      | Returned _ => Raised ZeroDivisionError
      | Raised e => Raised e
      end)).
Proof.
  split; [reflexivity |].
  split; [reflexivity |].
  split; [reflexivity |].
  apply (settings_get_after_post cpython_3_11 parse_1500 no_string zero_pages
           two_days 1500%float 0 30); reflexivity.
Defined.

(** X15. A [POST] whose object has none of the three keys stores the defaults,
    the income as the float 2000.0, and answers the rate the uploads report,
    [round(COST_PER_PAGE, 6)], when the workbook is written. *)
Theorem settings_post_defaults :
  forall (lib : Lib.t) (parse_float : string -> option float)
         (parse_int : string -> option Z)
         (pairs : list (string * json)) (d : disk),
    dict_get "monthly_income" pairs = None ->
    dict_get "daily_pages" pairs = None ->
    dict_get "days_per_month" pairs = None ->
    let saved :=
      {| History.uploads := History.uploads (load_history d);
         History.settings :=
           {| Settings.monthly_income := PyFloat 2000;
              Settings.daily_pages := 700;
              Settings.days_per_month := 30 |} |} in
    settings lib parse_float parse_int (POST (JDict pairs)) d =
      (answer_after_save lib saved
         (inr {| success := true;
                 new_cost_per_page := round_float COST_PER_PAGE 6 |}),
       {| history_file := Some saved; output_dir := output_dir d |}).
Proof.
  intros lib pf pi pairs d H1 H2 H3 saved.
  unfold settings.
  rewrite (read_settings_fields pf pi pairs 2000%float 700 30)
    by (unfold field; rewrite ?H1, ?H2, ?H3; reflexivity).
  unfold save_history, answer_after_save. fold saved.
  destruct (save_excel lib saved); reflexivity.
Qed.

Lemma settings_post_defaults_witness :
  let saved :=
    {| History.uploads := History.uploads (load_history two_days);
       History.settings :=
         {| Settings.monthly_income := PyFloat 2000;
            Settings.daily_pages := 700;
            Settings.days_per_month := 30 |} |} in
  dict_get "monthly_income" [("income", JInt 5)] = None /\
  dict_get "daily_pages" [("income", JInt 5)] = None /\
  dict_get "days_per_month" [("income", JInt 5)] = None /\
  settings cpython_3_12 no_string no_string (POST (JDict [("income", JInt 5)]))
    two_days =
    (answer_after_save cpython_3_12 saved
       (inr {| success := true;
               new_cost_per_page := round_float COST_PER_PAGE 6 |}),
     {| history_file := Some saved; output_dir := output_dir two_days |}).
Proof.
  split; [reflexivity |].
  split; [reflexivity |].
  split; [reflexivity |].
  apply (settings_post_defaults cpython_3_12 no_string no_string
           [("income", JInt 5)] two_days); reflexivity.
Defined.

(** ** Dictionaries read in the order of their sorted keys *)

Section Sorted_map.
Variables A B : Type.
Variable key : A -> string.
Variable key' : B -> string.
Variable g : A -> B.
Hypothesis key_g : forall x, key' (g x) = key x.

Lemma insert_desc_map (x : A) (l : list A) :
  insert_desc key' (g x) (map g l) = map g (insert_desc key x l).
Proof.
  induction l as [|y l IH]; cbn [map insert_desc]; [reflexivity |].
  rewrite !key_g. destruct (String.ltb (key x) (key y)); cbn [map];
    [now rewrite IH | reflexivity].
Qed.

Lemma sorted_desc_map (l : list A) :
  sorted_desc key' (map g l) = map g (sorted_desc key l).
Proof.
  induction l as [|x l IH]; cbn [map sorted_desc fold_right]; [reflexivity |].
  fold (sorted_desc key' (map g l)). fold (sorted_desc key l).
  now rewrite IH, insert_desc_map.
Qed.
End Sorted_map.

Section Keyed.
Variables A B : Type.
Variable key : A -> string.
Variable f : A -> list B.

(** Under keys that are pairwise distinct, the value found under the key of
    an entry is that entry. *)
Lemma find_key_In (l : list A) (e : A) :
  NoDup (map key l) -> In e l ->
  find (fun x => String.eqb (key x) (key e)) l = Some e.
Proof.
  induction l as [|x rest IH]; cbn [map In find]; [intros _ [] |].
  intros Hnd [->|Hin]; [now rewrite String.eqb_refl |].
  inversion Hnd as [|? ? Hnot Hrest]; subst.
  destruct (String.eqb_spec (key x) (key e)) as [E|_]; [| now apply IH].
  exfalso. apply Hnot. rewrite E. now apply in_map.
Qed.

(** [for k in sorted(d.keys(), reverse=True): ... d[k] ...] visits the
    values of the dictionary in the descending order of their keys. *)
Lemma values_by_sorted_keys (l : list A) :
  NoDup (map key l) ->
  flat_map (fun k => match find (fun x => String.eqb (key x) k) l with
                     | Some e => f e
                     | None => []
                     end)
           (sorted_desc (fun k => k) (map key l)) =
  flat_map f (sorted_desc key l).
Proof.
  intros Hnd.
  rewrite (sorted_desc_map A string key (fun k => k) key (fun _ => eq_refl)).
  assert (Hall : forall e, In e (sorted_desc key l) -> In e l).
  { intros e. apply Permutation_in, sorted_desc_perm. }
  induction (sorted_desc key l) as [|e r IH]; cbn [map flat_map];
    [reflexivity |].
  rewrite (find_key_In l e Hnd) by (apply Hall; now left).
  f_equal. apply IH. intros x Hx. apply Hall. now right.
Qed.
End Keyed.

Lemma flat_map_singleton {A B : Type} (g : A -> B) (l : list A) :
  flat_map (fun x => [g x]) l = map g l.
Proof. induction l as [|x l IH]; cbn; [reflexivity | now rewrite IH]. Qed.

(** ** The entries of the monthly summary *)

Lemma monthly_add_get (mm : string) (u : Entry.t) (monthly : list MonthAcc.t) :
  monthly_get mm (monthly_add u monthly) =
  month_step mm (monthly_get mm monthly) u.
Proof.
  unfold monthly_get, month_step.
  induction monthly as [|e rest IH]; cbn [monthly_add find].
  - cbn [month_add month_empty MonthAcc.month].
    destruct (String.eqb_spec (month_of u) mm) as [->|_]; reflexivity.
  - destruct (String.eqb_spec (MonthAcc.month e) (month_of u)) as [Eu|Nu];
      cbn [find month_add MonthAcc.month].
    + rewrite Eu.
      destruct (String.eqb_spec (month_of u) mm) as [_|_]; reflexivity.
    + destruct (String.eqb_spec (MonthAcc.month e) mm) as [Ed|Nd].
      * destruct (String.eqb_spec (month_of u) mm) as [E|_]; [| reflexivity].
        congruence.
      * exact IH.
Qed.

Lemma monthly_fold_get (mm : string) (us : list Entry.t) :
  forall monthly : list MonthAcc.t,
    monthly_get mm (fold_left (fun monthly u => monthly_add u monthly) us monthly) =
    fold_left (month_step mm) us (monthly_get mm monthly).
Proof.
  induction us as [|u us IH]; intros monthly; cbn [fold_left]; [reflexivity |].
  now rewrite IH, monthly_add_get.
Qed.

Lemma month_add_fold (l : list Entry.t) : forall e : MonthAcc.t,
  fold_left (fun e u => month_add u e) l e =
  {| MonthAcc.month := MonthAcc.month e;
     MonthAcc.files := MonthAcc.files e + Z.of_nat (List.length l);
     MonthAcc.pages := MonthAcc.pages e + int_sum (map Entry.pages l);
     MonthAcc.cost := fold_left PrimFloat.add (map Entry.cost l) (MonthAcc.cost e);
     MonthAcc.days_active := days_seen l (MonthAcc.days_active e) |}.
Proof.
  unfold days_seen.
  induction l as [|u l IH]; intros e; cbn [fold_left map List.length].
  - destruct e as [mo fl pg ct ds].
    cbn [MonthAcc.month MonthAcc.files MonthAcc.pages MonthAcc.cost
         MonthAcc.days_active].
    rewrite int_sum_nil. f_equal; lia.
  - rewrite IH.
    cbn [month_add MonthAcc.month MonthAcc.files MonthAcc.pages MonthAcc.cost
         MonthAcc.days_active].
    rewrite int_sum_cons. f_equal; lia.
Qed.

Lemma month_fold_some (mm : string) (us : list Entry.t) : forall e : MonthAcc.t,
  fold_left (month_step mm) us (Some e) =
  Some (fold_left (fun e u => month_add u e) (of_month mm us) e).
Proof.
  induction us as [|u us IH]; intros e; cbn [fold_left of_month filter];
    [reflexivity |].
  unfold month_step at 2.
  destruct (String.eqb (month_of u) mm); cbn [fold_left]; apply IH.
Qed.

Lemma month_fold_none (mm : string) (us : list Entry.t) :
  fold_left (month_step mm) us None =
  match of_month mm us with
  | [] => None
  | l => Some (fold_left (fun e u => month_add u e) l (month_empty mm))
  end.
Proof.
  induction us as [|u us IH]; cbn [fold_left of_month filter]; [reflexivity |].
  unfold month_step at 2.
  destruct (String.eqb (month_of u) mm); [| exact IH].
  rewrite month_fold_some. reflexivity.
Qed.

Lemma set_add_In (x y : string) (s : list string) :
  In y (set_add x s) <-> y = x \/ In y s.
Proof.
  unfold set_add. destruct (existsb (String.eqb x) s) eqn:E.
  - apply existsb_eqb_In in E. split; [now right | intros [->|H]; assumption].
  - rewrite in_app_iff. cbn [In]. intuition.
Qed.

Lemma set_add_NoDup (x : string) (s : list string) :
  NoDup s -> NoDup (set_add x s).
Proof.
  intros H. unfold set_add. destruct (existsb (String.eqb x) s) eqn:E;
    [exact H |].
  apply NoDup_app; [exact H | repeat constructor; intros [] |].
  intros y Hy [<-|[]]. apply existsb_eqb_In in Hy. congruence.
Qed.

Lemma days_seen_spec (l : list Entry.t) : forall seen : list string,
  NoDup seen ->
  NoDup (days_seen l seen) /\
  forall x, In x (days_seen l seen) <-> In x seen \/ In x (map day_of l).
Proof.
  unfold days_seen.
  induction l as [|u l IH]; intros seen Hnd; cbn [fold_left map In].
  - split; [exact Hnd | intros x; tauto].
  - destruct (IH (set_add (day_of u) seen) (set_add_NoDup _ _ Hnd)) as [H1 H2].
    split; [exact H1 |]. intros x. rewrite H2, set_add_In. intuition.
Qed.

(** The set holds as many days as the records have distinct days. *)
Lemma days_seen_length (l : list Entry.t) :
  List.length (days_seen l []) =
  List.length (nodup string_dec (map day_of l)).
Proof.
  destruct (days_seen_spec l [] (NoDup_nil _)) as [Hnd Hin].
  apply Permutation_length, NoDup_Permutation;
    [exact Hnd | apply NoDup_nodup |].
  intros x. rewrite Hin, nodup_In. cbn [In]. tauto.
Qed.

Lemma monthly_add_months (u : Entry.t) (monthly : list MonthAcc.t) :
  map MonthAcc.month (monthly_add u monthly) =
  if existsb (String.eqb (month_of u)) (map MonthAcc.month monthly)
  then map MonthAcc.month monthly
  else (map MonthAcc.month monthly ++ [month_of u])%list.
Proof.
  induction monthly as [|e rest IH]; cbn [monthly_add map existsb];
    [reflexivity |].
  rewrite (String.eqb_sym (month_of u) (MonthAcc.month e)).
  destruct (String.eqb (MonthAcc.month e) (month_of u)); cbn [map orb];
    [reflexivity |].
  rewrite IH.
  now destruct (existsb (String.eqb (month_of u)) (map MonthAcc.month rest)).
Qed.

Lemma monthly_fold_nodup (us : list Entry.t) : forall monthly : list MonthAcc.t,
  NoDup (map MonthAcc.month monthly) ->
  NoDup (map MonthAcc.month
             (fold_left (fun monthly u => monthly_add u monthly) us monthly)).
Proof.
  induction us as [|u us IH]; intros monthly Hnd; cbn [fold_left];
    [exact Hnd |].
  apply IH. rewrite monthly_add_months.
  destruct (existsb (String.eqb (month_of u)) (map MonthAcc.month monthly)) eqn:E;
    [exact Hnd |].
  apply NoDup_app; [exact Hnd | repeat constructor; intros [] |].
  intros x Hx [<-|[]]. apply existsb_eqb_In in Hx. congruence.
Qed.

(** The second loop of [monthly_summary] closes the entries of the
    dictionary, the latest month first. *)
Lemma monthly_summary_sorted (d : disk) :
  monthly_summary d =
  map month_close
      (sorted_desc MonthAcc.month
         (fold_left (fun monthly u => monthly_add u monthly)
                    (History.uploads (load_history d)) [])).
Proof.
  unfold monthly_summary, monthly_get.
  rewrite <- flat_map_singleton.
  apply (values_by_sorted_keys MonthAcc.t Month.t MonthAcc.month
           (fun e => [month_close e])).
  apply monthly_fold_nodup. constructor.
Qed.

Lemma find_month_close (mm : string) (l : list MonthAcc.t) :
  find_month mm (map month_close l) = option_map month_close (monthly_get mm l).
Proof.
  unfold find_month, monthly_get.
  induction l as [|e rest IH]; cbn [map find]; [reflexivity |].
  cbn [month_close Month.month].
  now destruct (String.eqb (MonthAcc.month e) mm).
Qed.

Lemma monthly_get_sorted (mm : string) (l : list MonthAcc.t) :
  monthly_get mm (sorted_desc MonthAcc.month l) = monthly_get mm l.
Proof. apply sorted_desc_find. Qed.

(** The entry of a month, before its fields are summed up. *)
Lemma monthly_summary_lookup (d : disk) (mm : string) :
  find_month mm (monthly_summary d) =
  match of_month mm (History.uploads (load_history d)) with
  | [] => None
  | l => Some (month_close (fold_left (fun e u => month_add u e) l
                                      (month_empty mm)))
  end.
Proof.
  rewrite monthly_summary_sorted, find_month_close, monthly_get_sorted,
    monthly_fold_get.
  change (monthly_get mm []) with (@None MonthAcc.t).
  rewrite month_fold_none.
  now destruct (of_month mm (History.uploads (load_history d))).
Qed.

Lemma month_close_entry (mm : string) (l : list Entry.t) :
  month_close (fold_left (fun e u => month_add u e) l (month_empty mm)) =
  month_entry mm l.
Proof.
  rewrite month_add_fold. unfold month_close, month_entry.
  cbn [MonthAcc.month MonthAcc.files MonthAcc.pages MonthAcc.cost
       MonthAcc.days_active month_empty].
  now rewrite days_seen_length.
Qed.

(** X16. What [monthly_summary] answers for one month: the number of its records,
    their pages, their costs added from the left to 0.0 and rounded to 4
    decimals, and the number of distinct days they fall on. *)
Theorem monthly_summary_entry :
  forall (d : disk) (mm : string),
    find_month mm (monthly_summary d) =
    match of_month mm (History.uploads (load_history d)) with
    | [] => None
    | l => Some (month_entry mm l)
    end.
Proof.
  intros d mm.
  rewrite monthly_summary_lookup.
  destruct (of_month mm (History.uploads (load_history d))) as [|u l];
    [reflexivity |].
  now rewrite month_close_entry.
Qed.

Lemma find_month_None (mm : string) (months : list Month.t) :
  find_month mm months = None <-> ~ In mm (map Month.month months).
Proof.
  unfold find_month. induction months as [|e rest IH]; cbn [find map In].
  - tauto.
  - destruct (String.eqb_spec (Month.month e) mm) as [E|N].
    + split; [discriminate | intros H; exfalso; apply H; now left].
    + rewrite IH. tauto.
Qed.

Lemma find_month_In (months : list Month.t) (e : Month.t) :
  NoDup (map Month.month months) -> In e months ->
  find_month (Month.month e) months = Some e.
Proof.
  unfold find_month.
  induction months as [|x rest IH]; cbn [map In find]; [intros _ [] |].
  intros Hnd [->|Hin]; [now rewrite String.eqb_refl |].
  inversion Hnd as [|? ? Hnot Hrest]; subst.
  destruct (String.eqb_spec (Month.month x) (Month.month e)) as [E|_];
    [| now apply IH].
  exfalso. apply Hnot. rewrite E. now apply in_map.
Qed.

Lemma nodup_length_le (l : list string) :
  (List.length (nodup string_dec l) <= List.length l)%nat.
Proof.
  induction l as [|x l IH]; cbn [nodup List.length]; [lia |].
  destruct (in_dec string_dec x l); cbn [List.length]; lia.
Qed.

Lemma nodup_nonempty (x : string) (l : list string) :
  (1 <= List.length (nodup string_dec (x :: l)))%nat.
Proof.
  destruct (nodup string_dec (x :: l)) as [|y r] eqn:E; cbn [List.length];
    [| lia].
  exfalso. assert (H : In x (nodup string_dec (x :: l)))
    by (apply nodup_In; now left).
  rewrite E in H. destruct H.
Qed.

Lemma monthly_summary_nodup (d : disk) :
  NoDup (map Month.month (monthly_summary d)).
Proof.
  rewrite monthly_summary_sorted, map_map.
  cbn [month_close Month.month].
  eapply Permutation_NoDup.
  - apply Permutation_map. symmetry. apply sorted_desc_perm.
  - apply monthly_fold_nodup. constructor.
Qed.

(** An entry of the answer is the entry of its month. *)
Lemma monthly_summary_In (d : disk) (e : Month.t) :
  In e (monthly_summary d) ->
  of_month (Month.month e) (History.uploads (load_history d)) <> [] /\
  e = month_entry (Month.month e)
        (of_month (Month.month e) (History.uploads (load_history d))).
Proof.
  intros He.
  pose proof (find_month_In _ e (monthly_summary_nodup d) He) as Hfind.
  rewrite monthly_summary_lookup in Hfind.
  destruct (of_month (Month.month e) (History.uploads (load_history d)))
    as [|u l]; [discriminate |].
  split; [discriminate |].
  rewrite month_close_entry in Hfind. congruence.
Qed.

(** X17. One entry a month: the months of [monthly_summary] are pairwise distinct,
    the latest first, and they are the months of the stored records; each
    entry counts at least one active day and no more active days than
    files. *)
Theorem monthly_summary_months :
  forall d : disk,
    let months := monthly_summary d in
    NoDup (map Month.month months) /\
    StronglySorted (desc_by Month.month) months /\
    (forall mm, In mm (map Month.month months) <->
                exists u, In u (History.uploads (load_history d)) /\
                          month_of u = mm) /\
    (forall e, In e months ->
               1 <= Month.days_active e <= Month.files e).
Proof.
  intros d months. subst months.
  split; [apply monthly_summary_nodup |]. split; [| split].
  - rewrite monthly_summary_sorted.
    rewrite <- (sorted_desc_map MonthAcc.t Month.t MonthAcc.month Month.month
                  month_close (fun _ => eq_refl)).
    apply sorted_desc_sorted.
  - intros mm.
    destruct (find_month mm (monthly_summary d)) as [e|] eqn:Hfind.
    + assert (Hin : In mm (map Month.month (monthly_summary d))).
      { destruct (in_dec string_dec mm (map Month.month (monthly_summary d)))
          as [H|H]; [exact H |]. apply find_month_None in H. congruence. }
      split; [intros _ | intros _; exact Hin].
      rewrite monthly_summary_lookup in Hfind.
      destruct (of_month mm (History.uploads (load_history d))) as [|u l] eqn:Hm;
        [discriminate |].
      assert (Hu : In u (of_month mm (History.uploads (load_history d))))
        by (rewrite Hm; now left).
      apply filter_In in Hu as [Hu Hmo]. apply String.eqb_eq in Hmo.
      now exists u.
    + pose proof (proj1 (find_month_None mm _) Hfind) as Hnot.
      split; [intros H; contradiction |].
      intros (u & Hu & Hmo). exfalso.
      rewrite monthly_summary_lookup in Hfind.
      assert (Hin : In u (of_month mm (History.uploads (load_history d))))
        by (apply filter_In; split; [exact Hu | now apply String.eqb_eq]).
      destruct (of_month mm (History.uploads (load_history d)));
        [destruct Hin | discriminate].
  - intros e He.
    destruct (monthly_summary_In d e He) as [Hne ->].
    destruct (of_month (Month.month e) (History.uploads (load_history d)))
      as [|u l]; [contradiction |].
    unfold month_entry. cbn [Month.days_active Month.files].
    pose proof (nodup_length_le (map day_of (u :: l))) as Hle.
    pose proof (nodup_nonempty (day_of u) (map day_of l)) as Hge.
    rewrite length_map in Hle. cbn [map] in *. lia.
Qed.

(** ** The months against the days *)

Lemma str_take_take (s : string) : forall n m : nat,
  (n <= m)%nat -> str_take n (str_take m s) = str_take n s.
Proof.
  induction s as [|c s IH]; intros n m Hnm; cbn [str_take]; [reflexivity |].
  destruct (continues c) eqn:Hc.
  - cbn [str_take]. rewrite Hc. now rewrite IH.
  - destruct m as [|m].
    + assert (n = 0%nat) as -> by lia. reflexivity.
    + cbn [str_take]. rewrite Hc. destruct n as [|n]; [reflexivity |].
      rewrite IH by lia. reflexivity.
Qed.

Lemma month_of_day (u : Entry.t) : month_of u = str_take 7 (day_of u).
Proof.
  unfold month_of, day_of. symmetry. apply str_take_take. lia.
Qed.

Lemma int_sum_filter {A : Type} (p : A -> bool) (F : A -> Z) (l : list A) :
  int_sum (map F (filter p l)) =
  int_sum (map (fun x => if p x then F x else 0) l).
Proof.
  induction l as [|x l IH]; cbn [filter map]; [reflexivity |].
  rewrite int_sum_cons, <- IH. destruct (p x); cbn [map];
    [now rewrite int_sum_cons | lia].
Qed.

Section Daily_sums_where.
(** A field of the day entries adds up a weight of the records, counted on
    the days that satisfy [P] only. *)
Variable P : string -> bool.
Variable F : Day.t -> Z.
Variable w : Entry.t -> Z.
Hypothesis F_add : forall u e, F (day_add u e) = F e + w u.
Hypothesis F_empty : forall dd, F (day_empty dd) = 0.
Hypothesis F_round : forall e, F (day_round e) = F e.

Lemma daily_add_sum_where (u : Entry.t) (daily : list Day.t) :
  int_sum (map (where_key P Day.date F) (daily_add u daily)) =
  int_sum (map (where_key P Day.date F) daily) + where_key P day_of w u.
Proof.
  unfold where_key.
  induction daily as [|e rest IH]; cbn [daily_add map].
  - rewrite int_sum_cons, int_sum_nil. cbn [day_add day_empty Day.date].
    rewrite F_add, F_empty. destruct (P (day_of u)); lia.
  - destruct (String.eqb_spec (Day.date e) (day_of u)) as [E|_]; cbn [map];
      rewrite !int_sum_cons.
    + cbn [day_add Day.date]. rewrite <- E, F_add.
      destruct (P (Day.date e)); lia.
    + rewrite IH. lia.
Qed.

Lemma daily_fold_sum_where (us : list Entry.t) : forall daily : list Day.t,
  int_sum (map (where_key P Day.date F)
               (fold_left (fun daily u => daily_add u daily) us daily)) =
  int_sum (map (where_key P Day.date F) daily) +
  int_sum (map (where_key P day_of w) us).
Proof.
  induction us as [|u us IH]; intros daily; cbn [fold_left map].
  - rewrite int_sum_nil. lia.
  - rewrite IH, daily_add_sum_where, int_sum_cons. lia.
Qed.

Lemma daily_summary_sum_where (d : disk) :
  int_sum (map F (filter (fun e => P (Day.date e)) (daily_summary None None d))) =
  int_sum (map w (filter (fun u => P (day_of u))
                         (History.uploads (load_history d)))).
Proof.
  rewrite !int_sum_filter.
  change (fun x : Day.t => if P (Day.date x) then F x else 0)
    with (where_key P Day.date F).
  change (fun x : Entry.t => if P (day_of x) then w x else 0)
    with (where_key P day_of w).
  unfold daily_summary, daily_of.
  rewrite sorted_desc_sum, map_map.
  rewrite (map_ext (fun e => where_key P Day.date F (day_round e))
                   (where_key P Day.date F))
    by (intros e; unfold where_key; cbn [day_round Day.date];
        change (F {| Day.date := Day.date e; Day.files := Day.files e;
                     Day.pages := Day.pages e;
                     Day.cost := round_float (Day.cost e) 4;
                     Day.filenames := Day.filenames e |})
          with (F (day_round e)); now rewrite F_round).
  rewrite daily_fold_sum_where. cbn [filter_dates map].
  rewrite int_sum_nil. lia.
Qed.
End Daily_sums_where.

(** Days that are pairwise distinct stay so when some of them are kept. *)
Lemma kept_days_distinct (keep : Day.t -> bool) (days : list Day.t) :
  NoDup (map Day.date days) -> NoDup (map Day.date (filter keep days)).
Proof.
  intros Hdistinct.
  induction days as [|e rest IH]; cbn [map filter] in *; [exact Hdistinct |].
  apply NoDup_cons_iff in Hdistinct as [Hfresh Hrest].
  destruct (keep e); cbn [map]; [| exact (IH Hrest)].
  apply NoDup_cons; [| exact (IH Hrest)].
  intros Hin. apply Hfresh.
  apply in_map_iff in Hin as (e' & Hdate & Hkept).
  apply filter_In in Hkept as [Hkept _].
  rewrite <- Hdate. now apply in_map.
Qed.

Lemma of_month_by_day (mm : string) (us : list Entry.t) :
  of_month mm us =
  filter (fun u => String.eqb (str_take 7 (day_of u)) mm) us.
Proof.
  unfold of_month. apply filter_ext. intros u. now rewrite month_of_day.
Qed.

(** X18. The monthly summary agrees with the daily summary: an entry of a month
    counts the files and the pages of the day entries of that month, and its
    active days are the number of these day entries. *)
Theorem monthly_agrees_with_daily :
  forall (d : disk) (e : Month.t),
    In e (monthly_summary d) ->
    let days := days_of_month (Month.month e) (daily_summary None None d) in
    Month.files e = int_sum (map Day.files days) /\
    Month.pages e = int_sum (map Day.pages days) /\
    Month.days_active e = Z.of_nat (List.length days).
Proof.
  intros d e He days.
  destruct (monthly_summary_In d e He) as [_ He'].
  set (mm := Month.month e) in *.
  set (us := History.uploads (load_history d)) in *.
  subst days. unfold days_of_month.
  split; [| split].
  - rewrite (daily_summary_sum_where
               (fun x => String.eqb (str_take 7 x) mm) Day.files (fun _ => 1))
      by reflexivity.
    fold us. rewrite <- of_month_by_day, <- int_sum_length.
    rewrite He' at 1. reflexivity.
  - rewrite (daily_summary_sum_where
               (fun x => String.eqb (str_take 7 x) mm) Day.pages Entry.pages)
      by reflexivity.
    fold us. rewrite <- of_month_by_day. rewrite He' at 1. reflexivity.
  - rewrite He' at 1. cbn [month_entry Month.days_active]. f_equal.
    rewrite <- (length_map Day.date
                  (filter (fun x => String.eqb (str_take 7 (Day.date x)) mm)
                          (daily_summary None None d))).
    apply Permutation_length, NoDup_Permutation.
    + apply NoDup_nodup.
    + apply kept_days_distinct, daily_summary_nodup.
    + intros dd. rewrite nodup_In. split.
      * intros Hin. apply in_map_iff in Hin as (u & Hday & Hu).
        apply filter_In in Hu as [Hu Hmo].
        rewrite month_of_day, Hday in Hmo.
        assert (Hin : In dd (map Day.date (daily_summary None None d))).
        { apply daily_summary_has_day. exists u. repeat split; assumption. }
        apply in_map_iff in Hin as (x & Hx & Hin).
        apply in_map_iff. exists x. split; [exact Hx |].
        apply filter_In. split; [exact Hin |]. now rewrite Hx.
      * intros Hin. apply in_map_iff in Hin as (x & Hx & Hin).
        apply filter_In in Hin as [Hin Hmo]. rewrite Hx in Hmo.
        assert (Hdd : In dd (map Day.date (daily_summary None None d)))
          by (rewrite <- Hx; now apply in_map).
        apply daily_summary_has_day in Hdd as (u & Hu & _ & Hday).
        apply in_map_iff. exists u. split; [exact Hday |].
        apply filter_In. split; [exact Hu |].
        now rewrite month_of_day, Hday.
Qed.

Lemma monthly_agrees_with_daily_witness :
  In january (monthly_summary three_records) /\
  let days :=
    days_of_month (Month.month january)
                  (daily_summary None None three_records) in
  Month.files january = int_sum (map Day.files days) /\
  Month.pages january = int_sum (map Day.pages days) /\
  Month.days_active january = Z.of_nat (List.length days).
Proof.
  split; [left; vm_compute; reflexivity |].
  apply (monthly_agrees_with_daily three_records january).
  left; vm_compute; reflexivity.
Defined.

(** ** The workbook against the views *)

Lemma traverse_map {A B C : Type} (f : A -> outcome B) (g : B -> C)
    (h : A -> C) :
  (forall x y, f x = Returned y -> g y = h x) ->
  forall (xs : list A) (ys : list B),
    traverse f xs = Returned ys -> map g ys = map h xs.
Proof.
  intros Hf xs. induction xs as [|x xs IH]; intros ys; cbn [traverse].
  - intros [= <-]. reflexivity.
  - destruct (f x) as [y|e] eqn:Ex; cbn [bind]; [| discriminate].
    destruct (traverse f xs) as [ys'|e]; cbn [bind]; [| discriminate].
    intros [= <-]. cbn [map]. now rewrite (Hf x y Ex), (IH ys' eq_refl).
Qed.

Lemma xl_daily_add_simulates (u : Entry.t) (daily : list Day.t) :
  xl_daily_add u (map xl_of_day daily) = map xl_of_day (daily_add u daily).
Proof.
  induction daily as [|e rest IH]; cbn [map xl_daily_add daily_add];
    [reflexivity |].
  cbn [xl_of_day XlDay.date]. fold (day_of u).
  destruct (String.eqb (Day.date e) (day_of u)); cbn [map];
    [reflexivity |].
  f_equal. exact IH.
Qed.

Lemma xl_daily_fold_simulates (us : list Entry.t) : forall daily : list Day.t,
  fold_left (fun daily u => xl_daily_add u daily) us (map xl_of_day daily) =
  map xl_of_day (fold_left (fun daily u => daily_add u daily) us daily).
Proof.
  induction us as [|u us IH]; intros daily; cbn [fold_left]; [reflexivity |].
  now rewrite xl_daily_add_simulates, IH.
Qed.

Lemma check_cell_returns (lib : Lib.t) (s r : string) :
  check_cell lib s = Returned r -> r = s.
Proof.
  unfold check_cell. destruct (Lib.cell_accepts lib s); [| discriminate].
  now intros [= <-].
Qed.

Lemma xl_daily_row_cells (lib : Lib.t) (e : XlDay.t) (r : DailyRow.t) :
  xl_daily_row lib e = Returned r -> r = xl_daily_cells e.
Proof.
  unfold xl_daily_row.
  destruct (check_cell lib (XlDay.date e)) as [date|err] eqn:Hdate;
    cbn [bind]; [| discriminate].
  apply check_cell_returns in Hdate as ->. now intros [= <-].
Qed.

Lemma save_excel_daily_rows (lib : Lib.t) (data : History.t) (wb : workbook) :
  save_excel lib data = Returned wb ->
  daily_rows wb =
  map row_of_day
      (sorted_desc Day.date (map day_round (daily_of (History.uploads data)))).
Proof.
  unfold save_excel.
  destruct (traverse (check_cell lib) _) as [header|e]; cbn [bind];
    [| discriminate].
  destruct (traverse (upload_row lib) (History.uploads data)) as [rows|e];
    cbn [bind]; [| discriminate].
  destruct (traverse (check_cell lib) _) as [header_daily|e]; cbn [bind];
    [| discriminate].
  destruct (traverse (xl_daily_row lib) _) as [rows_daily|e] eqn:Hdaily;
    cbn [bind]; [| discriminate].
  intros [= <-]. cbn [daily_rows].
  apply (traverse_map (xl_daily_row lib) (fun r => r) xl_daily_cells
           (xl_daily_row_cells lib)) in Hdaily.
  rewrite map_id in Hdaily. rewrite Hdaily. clear Hdaily.
  change (@nil XlDay.t) with (map xl_of_day []).
  rewrite xl_daily_fold_simulates. fold (daily_of (History.uploads data)).
  rewrite (values_by_sorted_keys XlDay.t XlDay.t XlDay.date
             (fun e => [e])).
  - rewrite flat_map_singleton, map_id.
    rewrite (sorted_desc_map Day.t XlDay.t Day.date XlDay.date xl_of_day
               (fun _ => eq_refl)).
    rewrite (sorted_desc_map Day.t Day.t Day.date Day.date day_round
               (fun _ => eq_refl)).
    rewrite !map_map. reflexivity.
  - rewrite map_map. cbn [xl_of_day XlDay.date].
    apply daily_fold_nodup. constructor.
Qed.

(** X19. When [save_excel] succeeds on the stored document, the sheet
    "Sumar Zilnic" lists the entries of the unbounded daily summary, in its
    order and with its numbers, and the sheet "Upload History" has one row
    per stored record, in the stored order, with the day, the name, the
    pages and the cost rounded to 4 decimals of the record. *)
Theorem excel_agrees_with_views :
  forall (lib : Lib.t) (d : disk) (wb : workbook),
    save_excel lib (load_history d) = Returned wb ->
    daily_rows wb = map row_of_day (daily_summary None None d) /\
    map (fun r => (UploadRow.date r, UploadRow.filename r, UploadRow.pages r,
                   UploadRow.cost r))
        (uploads_rows wb) =
      map (fun u => (day_of u, Entry.filename u, Entry.pages u,
                     round_float (Entry.cost u) 4))
          (History.uploads (load_history d)).
Proof.
  intros lib d wb Hsave. split.
  - rewrite (save_excel_daily_rows lib _ wb Hsave). reflexivity.
  - unfold save_excel in Hsave.
    destruct (traverse (check_cell lib) _) as [header|e]; cbn [bind] in Hsave;
      [| discriminate].
    destruct (traverse (upload_row lib) (History.uploads (load_history d)))
      as [rows|e] eqn:Hrows; cbn [bind] in Hsave; [| discriminate].
    destruct (traverse (check_cell lib) _) as [header_daily|e];
      cbn [bind] in Hsave; [| discriminate].
    destruct (traverse (xl_daily_row lib) _) as [rows_daily|e];
      cbn [bind] in Hsave; [| discriminate].
    injection Hsave as <-. cbn [uploads_rows].
    apply (traverse_map (upload_row lib)) with (2 := Hrows).
    intros u r. unfold upload_row.
    destruct (truediv_int_int (Entry.size_bytes u) (1024 * 1024)); cbn [bind];
      [| discriminate].
    destruct (check_cell lib (str_take 8 (Entry.id u))) as [id|e];
      cbn [bind]; [| discriminate].
    destruct (check_cell lib (str_take 10 (Entry.timestamp u)))
      as [date|e] eqn:Hdate; cbn [bind]; [| discriminate].
    destruct (check_cell lib (if Nat.ltb 10 (str_len (Entry.timestamp u))
                              then str_take 8 (str_drop 11 (Entry.timestamp u))
                              else ""))
      as [time|e]; cbn [bind]; [| discriminate].
    destruct (check_cell lib (Entry.filename u)) as [name|e] eqn:Hname;
      cbn [bind]; [| discriminate].
    apply check_cell_returns in Hdate as ->.
    apply check_cell_returns in Hname as ->.
    intros [= <-]. reflexivity.
Qed.

Lemma excel_agrees_with_views_witness :
  save_excel cpython_3_11 (load_history three_records) =
    Returned sample_workbook /\
  daily_rows sample_workbook =
    map row_of_day (daily_summary None None three_records) /\
  map (fun r => (UploadRow.date r, UploadRow.filename r, UploadRow.pages r,
                 UploadRow.cost r))
      (uploads_rows sample_workbook) =
    map (fun u => (day_of u, Entry.filename u, Entry.pages u,
                   round_float (Entry.cost u) 4))
        (History.uploads (load_history three_records)).
Proof.
  split; [vm_compute; reflexivity |].
  apply (excel_agrees_with_views cpython_3_11 three_records sample_workbook).
  vm_compute; reflexivity.
Defined.

(** ** The windows of the statistics *)

Lemma string_compare_app (p a b : string) :
  String.compare (p ++ a) (p ++ b) = String.compare a b.
Proof.
  induction p as [|c p IH]; cbn [append String.compare]; [reflexivity |].
  now rewrite ascii_compare_refl.
Qed.

Lemma leb_app (p a b : string) :
  String.leb (p ++ a) (p ++ b) = String.leb a b.
Proof. unfold String.leb. now rewrite string_compare_app. Qed.

Lemma nonempty_app_r (a b : string) : nonempty b = true -> nonempty (a ++ b) = true.
Proof. destruct a; [intros H; exact H | reflexivity]. Qed.

Lemma strftime_Ymd_nonempty (t : datetime) : nonempty (strftime_Ymd t) = true.
Proof. unfold strftime_Ymd. now apply nonempty_app_r. Qed.

Lemma strftime_Ym01_nonempty (t : datetime) : nonempty (strftime_Ym01 t) = true.
Proof. unfold strftime_Ym01. now apply nonempty_app_r. Qed.

Lemma eqb_leb_both (a b : string) :
  String.eqb a b = (String.leb b a && String.leb a b)%bool.
Proof.
  destruct (String.eqb_spec a b) as [->|N].
  - now rewrite leb_refl.
  - destruct (String.leb b a) eqn:E1, (String.leb a b) eqn:E2; try reflexivity.
    exfalso. apply N. now apply String.leb_antisym.
Qed.

Lemma search_keeps_empty (lib : Lib.t) (u : Entry.t) :
  search_keeps lib "" u = true.
Proof. reflexivity. Qed.

(** The records on one day, and those from a day on, as queries of the
    history. *)
Lemma selected_on (lib : Lib.t) (day : string) (us : list Entry.t) :
  nonempty day = true ->
  selected lib (Some day) (Some day) "" us =
  filter (fun u => String.eqb (day_of u) day) us.
Proof.
  intros Hne. unfold selected. apply filter_ext. intros u.
  unfold in_range, truthy. rewrite Hne, search_keeps_empty, andb_true_r.
  symmetry. apply eqb_leb_both.
Qed.

Lemma selected_from (lib : Lib.t) (day : string) (us : list Entry.t) :
  nonempty day = true ->
  selected lib (Some day) None "" us =
  filter (fun u => String.leb day (day_of u)) us.
Proof.
  intros Hne. unfold selected. apply filter_ext. intros u.
  unfold in_range, truthy. rewrite Hne, search_keeps_empty.
  now rewrite !andb_true_r.
Qed.

Lemma selected_all (lib : Lib.t) (us : list Entry.t) :
  selected lib None None "" us = us.
Proof. unfold selected. apply filter_keeps_all. reflexivity. Qed.

Lemma days_before_month_bounds (y m : Z) :
  1 <= m <= 12 -> 0 <= days_before_month y m <= 335.
Proof.
  intros Hm. unfold days_before_month.
  assert (Hcases : m = 1 \/ m = 2 \/ m = 3 \/ m = 4 \/ m = 5 \/ m = 6 \/
                   m = 7 \/ m = 8 \/ m = 9 \/ m = 10 \/ m = 11 \/ m = 12)
    by lia.
  destruct (is_leap y);
    repeat (destruct Hcases as [-> | Hcases]); try subst m;
    vm_compute; split; discriminate.
Qed.

(** A date from year 2 on has a date seven days before it. *)
Lemma minus_days_returns (t : datetime) :
  2 <= year t <= 9999 -> 1 <= month t <= 12 -> 1 <= day t <= 31 ->
  exists week_start, minus_days t 7 = Returned week_start.
Proof.
  intros Hy Hm Hd. unfold minus_days, ymd2ord. cbv zeta.
  pose proof (days_before_month_bounds (year t) (month t) Hm) as Hdbm.
  set (n := days_before_year (year t) + days_before_month (year t) (month t) +
            day t - 7).
  assert (Hn : 0 < n <= 3652059).
  { unfold n, days_before_year. cbv zeta.
    generalize dependent (days_before_month (year t) (month t)). intros dbm Hdbm.
    Z.div_mod_to_equations. lia. }
  destruct Hn as [Hlo Hhi].
  apply Z.ltb_lt in Hlo. apply Z.leb_le in Hhi. rewrite Hlo, Hhi. cbn [andb].
  destruct (ord2ymd n) as [[y' m'] d']. eexists. reflexivity.
Qed.

(** X20. For every clock reading from year 2 on [get_stats] answers, and each of
    its windows counts the files and the pages that [get_history] reports
    for the matching bounds: no bound for the total, today's date as both
    bounds for today, the date seven days before as lower bound for the
    week, the first day of the month as lower bound for the month. *)
Theorem stats_agree_with_history :
  forall (lib : Lib.t) (now_today now_week now_month : datetime) (d : disk),
    2 <= year now_week <= 9999 ->
    1 <= month now_week <= 12 ->
    1 <= day now_week <= 31 ->
    exists week_start r,
      minus_days now_week 7 = Returned week_start /\
      get_stats lib now_today now_week now_month d = Returned r /\
      let counts w := (w_files w, w_pages w) in
      let history date_from date_to :=
        (h_total_files (get_history lib date_from date_to "" d),
         h_total_pages (get_history lib date_from date_to "" d)) in
      counts (s_total r) = history None None /\
      counts (s_today r) =
        history (Some (strftime_Ymd now_today)) (Some (strftime_Ymd now_today)) /\
      counts (s_week r) = history (Some (strftime_Ymd week_start)) None /\
      counts (s_month r) = history (Some (strftime_Ym01 now_month)) None.
Proof.
  intros lib now_today now_week now_month d Hy Hm Hd.
  destruct (minus_days_returns now_week Hy Hm Hd) as [week_start Hweek].
  exists week_start. unfold get_stats. rewrite Hweek. cbn [bind].
  eexists. split; [reflexivity |]. split; [reflexivity |].
  cbn [s_total s_today s_week s_month window_of w_files w_pages].
  repeat split;
    match goal with
    | |- context [get_history ?l ?a ?b ?s ?d] =>
        destruct (get_history_counts l a b s d) as [-> ->]
    end;
    rewrite ?selected_all, ?selected_on, ?selected_from
      by (apply strftime_Ymd_nonempty || apply strftime_Ym01_nonempty);
    reflexivity.
Qed.

Lemma filter_length_le {A : Type} (f g : A -> bool) (l : list A) :
  (forall x, In x l -> f x = true -> g x = true) ->
  (List.length (filter f l) <= List.length (filter g l))%nat.
Proof.
  induction l as [|x l IH]; intros H; cbn [filter]; [apply Nat.le_refl |].
  assert (IH' := IH (fun y Hy => H y (or_intror Hy))).
  destruct (f x) eqn:Hf.
  - rewrite (H x (or_introl eq_refl) Hf). cbn [List.length]. lia.
  - destruct (g x); cbn [List.length]; lia.
Qed.

(** The first day of a month is not after any of its days, as strings. *)
Lemma month_start_le_day (now : datetime) :
  1 <= day now <= 31 ->
  String.leb (strftime_Ym01 now) (strftime_Ymd now) = true.
Proof.
  intros Hd. unfold strftime_Ym01, strftime_Ymd.
  rewrite !leb_app.
  change "-01" with ("-" ++ "01"). rewrite leb_app.
  apply (checked_on_range (fun z => String.leb "01" (zero_padded 2 z)) 1 31);
    [vm_compute; reflexivity | lia].
Qed.

(** X21. Read at one instant from year 2 on, [get_stats] answers and its windows
    are nested: the files of today are among those of the month, which are
    among all files, as are those of the week. *)
Theorem stats_windows_nested :
  forall (lib : Lib.t) (now : datetime) (d : disk),
    2 <= year now <= 9999 ->
    1 <= month now <= 12 ->
    1 <= day now <= 31 ->
    exists r,
      get_stats lib now now now d = Returned r /\
      0 <= w_files (s_today r) <= w_files (s_month r) /\
      w_files (s_month r) <= w_files (s_total r) /\
      0 <= w_files (s_week r) <= w_files (s_total r).
Proof.
  intros lib now d Hy Hm Hday.
  destruct (minus_days_returns now Hy Hm Hday) as [week_start Hweek].
  unfold get_stats. rewrite Hweek. cbn [bind].
  eexists. split; [reflexivity |].
  cbn [s_total s_today s_week s_month window_of w_files].
  set (us := History.uploads (load_history d)).
  assert (Hall : forall f, (List.length (filter f us) <= List.length us)%nat).
  { intros f. rewrite <- (filter_keeps_all (fun _ => true) us) at 2
      by reflexivity.
    apply filter_length_le. reflexivity. }
  assert (Hmonth :
    (List.length (filter (fun u => String.eqb (day_of u) (strftime_Ymd now)) us)
     <= List.length
          (filter (fun u => String.leb (strftime_Ym01 now) (day_of u)) us))%nat).
  { apply filter_length_le. intros u _ Heq.
    apply String.eqb_eq in Heq. rewrite Heq.
    now apply month_start_le_day. }
  pose proof (Hall (fun u => String.leb (strftime_Ym01 now) (day_of u))).
  pose proof (Hall (fun u =>
                      String.leb (strftime_Ymd week_start) (day_of u))).
  lia.
Qed.

Lemma stats_agree_with_history_witness :
  2 <= year jan06 <= 9999 /\ 1 <= month jan06 <= 12 /\ 1 <= day jan06 <= 31 /\
  exists week_start r,
    minus_days jan06 7 = Returned week_start /\
    get_stats cpython_3_12 jan06 jan06 jan06 three_records = Returned r /\
    let counts w := (w_files w, w_pages w) in
    let history date_from date_to :=
      (h_total_files (get_history cpython_3_12 date_from date_to ""
                        three_records),
       h_total_pages (get_history cpython_3_12 date_from date_to ""
                        three_records)) in
    counts (s_total r) = history None None /\
    counts (s_today r) =
      history (Some (strftime_Ymd jan06)) (Some (strftime_Ymd jan06)) /\
    counts (s_week r) = history (Some (strftime_Ymd week_start)) None /\
    counts (s_month r) = history (Some (strftime_Ym01 jan06)) None.
Proof.
  split; [simpl; lia |]. split; [simpl; lia |]. split; [simpl; lia |].
  apply (stats_agree_with_history cpython_3_12 jan06 jan06 jan06
           three_records);
    simpl; lia.
Defined.

Lemma stats_windows_nested_witness :
  2 <= year jan06 <= 9999 /\ 1 <= month jan06 <= 12 /\ 1 <= day jan06 <= 31 /\
  exists r,
    get_stats cpython_3_12 jan06 jan06 jan06 three_records = Returned r /\
    0 <= w_files (s_today r) <= w_files (s_month r) /\
    w_files (s_month r) <= w_files (s_total r) /\
    0 <= w_files (s_week r) <= w_files (s_total r).
Proof.
  split; [simpl; lia |]. split; [simpl; lia |]. split; [simpl; lia |].
  apply (stats_windows_nested cpython_3_12 jan06 three_records); simpl; lia.
Defined.

(** The statistics of the sample on its second day. *)
Example get_stats_sample :
  forall compensated : bool,
    get_stats (cpython compensated) jan06 jan06 jan06 three_records =
      Returned stats_jan06.
Proof. intros []; vm_compute; reflexivity. Qed.

(** In the first week of year 1 the date seven days before does not exist
    and the route fails. *)
Example get_stats_first_week :
  forall lib : Lib.t,
    get_stats lib first_year first_year first_year three_records =
      Raised OverflowError.
Proof. reflexivity. Qed.

